(** * mapsutils: locations and routes resolved lazily through map services

    A shallow embedding of [mapsutils.py] and what it proves about the
    module.

    - Python values are the inductive type [pyval]; an exception raised
      is the [Raise] case of [result].
    - The objects of the classes [Localizacion] and [Ruta] live in
      stores indexed by references, so that two names of one object see
      the same attributes: a [Ruta] holds references to its start, its
      end and its stops.
    - A call that leaves the process (the Nominatim geocoder behind
      [OpenService], the function [_json_from_url]) appends an event to
      a trace and takes its answer from a [network], a function of the
      trace so far and of the request: the outside world may answer the
      same request differently the second time.
    - The functions of Python's library that the module calls ([repr]
      of a float or of a container, [urllib.parse.quote], [urlencode],
      [json.loads]) are the fields of a [runtime].  The facts hold for
      every runtime and every network; the runtime [python] and the
      scripted networks further down run the module on examples.

    - The other calls that leave the process (the translator behind
      [indicaciones_ruta], the directory, the download and the file
      read behind the images) append to a trace of their own and take
      their answers from an [io]; the geodesic distance of geopy is the
      field of a [geopy]. *)

From Stdlib Require Import ZArith Floats Ascii.
From stdpp Require Import base option list strings gmap pretty.

Set Warnings "-inexact-float,-register-all".

(** ** Python values and exceptions *)

Inductive pyval :=
| PyNone
| PyBool (b : bool)
| PyInt (z : Z)
| PyFloat (f : float)
| PyStr (s : string)
| PyTuple (l : list pyval)
| PyList (l : list pyval)
| PyDict (d : list (string * pyval)).

(** A [dict] whose keys are strings, in insertion order. *)
Abbreviation dict := (list (string * pyval)).

(** The exceptions.  [External] is one raised outside the module (the
    network is down, a text is not JSON).  [Dangling] is not an
    exception of Python: it is what the embedding answers when a
    reference names no object of the store, which no Python program can
    make happen. *)
Inductive exn :=
| ValueError (msg : string)
| TypeError
| KeyError (k : string)
| IndexError
| AttributeError
| UnboundLocalError
| OverflowError
| ZeroDivisionError
| External (what : string)
| Dangling.


Inductive result (A : Type) :=
| Ok (a : A)
| Raise (e : exn).
Arguments Ok {A} a.
Arguments Raise {A} e.

Global Instance result_ret : MRet result := @Ok.
Global Instance result_bind : MBind result :=
  λ A B k r, match r with Ok a => k a | Raise e => Raise e end.
Global Instance result_fmap : FMap result :=
  λ A B f r, match r with Ok a => Ok (f a) | Raise e => Raise e end.

(** *** Dictionaries *)

Fixpoint dict_get (d : dict) (k : string) : option pyval :=
  match d with
  | [] => None
  | (k', v) :: d' => if decide (k' = k) then Some v else dict_get d' k
  end.

(** [d[k] = v]: an existing key keeps its place, a new one goes last. *)
Fixpoint dict_set (d : dict) (k : string) (v : pyval) : dict :=
  match d with
  | [] => [(k, v)]
  | (k', v') :: d' =>
      if decide (k' = k) then (k', v) :: d' else (k', v') :: dict_set d' k v
  end.

(** [d.update(e)] *)
Definition dict_update (d e : dict) : dict :=
  fold_left (λ acc kv, dict_set acc kv.1 kv.2) e d.

Definition dict_keys (d : dict) : list string := d.*1.

(** *** Subscripts and [tuple()] *)

(** The characters of a [str].  A text is held as its UTF-8 bytes: a
    character is a byte that continues none, with the continuation
    bytes (10xxxxxx) that follow it. *)
Definition is_continuation_byte (c : ascii) : bool :=
  match c with
  | Ascii _ _ _ _ _ _ b6 b7 => b7 && negb b6
  end.

Definition char_strings (s : string) : list pyval :=
  let '(pending, chars) :=
    fold_right
      (λ c '(pending, chars),
         if is_continuation_byte c then (String c pending, chars)
         else (EmptyString, PyStr (String c pending) :: chars))
      (EmptyString, []) (String.list_ascii_of_string s) in
  match pending with
  | EmptyString => chars
  | _ => PyStr pending :: chars
  end.

(** [v[k]] for a string literal [k]. *)
Definition getitem_key (v : pyval) (k : string) : result pyval :=
  match v with
  | PyDict d => match dict_get d k with Some x => Ok x | None => Raise (KeyError k) end
  | _ => Raise TypeError
  end.

(** [v[i]] for a literal index [i >= 0]. *)
Definition getitem_idx (v : pyval) (i : nat) : result pyval :=
  match v with
  | PyTuple l | PyList l =>
      match l !! i with Some x => Ok x | None => Raise IndexError end
  | PyStr s =>
      match char_strings s !! i with Some x => Ok x | None => Raise IndexError end
  | PyDict _ => Raise (KeyError (pretty i))
  | _ => Raise TypeError
  end.

(** [tuple(v)] *)
Definition py_tuple (v : pyval) : result pyval :=
  match v with
  | PyTuple l | PyList l => Ok (PyTuple l)
  | PyStr s => Ok (PyTuple (char_strings s))
  | PyDict d => Ok (PyTuple (PyStr <$> dict_keys d))
  | _ => Raise TypeError
  end.

Definition is_none (v : pyval) : bool :=
  match v with PyNone => true | _ => false end.

(** [type(v) is tuple or type(v) is list] *)
Definition is_tuple_or_list (v : pyval) : bool :=
  match v with PyTuple _ | PyList _ => true | _ => false end.

(** [type(v) is str] *)
Definition is_str (v : pyval) : bool :=
  match v with PyStr _ => true | _ => false end.

(** *** Numbers

    A Python number is an [int] (unbounded, [Z]), a [bool] (an [int]
    that is 0 or 1) or a [float] (binary64, the kernel's [float]). *)

Inductive number :=
| NInt (z : Z)
| NFloat (f : float).

Definition as_number (v : pyval) : option number :=
  match v with
  | PyBool b => Some (NInt (if b then 1 else 0))
  | PyInt z => Some (NInt z)
  | PyFloat f => Some (NFloat f)
  | _ => None
  end.

Definition of_float_comparison (c : float_comparison) : option comparison :=
  match c with
  | FEq => Some Eq
  | FLt => Some Lt
  | FGt => Some Gt
  | FNotComparable => None
  end.

(** A float against an int, compared as the real numbers they denote;
    [None] when the float is not a number. *)
Definition float_int_compare (f : float) (k : Z) : option comparison :=
  match Prim2SF f with
  | S754_nan => None
  | S754_infinity s => Some (if s then Lt else Gt)
  | S754_zero _ => Some (0 ?= k)%Z
  | S754_finite s m e =>
      let v := if s then Z.neg m else Z.pos m in
      Some (if (0 <=? e)%Z then (v * 2 ^ e ?= k)%Z else (v ?= k * 2 ^ (- e))%Z)
  end.

Definition number_compare (a b : number) : option comparison :=
  match a, b with
  | NInt x, NInt y => Some (x ?= y)%Z
  | NFloat x, NFloat y => of_float_comparison (PrimFloat.compare x y)
  | NFloat x, NInt y => float_int_compare x y
  | NInt x, NFloat y => CompOpp <$> float_int_compare y x
  end.

Definition py_compare (test : comparison → bool) (a b : pyval) : result bool :=
  match as_number a, as_number b with
  | Some x, Some y =>
      Ok (match number_compare x y with Some c => test c | None => false end)
  | _, _ => Raise TypeError
  end.

(** [a > b], [a < b], [a <= b], [a >= b] where one side is a number
    literal; a side that is not a number raises [TypeError]. *)
Definition py_gt := py_compare (λ c, match c with Gt => true | _ => false end).
Definition py_lt := py_compare (λ c, match c with Lt => true | _ => false end).
Definition py_le := py_compare (λ c, match c with Gt => false | _ => true end).

(** [a or b] on two comparisons: [b] is looked at only when [a] is
    false. *)
Definition py_or (a b : result bool) : result bool :=
  a ≫= λ x : bool, if x then Ok true else b.

(** [float(z)]: the nearest binary64, ties to even; [OverflowError]
    when that is not finite. *)
Definition float_of_int (z : Z) : result float :=
  match binary_normalize 53 1024 z 0 false with
  | S754_infinity _ => Raise OverflowError
  | sf => Ok (SF2Prim sf)
  end.

Definition to_float (n : number) : result float :=
  match n with
  | NInt z => float_of_int z
  | NFloat f => Ok f
  end.

(** The quotient [x / y] of two positive ints, with the sign [neg],
    rounded once to the nearest binary64, ties to even.  The quotient
    is taken with enough binary digits that the rounding position lies
    inside it, and whether a remainder is left is kept as one more low
    digit. *)
Definition quotient_to_binary64 (neg : bool) (x y : Z) : spec_float :=
  let k := Z.max 0 (57 + Z.log2 y - Z.log2 x) in
  let q := (x * 2 ^ k / y)%Z in
  let sticky := if (x * 2 ^ k mod y =? 0)%Z then 0%Z else 1%Z in
  let m := (2 * q + sticky)%Z in
  binary_normalize 53 1024 (if neg then - m else m) (- (k + 1)) neg.

(** [a / b] on two ints. *)
Definition int_true_divide (a b : Z) : result float :=
  if (b =? 0)%Z then Raise ZeroDivisionError
  else
    let neg := xorb (a <? 0)%Z (b <? 0)%Z in
    if (a =? 0)%Z then Ok (if neg then (-0)%float else 0%float)
    else
      match quotient_to_binary64 neg (Z.abs a) (Z.abs b) with
      | S754_infinity _ => Raise OverflowError
      | sf => Ok (SF2Prim sf)
      end.

Definition is_zero (n : number) : bool :=
  match n with
  | NInt z => (z =? 0)%Z
  | NFloat f => PrimFloat.eqb f 0%float
  end.

(** [a / b] *)
Definition py_truediv (a b : pyval) : result pyval :=
  match as_number a, as_number b with
  | Some (NInt x), Some (NInt y) => PyFloat <$> int_true_divide x y
  | Some x, Some y =>
      fx ← to_float x;
      fy ← to_float y;
      if is_zero y then Raise ZeroDivisionError else Ok (PyFloat (fx / fy))
  | _, _ => Raise TypeError
  end.

Fixpoint string_repeat (s : string) (n : nat) : string :=
  match n with
  | O => EmptyString
  | S n' => s +:+ string_repeat s n'
  end.

Definition list_repeat (l : list pyval) (n : nat) : list pyval :=
  mjoin (replicate n l).

Definition as_int (v : pyval) : option Z :=
  match v with
  | PyBool b => Some (if b then 1 else 0)%Z
  | PyInt z => Some z
  | _ => None
  end.

Definition sequence_repeat (v : pyval) (n : Z) : option pyval :=
  match v with
  | PyStr s => Some (PyStr (string_repeat s (Z.to_nat n)))
  | PyTuple l => Some (PyTuple (list_repeat l (Z.to_nat n)))
  | PyList l => Some (PyList (list_repeat l (Z.to_nat n)))
  | _ => None
  end.

(** [a * b]: the product of two numbers, or a sequence repeated. *)
Definition py_mul (a b : pyval) : result pyval :=
  match as_number a, as_number b with
  | Some (NInt x), Some (NInt y) => Ok (PyInt (x * y))
  | Some x, Some y =>
      fx ← to_float x;
      fy ← to_float y;
      Ok (PyFloat (fx * fy))
  | None, Some (NInt n) =>
      match sequence_repeat a n with Some v => Ok v | None => Raise TypeError end
  | Some (NInt n), None =>
      match sequence_repeat b n with Some v => Ok v | None => Raise TypeError end
  | _, _ => Raise TypeError
  end.

(** ** What lies outside the module *)

(** Python's library, as far as the module calls it. *)
Record runtime := {
  repr : pyval → string;
  quote : string → string;
  urlencode : dict → string;
  json_loads : string → result pyval;
}.

(** [str(v)] *)
Definition py_str (rt : runtime) (v : pyval) : string :=
  match v with
  | PyNone => "None"
  | PyBool true => "True"
  | PyBool false => "False"
  | PyInt z => pretty z
  | PyStr s => s
  | _ => repr rt v
  end.

(** What geopy's geocoder answers: [latitude], [longitude], [address]. *)
Record Location := {
  latitude : float;
  longitude : float;
  address : string;
}.

(** A call that left the process. *)
Inductive event :=
| Reverse (user_agent : string) (query : pyval)
| Geocode (user_agent : string) (query : string)
| Fetch (url : string).

(** The answers of the outside world: each depends on the calls made so
    far and on the request; an answer is a value or an exception. *)
Record network := {
  nominatim_reverse : list event → string → pyval → result (option Location);
  nominatim_geocode : list event → string → string → result (option Location);
  fetch_json : list event → string → result pyval;
}.

(** What [IPython.display.Image(filename=...)] holds: the name of the
    file and what it read from it. *)
Record Image := {
  filename : string;
  content : string;
}.

(** The other calls that leave the process: the translator of
    [googletrans], [Path.mkdir], [urllib.request.urlretrieve] and the
    file that [Image] reads. *)
Inductive io_event :=
| Translate (text : pyval) (src dest : string)
| Mkdir (path : string)
| Urlretrieve (url file : string)
| ReadImage (file : string).

(** Their answers, each by the calls of these kinds made so far and by
    the request; [translate] answers the [text] of the translation. *)
Record io := {
  translate : list io_event → pyval → string → string → result pyval;
  mkdir : list io_event → string → result unit;
  urlretrieve : list io_event → string → string → result unit;
  read_image : list io_event → string → result string;
}.

(** [geopy.distance.geodesic(a, b).km] *)
Record geopy := {
  geodesic_km : pyval → pyval → result pyval;
}.

(** ** Computations: a state, and a value or an exception *)

Definition M (S A : Type) : Type := S → result A * S.

Global Instance M_ret {S} : MRet (M S) := λ A a s, (Ok a, s).
Global Instance M_bind {S} : MBind (M S) :=
  λ A B k m s,
    match m s with
    | (Ok a, s') => k a s'
    | (Raise e, s') => (Raise e, s')
    end.

Definition raise {S A} (e : exn) : M S A := λ s, (Raise e, s).

Definition lift {S A} (r : result A) : M S A := λ s, (r, s).

(** [try: body  except: handler] *)
Definition try_except {S A} (body handler : M S A) : M S A :=
  λ s,
    match body s with
    | (Ok a, s') => (Ok a, s')
    | (Raise _, s') => handler s'
    end.

(** The call [f(..., **kwargs)] fails when a key of [kwargs] names one
    of the parameters that the call already binds. *)
Definition keyword_arguments (bound : list string) (kwargs : dict) : result unit :=
  if bool_decide (Exists (λ k, k ∈ bound) (dict_keys kwargs))
  then Raise TypeError else Ok ().

Section Services.
Context (rt : runtime) (net : network).

(** ** Module-level functions (mapsutils.py, lines 30-85) *)

Definition _tuple_LatLng_to_string (latlng : pyval) : result pyval :=
  lat ← getitem_idx latlng 0;
  lng ← getitem_idx latlng 1;
  py_or (py_gt lat (PyInt 90)) (py_lt lat (PyInt (-90))) ≫= λ lat_out : bool,
  if lat_out then Raise (ValueError "Latitud inválida")
  else
    py_or (py_gt lng (PyInt 180)) (py_lt lng (PyInt (-180))) ≫= λ lng_out : bool,
    if lng_out then Raise (ValueError "Longitud inválida")
    else Ok (PyStr (py_str rt lat +:+ "," +:+ py_str rt lng)).

Definition _json_from_url (url : string) : M (list event) pyval :=
  λ tr, (fetch_json net tr url, tr ++ [Fetch url]).

Definition _posicion_a_string_url (ubicacion : pyval) : result pyval :=
  if is_tuple_or_list ubicacion then _tuple_LatLng_to_string ubicacion
  else if is_str ubicacion then Ok ubicacion
  else Ok PyNone.

(** [data['resourceSets'][0]['resources'][0]] *)
Definition first_resource (data : pyval) : result pyval :=
  sets ← getitem_key data "resourceSets";
  set0 ← getitem_idx sets 0;
  resources ← getitem_key set0 "resources";
  getitem_idx resources 0.

(** The stops of a route as strings: the start, the intermediate stops,
    the end. *)
Definition paradas_de (inicio final : pyval) (via : list pyval) : result (list pyval) :=
  let paradas := [] in
  p ← _posicion_a_string_url inicio;
  let paradas := paradas ++ [p] in
  paradas ← (if bool_decide (0 < length via)
             then ps ← mapM _posicion_a_string_url via; Ok (paradas ++ ps)
             else Ok paradas);
  p ← _posicion_a_string_url final;
  Ok (paradas ++ [p]).

(** The stops as query parameters: the loop over
    [zip(range(1, numero_paradas + 1), paradas)]. *)
Definition viajes_de (paradas : list pyval) : dict :=
  let numero_paradas := length paradas in
  fold_left
    (λ (viajes : dict) (nwp : nat * pyval),
       let (n, wp) := nwp in
       if bool_decide (n = 1 ∨ n = numero_paradas)
       then dict_set viajes ("wayPoint." +:+ pretty n) wp
       else dict_set viajes ("viaWayPoint." +:+ pretty n) wp)
    (zip (seq 1 numero_paradas) paradas) [].

(** The body that [OpenService._rest_ruta] (lines 194-245) and
    [BingService._rest_ruta] (lines 438-489) share word for word. *)
Definition rest_ruta (_url_rutas : string) (_api_key : pyval)
    (inicio final : pyval) (via : list pyval) (kwargs : dict) : M (list event) pyval :=
  _ ← lift (keyword_arguments ["self"; "inicio"; "final"; "via"] kwargs);
  paradas ← lift (paradas_de inicio final via);
  let viajes := viajes_de paradas in
  let kwargs := dict_update kwargs viajes in
  let kwargs := dict_update kwargs [("key", _api_key)] in
  let url := _url_rutas +:+ "?" in
  let url := url +:+ urlencode rt kwargs in
  data ← _json_from_url url;
  lift (first_resource data).

(** The query to the [Locations] service, shared by
    [BingService._rest_localizacion] (lines 407-436) and by the branch
    of [OpenService._rest_localizacion] taken when the geocoder found
    nothing (lines 154-186). *)
Definition rest_localizacion_bing (_url_localizacion : string) (_api_key : pyval)
    (ubicacion : pyval) (kwargs : dict) : M (list event) pyval :=
  let kwargs := dict_update kwargs [("key", _api_key)] in
  let url := _url_localizacion in
  let '(url, kwargs) :=
    if is_tuple_or_list ubicacion
    then (url +:+ "?", dict_update kwargs [("query", ubicacion)])
    else match ubicacion with
         | PyStr s => (url +:+ (("/" +:+ quote rt s) +:+ "?"), kwargs)
         | _ => (url, kwargs)
         end in
  let url := url +:+ urlencode rt kwargs in
  data ← _json_from_url url;
  lift (first_resource data).

Definition URL_BASE (version : pyval) : string :=
  "http://dev.virtualearth.net/REST/v" +:+ py_str rt version +:+ "/".

End Services.

Section ImageServices.
Context (rt : runtime) (out : io).

(** A value where Python needs a [str]: the operand of [+] next to a
    string literal. *)
Definition as_str (v : pyval) : result string :=
  match v with
  | PyStr s => Ok s
  | _ => Raise TypeError
  end.

(** The value that a call [f(..., **kwargs)] binds to the parameter
    [name] of default [d], and the entries of [kwargs] that are left
    for the [**kwargs] of [f] when [names] are parameters of [f]. *)
Definition keyword_or_default (kwargs : dict) (name : string) (d : pyval) : pyval :=
  default d (dict_get kwargs name).

Definition other_keywords (names : list string) (kwargs : dict) : dict :=
  filter (λ kv, kv.1 ∉ names) kwargs.

(** [Path(path).mkdir(parents=True, exist_ok=True)] *)
Definition path_mkdir (path : string) : M (list io_event) unit :=
  λ tr, (mkdir out tr path, tr ++ [Mkdir path]).

(** [urllib.request.urlretrieve(url, file)] *)
Definition request_urlretrieve (url file : string) : M (list io_event) unit :=
  λ tr, (urlretrieve out tr url file, tr ++ [Urlretrieve url file]).

(** [Image(filename=file)] *)
Definition Image_of_file (file : string) : M (list io_event) Image :=
  λ tr, ((λ c, {| filename := file; content := c |}) <$> read_image out tr file,
         tr ++ [ReadImage file]).

(** [str(width) + ',' + str(height)] *)
Definition mapSize (width height : pyval) : pyval :=
  PyStr ((py_str rt width +:+ ",") +:+ py_str rt height).

(** The body that [OpenService._rest_localizacion_imagen] (lines
    247-297) and [BingService._rest_localizacion_imagen] (lines
    491-541) share word for word. *)
Definition rest_localizacion_imagen (_url_localizacion_imagen : string)
    (_api_key : pyval) (ubicacion width height zoomLevel : pyval) (kwargs : dict)
    : M (list io_event) Image :=
  let kwargs := dict_update kwargs [("key", _api_key)] in
  let kwargs := dict_update kwargs [("zoomLevel", zoomLevel)] in
  let kwargs := dict_update kwargs [("dpi", PyStr "Large")] in
  let kwargs := dict_update kwargs [("mapSize", mapSize width height)] in
  let url := _url_localizacion_imagen in
  '(url, kwargs) ← lift
    (if is_tuple_or_list ubicacion then
       t ← _tuple_LatLng_to_string rt ubicacion ≫= as_str;
       let url := url +:+ (("/" +:+ t) +:+ "?") in
       t ← _tuple_LatLng_to_string rt ubicacion ≫= as_str;
       Ok (url, dict_update kwargs [("pushpin", PyStr (t +:+ ";66"))])
     else match ubicacion with
          | PyStr s => Ok (url +:+ (("/" +:+ s) +:+ "?"), kwargs)
          | _ => Ok (url, kwargs)
          end);
  let url := url +:+ urlencode rt kwargs in
  path_mkdir "images";;
  p ← lift (_posicion_a_string_url rt ubicacion ≫= as_str);
  let file := ("images/localizacion(" +:+ p) +:+ ").png" in
  request_urlretrieve url file;;
  Image_of_file file.

(** The body that [OpenService._rest_ruta_imagen] (lines 299-360) and
    [BingService._rest_ruta_imagen] (lines 543-604) share word for
    word. *)
Definition rest_ruta_imagen (_url_rutas_imagen : string) (_api_key : pyval)
    (inicio final : pyval) (via : list pyval) (width height : pyval) (kwargs : dict)
    : M (list io_event) Image :=
  paradas ← lift (paradas_de rt inicio final via);
  let viajes := viajes_de paradas in
  let kwargs := dict_update kwargs viajes in
  let kwargs := dict_update kwargs [("key", _api_key)] in
  let kwargs := dict_update kwargs [("mapSize", mapSize width height)] in
  let kwargs := dict_update kwargs [("dpi", PyStr "Large")] in
  let url := _url_rutas_imagen +:+ "?" in
  let url := url +:+ urlencode rt kwargs in
  path_mkdir "images";;
  p_inicio ← lift (_posicion_a_string_url rt inicio ≫= as_str);
  p_final ← lift (_posicion_a_string_url rt final ≫= as_str);
  let file := ((("images/Ruta(" +:+ p_inicio) +:+ ")(") +:+ p_final) +:+ ").png" in
  request_urlretrieve url file;;
  Image_of_file file.

(** [f(ubicacion, **kwargs)] for [f = self._rest_localizacion_imagen]:
    [width], [height] and [zoomLevel] are taken from [kwargs] when they
    are there. *)
Definition call_rest_localizacion_imagen (_url_localizacion_imagen : string)
    (_api_key : pyval) (ubicacion : pyval) (kwargs : dict) : M (list io_event) Image :=
  lift (keyword_arguments ["self"; "ubicacion"] kwargs);;
  rest_localizacion_imagen _url_localizacion_imagen _api_key ubicacion
    (keyword_or_default kwargs "width" (PyInt 500))
    (keyword_or_default kwargs "height" (PyInt 500))
    (keyword_or_default kwargs "zoomLevel" (PyInt 16))
    (other_keywords ["width"; "height"; "zoomLevel"] kwargs).

(** [f(inicio, final, via, **kwargs)] for [f = self._rest_ruta_imagen] *)
Definition call_rest_ruta_imagen (_url_rutas_imagen : string) (_api_key : pyval)
    (inicio final : pyval) (via : list pyval) (kwargs : dict) : M (list io_event) Image :=
  lift (keyword_arguments ["self"; "inicio"; "final"; "via"] kwargs);;
  rest_ruta_imagen _url_rutas_imagen _api_key inicio final via
    (keyword_or_default kwargs "width" (PyInt 500))
    (keyword_or_default kwargs "height" (PyInt 500))
    (other_keywords ["width"; "height"] kwargs).

End ImageServices.

(** ** The map services (lines 87-604) *)

Module OpenService.

Record t := {
  geolocator : string;
  _api_key : pyval;
  _version : pyval;
  _url_rutas : string;
  _url_rutas_imagen : string;
  _url_localizacion : string;
  _url_localizacion_imagen : string;
}.

Section Methods.
Context (rt : runtime) (net : network).

Definition __init__ (api_open_key : string) (api_bingmaps_key version : pyval) : t :=
  let URL_BASE := URL_BASE rt version in
  {| geolocator := api_open_key;
     _api_key := api_bingmaps_key;
     _version := version;
     _url_rutas := URL_BASE +:+ "Routes/Driving";
     _url_rutas_imagen := URL_BASE +:+ "Imagery/Map/Road/Routes/Driving";
     _url_localizacion := URL_BASE +:+ "Locations";
     _url_localizacion_imagen := URL_BASE +:+ "Imagery/Map/Road" |}.

Definition geolocator_reverse (self : t) (query : pyval) : M (list event) (option Location) :=
  λ tr, (nominatim_reverse net tr (geolocator self) query,
         tr ++ [Reverse (geolocator self) query]).

Definition geolocator_geocode (self : t) (query : string) : M (list event) (option Location) :=
  λ tr, (nominatim_geocode net tr (geolocator self) query,
         tr ++ [Geocode (geolocator self) query]).

(** The text that [_rest_localizacion] hands to [json.loads] when the
    geocoder found the place. *)
Definition proc (res : Location) : string :=
  let q := String "034"%char EmptyString in
  "{" +:+ q +:+ "point" +:+ q +:+ ": {" +:+ q +:+ "coordinates" +:+ q +:+ ": ["
  +:+ py_str rt (PyFloat (latitude res)) +:+ ", "
  +:+ py_str rt (PyFloat (longitude res))
  +:+ "]}, " +:+ q +:+ "address" +:+ q +:+ ": {" +:+ q +:+ "formattedAddress" +:+ q
  +:+ ": " +:+ q +:+ address res +:+ q +:+ "} }".

Definition _rest_localizacion (self : t) (ubicacion : pyval) (kwargs : dict)
    : M (list event) pyval :=
  _ ← lift (keyword_arguments ["self"; "ubicacion"] kwargs);
  res ← (if is_tuple_or_list ubicacion then geolocator_reverse self ubicacion
         else match ubicacion with
              | PyStr s => geolocator_geocode self s
              | _ => raise UnboundLocalError
              end);
  match res with
  | None =>
      rest_localizacion_bing rt net (_url_localizacion self) (_api_key self)
        ubicacion kwargs
  | Some res => lift (json_loads rt (proc res))
  end.

Definition _rest_ruta (self : t) (inicio final : pyval) (via : list pyval)
    (kwargs : dict) : M (list event) pyval :=
  rest_ruta rt net (_url_rutas self) (_api_key self) inicio final via kwargs.

Context (out : io).

Definition _rest_localizacion_imagen (self : t) (ubicacion : pyval) (kwargs : dict)
    : M (list io_event) Image :=
  call_rest_localizacion_imagen rt out (_url_localizacion_imagen self) (_api_key self)
    ubicacion kwargs.

Definition _rest_ruta_imagen (self : t) (inicio final : pyval) (via : list pyval)
    (kwargs : dict) : M (list io_event) Image :=
  call_rest_ruta_imagen rt out (_url_rutas_imagen self) (_api_key self)
    inicio final via kwargs.

End Methods.
End OpenService.

Module BingService.

Record t := {
  _api_key : pyval;
  _version : pyval;
  _url_rutas : string;
  _url_rutas_imagen : string;
  _url_localizacion : string;
  _url_localizacion_imagen : string;
}.

Section Methods.
Context (rt : runtime) (net : network).

Definition __init__ (api_bingmaps_key version : pyval) : t :=
  let URL_BASE := URL_BASE rt version in
  {| _api_key := api_bingmaps_key;
     _version := version;
     _url_rutas := URL_BASE +:+ "Routes/Driving";
     _url_rutas_imagen := URL_BASE +:+ "Imagery/Map/Road/Routes/Driving";
     _url_localizacion := URL_BASE +:+ "Locations";
     _url_localizacion_imagen := URL_BASE +:+ "Imagery/Map/Road" |}.

Definition _rest_localizacion (self : t) (ubicacion : pyval) (kwargs : dict)
    : M (list event) pyval :=
  _ ← lift (keyword_arguments ["self"; "ubicacion"] kwargs);
  rest_localizacion_bing rt net (_url_localizacion self) (_api_key self)
    ubicacion kwargs.

Definition _rest_ruta (self : t) (inicio final : pyval) (via : list pyval)
    (kwargs : dict) : M (list event) pyval :=
  rest_ruta rt net (_url_rutas self) (_api_key self) inicio final via kwargs.

Context (out : io).

Definition _rest_localizacion_imagen (self : t) (ubicacion : pyval) (kwargs : dict)
    : M (list io_event) Image :=
  call_rest_localizacion_imagen rt out (_url_localizacion_imagen self) (_api_key self)
    ubicacion kwargs.

Definition _rest_ruta_imagen (self : t) (inicio final : pyval) (via : list pyval)
    (kwargs : dict) : M (list io_event) Image :=
  call_rest_ruta_imagen rt out (_url_rutas_imagen self) (_api_key self)
    inicio final via kwargs.

End Methods.
End BingService.

(** The two classes derived from [MapService]; a call on a map service
    goes to the method of the object's class. *)
Module MapService.

Inductive t :=
| Open (self : OpenService.t)
| Bing (self : BingService.t).

Section Methods.
Context (rt : runtime) (net : network).

Definition _rest_localizacion (self : t) : pyval → dict → M (list event) pyval :=
  match self with
  | Open s => OpenService._rest_localizacion rt net s
  | Bing s => BingService._rest_localizacion rt net s
  end.

Definition _rest_ruta (self : t) : pyval → pyval → list pyval → dict → M (list event) pyval :=
  match self with
  | Open s => OpenService._rest_ruta rt net s
  | Bing s => BingService._rest_ruta rt net s
  end.

Context (out : io).

Definition _rest_localizacion_imagen (self : t) : pyval → dict → M (list io_event) Image :=
  match self with
  | Open s => OpenService._rest_localizacion_imagen rt out s
  | Bing s => BingService._rest_localizacion_imagen rt out s
  end.

Definition _rest_ruta_imagen (self : t)
    : pyval → pyval → list pyval → dict → M (list io_event) Image :=
  match self with
  | Open s => OpenService._rest_ruta_imagen rt out s
  | Bing s => BingService._rest_ruta_imagen rt out s
  end.

End Methods.
End MapService.

(** A reference to an object. *)
Abbreviation ref := nat.

(** ** Localizacion (lines 607-752) *)

Module Localizacion.

(** The attributes of an object; [data] is absent until [procesar]
    assigns it. *)
Record t := {
  _data_procesada : bool;
  _imagen_procesada : bool;
  _latlng_recibido : bool;
  _direccion_recibida : bool;
  _lat : pyval;
  _lng : pyval;
  _latlng : pyval;
  _direccion : pyval;
  _kwargs : dict;
  _map_service : MapService.t;
  data : option pyval;
}.

(** The calls made so far and the [Localizacion] objects alive. *)
Record state := {
  trace : list event;
  objects : gmap ref t;
}.

(** A computation on the trace alone, run inside a [state]. *)
Definition with_trace {A} (m : M (list event) A) : M state A :=
  λ st, let (r, tr) := m (trace st) in (r, {| trace := tr; objects := objects st |}).

(** The object behind a reference. *)
Definition load (r : ref) : M state t :=
  λ st, (match objects st !! r with Some o => Ok o | None => Raise Dangling end, st).

(** Assignments to attributes of the object behind a reference. *)
Definition modify (r : ref) (f : t → t) : M state unit :=
  λ st, match objects st !! r with
        | Some o => (Ok (), {| trace := trace st; objects := <[r := f o]> (objects st) |})
        | None => (Raise Dangling, st)
        end.

Definition alloc (o : t) : M state ref :=
  λ st, let r := fresh (dom (objects st)) in
        (Ok r, {| trace := trace st; objects := <[r := o]> (objects st) |}).

(** [self.data = d; self._data_procesada = True] *)
Definition set_data (d : pyval) (self : t) : t :=
  {| _data_procesada := true;
     _imagen_procesada := _imagen_procesada self;
     _latlng_recibido := _latlng_recibido self;
     _direccion_recibida := _direccion_recibida self;
     _lat := _lat self;
     _lng := _lng self;
     _latlng := _latlng self;
     _direccion := _direccion self;
     _kwargs := _kwargs self;
     _map_service := _map_service self;
     data := Some d |}.

(** [self.data] *)
Definition get_data (r : ref) : M state pyval :=
  self ← load r;
  match data self with Some d => mret d | None => raise AttributeError end.

(** What [__init__] leaves in the attributes, or the exception it
    raises. *)
Definition __init__ (map_service : MapService.t) (latlng direccion : pyval)
    (kwargs : dict) : result t :=
  let self received_latlng received_direccion lat lng ll dir :=
    {| _data_procesada := false;
       _imagen_procesada := false;
       _latlng_recibido := received_latlng;
       _direccion_recibida := received_direccion;
       _lat := lat;
       _lng := lng;
       _latlng := ll;
       _direccion := dir;
       _kwargs := kwargs;
       _map_service := map_service;
       data := None |} in
  if negb (is_none latlng) && negb (is_none direccion)
  then Ok (self true true PyNone PyNone PyNone PyNone)
  else if negb (is_none latlng) then
    if is_tuple_or_list latlng then
      lat ← getitem_idx latlng 0;
      lng ← getitem_idx latlng 1;
      Ok (self true false lat lng latlng PyNone)
    else Raise (ValueError "La latitud y longitud deben ser una tupla o lista")
  else if negb (is_none direccion) then
    if is_str direccion then Ok (self false true PyNone PyNone PyNone direccion)
    else Raise (ValueError "La dirección debe ser un String")
  else Raise (ValueError "Debe especificar una latitud y una longitud o una dirección").

(** What the call of the class does once its arguments are bound:
    [__init__] on a new object, which is alive when [__init__]
    returned. *)
Definition new (map_service : MapService.t) (latlng direccion : pyval)
    (kwargs : dict) : M state ref :=
  self ← lift (__init__ map_service latlng direccion kwargs);
  alloc self.

(** The call [Localizacion(map_service, latlng, direccion, **kwargs)]:
    it raises a TypeError when a key of [kwargs] names a parameter of
    [__init__], which the call already binds. *)
Definition call (map_service : MapService.t) (latlng direccion : pyval)
    (kwargs : dict) : M state ref :=
  lift (keyword_arguments ["self"; "map_service"; "latlng"; "direccion"] kwargs);;
  new map_service latlng direccion kwargs.

Section Methods.
Context (rt : runtime) (net : network).

Definition procesar (r : ref) : M state pyval :=
  self ← load r;
  if _data_procesada self
  then raise (ValueError "La localización ya ha sido procesada")
  else
    if _latlng_recibido self && _direccion_recibida self
    then raise (ValueError "No es necesario procesar la ubicación")
    else
      (if negb (is_none (_direccion self)) then
         try_except
           (d ← with_trace (MapService._rest_localizacion rt net (_map_service self)
                              (_direccion self) (_kwargs self));
            modify r (set_data d))
           (raise (ValueError "Error, al procesar REST"))
       else if negb (is_none (_latlng self)) then
         try_except
           (d ← with_trace (MapService._rest_localizacion rt net (_map_service self)
                              (_latlng self) (_kwargs self));
            modify r (set_data d))
           (raise (ValueError "Error, al procesar REST"))
       else raise (ValueError "Error, no hay datos de ubicación para procesar"));;
      get_data r.

Definition obtener_latlng (r : ref) : M state pyval :=
  self ← load r;
  if _latlng_recibido self then mret (_latlng self)
  else
    (if negb (_data_procesada self) then procesar r;; mret () else mret ());;
    d ← get_data r;
    lift (point ← getitem_key d "point";
          coordinates ← getitem_key point "coordinates";
          py_tuple coordinates).

Definition obtener_direccion (r : ref) : M state pyval :=
  self ← load r;
  if _direccion_recibida self then mret (_direccion self)
  else
    (if negb (_data_procesada self) then procesar r;; mret () else mret ());;
    d ← get_data r;
    lift (address ← getitem_key d "address";
          getitem_key address "formattedAddress").

End Methods.

(** *** [obtener_imagen] (lines 727-752)

    The locations, the attribute [_imagen] of those that have one, and
    the other calls made so far. *)
Record state_io := {
  base : state;
  _imagen : gmap ref Image;
  io_trace : list io_event;
}.

Definition with_base {A} (m : M state A) : M state_io A :=
  λ st, let (r, w) := m (base st) in
        (r, {| base := w; _imagen := _imagen st; io_trace := io_trace st |}).

Definition with_io {A} (m : M (list io_event) A) : M state_io A :=
  λ st, let (r, tr) := m (io_trace st) in
        (r, {| base := base st; _imagen := _imagen st; io_trace := tr |}).

(** [self._imagen = i] *)
Definition set_imagen (r : ref) (i : Image) : M state_io unit :=
  λ st, (Ok (), {| base := base st; _imagen := <[r := i]> (_imagen st);
                   io_trace := io_trace st |}).

(** [self._imagen] *)
Definition get_imagen (r : ref) : M state_io Image :=
  λ st, (match _imagen st !! r with Some i => Ok i | None => Raise AttributeError end, st).

(** [self._imagen_procesada = True] *)
Definition set_imagen_procesada (self : t) : t :=
  {| _data_procesada := _data_procesada self;
     _imagen_procesada := true;
     _latlng_recibido := _latlng_recibido self;
     _direccion_recibida := _direccion_recibida self;
     _lat := _lat self;
     _lng := _lng self;
     _latlng := _latlng self;
     _direccion := _direccion self;
     _kwargs := _kwargs self;
     _map_service := _map_service self;
     data := data self |}.

Section Imagen.
Context (rt : runtime) (net : network) (out : io).

Definition obtener_imagen (r : ref) (kwargs : dict) : M state_io Image :=
  self ← with_base (load r);
  if _imagen_procesada self then get_imagen r
  else
    (if negb (_data_procesada self) then with_base (procesar rt net r);; mret ()
     else mret ());;
    latlng ← with_base (obtener_latlng rt net r);
    try_except
      (i ← with_io (MapService._rest_localizacion_imagen rt out (_map_service self)
                      latlng kwargs);
       set_imagen r i;;
       with_base (modify r set_imagen_procesada);;
       get_imagen r)
      (raise (ValueError "Error, al procesar REST")).

End Imagen.
End Localizacion.

(** ** Ruta (lines 755-988) *)

Module Ruta.

(** The attributes of an object: [_inicio], [_final] and the elements
    of [_paradas] are references to [Localizacion] objects. *)
Record t := {
  _data_procesada : bool;
  _imagen_procesada : bool;
  _paradas : list ref;
  _inicio : ref;
  _final : ref;
  _kwargs : dict;
  _map_service : MapService.t;
  data : option pyval;
}.

(** The [Localizacion] objects with the trace, and the [Ruta] objects
    alive. *)
Record state := {
  mundo : Localizacion.state;
  objects : gmap ref t;
}.

(** A computation on the locations and the trace, run inside a
    [state]. *)
Definition with_mundo {A} (m : M Localizacion.state A) : M state A :=
  λ st, let (r, w) := m (mundo st) in (r, {| mundo := w; objects := objects st |}).

Definition load (r : ref) : M state t :=
  λ st, (match objects st !! r with Some o => Ok o | None => Raise Dangling end, st).

Definition modify (r : ref) (f : t → t) : M state unit :=
  λ st, match objects st !! r with
        | Some o => (Ok (), {| mundo := mundo st; objects := <[r := f o]> (objects st) |})
        | None => (Raise Dangling, st)
        end.

Definition alloc (o : t) : M state ref :=
  λ st, let r := fresh (dom (objects st)) in
        (Ok r, {| mundo := mundo st; objects := <[r := o]> (objects st) |}).

(** [self.data = d; self._data_procesada = True] *)
Definition set_data (d : pyval) (self : t) : t :=
  {| _data_procesada := true;
     _imagen_procesada := _imagen_procesada self;
     _paradas := _paradas self;
     _inicio := _inicio self;
     _final := _final self;
     _kwargs := _kwargs self;
     _map_service := _map_service self;
     data := Some d |}.

Definition get_data (r : ref) : M state pyval :=
  self ← load r;
  match data self with Some d => mret d | None => raise AttributeError end.

(** [__init__] on arguments of the classes it asks for: two
    [Localizacion] objects and a list of them. *)
Definition __init__ (map_service : MapService.t) (inicio final : ref)
    (paradas : list ref) (kwargs : dict) : t :=
  {| _data_procesada := false;
     _imagen_procesada := false;
     _paradas := paradas;
     _inicio := inicio;
     _final := final;
     _kwargs := kwargs;
     _map_service := map_service;
     data := None |}.

(** What the call of the class does once its arguments are bound:
    [__init__] on a new object, which is then alive. *)
Definition new (map_service : MapService.t) (inicio final : ref)
    (paradas : list ref) (kwargs : dict) : M state ref :=
  alloc (__init__ map_service inicio final paradas kwargs).

(** The call [Ruta(map_service, inicio, final, paradas, **kwargs)]: it
    raises a TypeError when a key of [kwargs] names a parameter of
    [__init__], which the call already binds. *)
Definition call (map_service : MapService.t) (inicio final : ref)
    (paradas : list ref) (kwargs : dict) : M state ref :=
  lift (keyword_arguments ["self"; "map_service"; "inicio"; "final"; "paradas"] kwargs);;
  new map_service inicio final paradas kwargs.

Section Methods.
Context (rt : runtime) (net : network).

(** The start or the end as [procesar] hands it to the map service:
    what the location received, looked up through its accessor. *)
Definition proc_extremo (loc : ref) (no_procesada : string) : M state pyval :=
  o ← with_mundo (Localizacion.load loc);
  if Localizacion._latlng_recibido o
  then with_mundo (Localizacion.obtener_latlng rt net loc)
  else if Localizacion._direccion_recibida o
  then with_mundo (Localizacion.obtener_direccion rt net loc)
  else raise (ValueError no_procesada).

Definition procesar (r : ref) : M state pyval :=
  self ← load r;
  if _data_procesada self
  then raise (ValueError "La localización ya ha sido procesada")
  else
    proc_inicio ← proc_extremo (_inicio self)
      "La localización de inicio no ha sido procesada, porfavor ejecutar método procesar()";
    proc_final ← proc_extremo (_final self)
      "La localización de final no ha sido procesada, porfavor ejecutar método procesar()";
    try_except
      (via ← with_mundo (mapM (Localizacion.obtener_latlng rt net) (_paradas self));
       d ← with_mundo (Localizacion.with_trace
              (MapService._rest_ruta rt net (_map_service self)
                 proc_inicio proc_final via (_kwargs self)));
       modify r (set_data d))
      (raise (ValueError "Error, al procesar REST"));;
    get_data r.

Definition distancia_ruta_bing_kilometros (r : ref) : M state pyval :=
  self ← load r;
  (if negb (_data_procesada self) then procesar r;; mret () else mret ());;
  d ← get_data r;
  lift (getitem_key d "travelDistance").

Definition distancia_ruta_bing_metros (r : ref) : M state pyval :=
  km ← distancia_ruta_bing_kilometros r;
  lift (py_mul km (PyInt 1000)).

Definition tiempo_de_viaje_minutos_con_velocidad_constante (r : ref)
    (distancia_km velocidad_km_h : pyval) : M state pyval :=
  lift (py_le velocidad_km_h (PyInt 0)) ≫= λ no_positiva : bool,
  if no_positiva then raise (ValueError "La velocidad debe ser mayor a cero.")
  else lift (q ← py_truediv distancia_km velocidad_km_h; py_mul q (PyInt 60)).

Definition tiempo_de_viaje_segundos (r : ref) : M state pyval :=
  self ← load r;
  (if negb (_data_procesada self) then procesar r;; mret () else mret ());;
  d ← get_data r;
  lift (getitem_key d "travelDurationTraffic").

Definition tiempo_de_viaje_minutos (r : ref) : M state pyval :=
  s ← tiempo_de_viaje_segundos r;
  lift (py_truediv s (PyInt 60)).

End Methods.

(** *** [distancia_geodesica_kilometros] (lines 839-850) *)

Section Geodesica.
Context (rt : runtime) (net : network) (geo : geopy).

Definition distancia_geodesica_kilometros (r : ref) : M state pyval :=
  self ← load r;
  a ← with_mundo (Localizacion.obtener_latlng rt net (_inicio self));
  alguna_es_None ←
    (if is_none a then mret true
     else b ← with_mundo (Localizacion.obtener_latlng rt net (_final self));
          mret (is_none b));
  if alguna_es_None : bool
  then raise (ValueError
         "Error, ejecutar el método procesar() en las localizaciones de la ruta")
  else
    a ← with_mundo (Localizacion.obtener_latlng rt net (_inicio self));
    b ← with_mundo (Localizacion.obtener_latlng rt net (_final self));
    lift (geodesic_km geo a b).

End Geodesica.

(** *** [indicaciones_ruta] (lines 921-949) and [obtener_imagen]
    (lines 951-988)

    The routes with their locations, the attribute [_imagen] of the
    routes that have one, and the other calls made so far. *)
Record state_io := {
  base : state;
  _imagen : gmap ref Image;
  io_trace : list io_event;
}.

Definition with_base {A} (m : M state A) : M state_io A :=
  λ st, let (r, w) := m (base st) in
        (r, {| base := w; _imagen := _imagen st; io_trace := io_trace st |}).

Definition with_io {A} (m : M (list io_event) A) : M state_io A :=
  λ st, let (r, tr) := m (io_trace st) in
        (r, {| base := base st; _imagen := _imagen st; io_trace := tr |}).

(** [self._imagen = i] *)
Definition set_imagen (r : ref) (i : Image) : M state_io unit :=
  λ st, (Ok (), {| base := base st; _imagen := <[r := i]> (_imagen st);
                   io_trace := io_trace st |}).

(** [self._imagen] *)
Definition get_imagen (r : ref) : M state_io Image :=
  λ st, (match _imagen st !! r with Some i => Ok i | None => Raise AttributeError end, st).

(** [self._imagen_procesada = True] *)
Definition set_imagen_procesada (self : t) : t :=
  {| _data_procesada := _data_procesada self;
     _imagen_procesada := true;
     _paradas := _paradas self;
     _inicio := _inicio self;
     _final := _final self;
     _kwargs := _kwargs self;
     _map_service := _map_service self;
     data := data self |}.

(** [for item in v]: the elements that the loop visits. *)
Definition py_iter (v : pyval) : result (list pyval) :=
  match v with
  | PyTuple l | PyList l => Ok l
  | PyStr s => Ok (char_strings s)
  | PyDict d => Ok (PyStr <$> dict_keys d)
  | _ => Raise TypeError
  end.

(** [item["instruction"]["text"]] *)
Definition instruction_text (item : pyval) : result pyval :=
  instruction ← getitem_key item "instruction";
  getitem_key instruction "text".

Section Otros.
Context (rt : runtime) (net : network) (out : io).

(** [Translator().translate(text, src=src, dest=dest).text] *)
Definition translator_translate (text : pyval) (src dest : string)
    : M (list io_event) pyval :=
  λ tr, (translate out tr text src dest, tr ++ [Translate text src dest]).

(** The attribute [_translator], which the loop assigns and nothing
    reads, is not kept. *)
Definition indicaciones_ruta (r : ref) (traducir : bool) : M state_io (list pyval) :=
  self ← with_base (load r);
  (if negb (_data_procesada self) then with_base (procesar rt net r);; mret ()
   else mret ());;
  d ← with_base (get_data r);
  indicacioneItems ← lift (routeLegs ← getitem_key d "routeLegs";
                           leg ← getitem_idx routeLegs 0;
                           getitem_key leg "itineraryItems");
  items ← lift (py_iter indicacioneItems);
  mapM (λ item,
          texto ← lift (instruction_text item);
          if traducir then
            text ← lift (instruction_text item);
            with_io (translator_translate text "en" "es")
          else mret texto)
       items.

Definition obtener_imagen (r : ref) (kwargs : dict) : M state_io Image :=
  self ← with_base (load r);
  if _imagen_procesada self then get_imagen r
  else
    (if negb (_data_procesada self) then with_base (procesar rt net r);; mret ()
     else mret ());;
    proc_inicio ← with_base (proc_extremo rt net (_inicio self)
      "La localización de inicio no ha sido procesada, porfavor ejecutar método procesar()");
    proc_final ← with_base (proc_extremo rt net (_final self)
      "La localización de final no ha sido procesada, porfavor ejecutar método procesar()");
    try_except
      (via ← with_base (with_mundo (mapM (Localizacion.obtener_latlng rt net)
                                      (_paradas self)));
       i ← with_io (MapService._rest_ruta_imagen rt out (_map_service self)
                      proc_inicio proc_final via kwargs);
       set_imagen r i;;
       with_base (modify r set_imagen_procesada);;
       get_imagen r)
      (raise (ValueError "Error, al procesar REST")).

End Otros.
End Ruta.

(** * A Python runtime and networks to run the module

    The facts below hold for every [runtime] and every [network].  To
    run the module on examples, this part gives one runtime, [python],
    that follows CPython on ints, floats and text, and networks that
    answer from a script. *)

(** ** [repr] of a float: the shortest decimal that reads back *)

(** [floor(log10 (num/den))] for positive [num], [den]. *)
Fixpoint ilog10_up (fuel : nat) (num den e : Z) : Z :=
  match fuel with
  | O => e
  | S fuel' =>
      (* raise e while 10^(e+1) <= num/den *)
      if (if (0 <=? e + 1)%Z then (den * 10 ^ (e + 1) <=? num)%Z
          else (den <=? num * 10 ^ (- (e + 1)))%Z)
      then ilog10_up fuel' num den (e + 1)
      else e
  end.

Fixpoint ilog10_down (fuel : nat) (num den e : Z) : Z :=
  match fuel with
  | O => e
  | S fuel' =>
      (* lower e while num/den < 10^e *)
      if (if (0 <=? e)%Z then (num <? den * 10 ^ e)%Z
          else (num * 10 ^ (- e) <? den)%Z)
      then ilog10_down fuel' num den (e - 1)
      else e
  end.

Definition ilog10 (num den : Z) : Z :=
  let guess := ((Z.log2 num - Z.log2 den) * 1233 / 4096)%Z in
  ilog10_up 4 num den (ilog10_down 4 num den guess).

(** The decimal [d * 10^k] against [num/den]. *)
Definition dec_compare (d k num den : Z) : comparison :=
  if (0 <=? k)%Z then (d * 10 ^ k * den ?= num)%Z
  else (d * den ?= num * 10 ^ (- k))%Z.

Definition in_interval (even : bool) (lo hi den d k : Z) : bool :=
  match dec_compare d k lo den, dec_compare d k hi den with
  | Gt, Lt => true
  | Eq, (Lt | Eq) => even
  | Gt, Eq => even
  | _, _ => false
  end.

(** Twice the distance of [d * 10^k] from [num/den], up to the common
    factor: enough to compare two distances. *)
Definition dec_distance (d k num den : Z) : Z :=
  if (0 <=? k)%Z then Z.abs (d * 10 ^ k * den - num)
  else Z.abs (d * den - num * 10 ^ (- k)).

Fixpoint strip_zeros (fuel : nat) (d k : Z) : Z * Z :=
  match fuel with
  | O => (d, k)
  | S fuel' => if (d mod 10 =? 0)%Z then strip_zeros fuel' (d / 10) (k + 1) else (d, k)
  end.

(** The shortest decimal [d * 10^k] that reads back as the float
    [m * 2^e], the closest to it when there are several. *)
Fixpoint shortest (fuel : nat) (n : Z) (even : bool) (v lo hi den e10 : Z) : Z * Z :=
  let k := (e10 - n + 1)%Z in
  let d_lo := if (0 <=? k)%Z then (v / (den * 10 ^ k))%Z else (v * 10 ^ (- k) / den)%Z in
  let d_hi := (d_lo + 1)%Z in
  let ok_lo := in_interval even lo hi den d_lo k in
  let ok_hi := in_interval even lo hi den d_hi k in
  let pick :=
    match ok_lo, ok_hi with
    | true, false => Some d_lo
    | false, true => Some d_hi
    | true, true =>
        match (dec_distance d_lo k v den ?= dec_distance d_hi k v den)%Z with
        | Lt => Some d_lo
        | Gt => Some d_hi
        | Eq => Some (if Z.even d_lo then d_lo else d_hi)
        end
    | false, false => None
    end in
  match pick, fuel with
  | Some d, _ => strip_zeros 20 d k
  | None, S fuel' => shortest fuel' (n + 1) even v lo hi den e10
  | None, O => (d_lo, k)
  end.

Definition shortest_digits (m : positive) (e : Z) : Z * Z :=
  let P := (2 ^ Z.max e 0)%Z in
  let den := (4 * 2 ^ Z.max (- e) 0)%Z in
  let narrow := ((Z.pos m =? 2 ^ 52) && (-1074 <? e))%Z in
  let v := (4 * Z.pos m * P)%Z in
  let lo := ((4 * Z.pos m - (if narrow then 1 else 2)) * P)%Z in
  let hi := ((4 * Z.pos m + 2) * P)%Z in
  shortest 17 1 (Z.even (Z.pos m)) v lo hi den (ilog10 v den).


(** [repr] of a float from the digits [d] and the exponent [k] of its
    shortest decimal. *)
Definition format_float (d k : Z) : string :=
  let digits := pretty d in
  let n := Z.of_nat (String.length digits) in
  let decpt := (k + n)%Z in
  if ((decpt <=? -4) || (16 <? decpt))%Z then
    let e := (decpt - 1)%Z in
    let mantissa :=
      match digits with
      | String c EmptyString => digits
      | String c rest => String c ("." +:+ rest)
      | EmptyString => digits
      end in
    let ee := pretty (Z.abs e) in
    mantissa +:+ "e" +:+ (if (e <? 0)%Z then "-" else "+")
      +:+ (if (Z.abs e <? 10)%Z then "0" else EmptyString) +:+ ee
  else if (decpt <=? 0)%Z then
    "0." +:+ string_repeat "0" (Z.to_nat (- decpt)) +:+ digits
  else if (n <=? decpt)%Z then
    digits +:+ string_repeat "0" (Z.to_nat (decpt - n)) +:+ ".0"
  else
    String.substring 0 (Z.to_nat decpt) digits +:+ "."
      +:+ String.substring (Z.to_nat decpt) (Z.to_nat (n - decpt)) digits.

(** [repr(f)] of a float. *)
Definition float_repr (f : float) : string :=
  match Prim2SF f with
  | S754_nan => "nan"
  | S754_infinity s => if s then "-inf" else "inf"
  | S754_zero s => if s then "-0.0" else "0.0"
  | S754_finite s m e =>
      let (d, k) := shortest_digits m e in
      (if s then "-" else EmptyString) +:+ format_float d k
  end.

(** ** [repr] of text and of containers *)

Definition quote_char : ascii := "034"%char.
Definition apostrophe : ascii := "039"%char.
Definition backslash : ascii := "092"%char.

Definition hex_digit (n : N) : ascii :=
  match n with
  | 0 => "0" | 1 => "1" | 2 => "2" | 3 => "3" | 4 => "4" | 5 => "5" | 6 => "6"
  | 7 => "7" | 8 => "8" | 9 => "9" | 10 => "a" | 11 => "b" | 12 => "c"
  | 13 => "d" | 14 => "e" | _ => "f"
  end%N%char.

Definition upper (c : ascii) : ascii :=
  let n := N_of_ascii c in
  if ((97 <=? n) && (n <=? 122))%N then ascii_of_N (n - 32) else c.

Definition join (sep : string) (l : list string) : string :=
  match l with
  | [] => EmptyString
  | x :: l' => fold_left (λ acc y, acc +:+ sep +:+ y) l' x
  end.

Definition chars (l : list ascii) : string := String.string_of_list_ascii l.

(** One character of a text inside the quotes of its [repr]. *)
Definition repr_char (q : ascii) (c : ascii) : list ascii :=
  let n := N_of_ascii c in
  if decide (c = q) then [backslash; q]
  else if decide (c = backslash) then [backslash; backslash]
  else if (n =? 9)%N then [backslash; "t"%char]
  else if (n =? 10)%N then [backslash; "n"%char]
  else if (n =? 13)%N then [backslash; "r"%char]
  else if ((n <? 32) || (n =? 127))%N
       then [backslash; "x"%char; hex_digit (n / 16); hex_digit (n mod 16)]
  else [c].

(** [repr(s)] of a text, its characters above ASCII taken as
    printable. *)
Definition str_repr (s : string) : string :=
  let cs := String.list_ascii_of_string s in
  let q := if bool_decide (apostrophe ∈ cs ∧ quote_char ∉ cs)
           then quote_char else apostrophe in
  chars ([q] ++ mjoin (repr_char q <$> cs) ++ [q]).

Fixpoint py_repr (v : pyval) : string :=
  match v with
  | PyNone => "None"
  | PyBool true => "True"
  | PyBool false => "False"
  | PyInt z => pretty z
  | PyFloat f => float_repr f
  | PyStr s => str_repr s
  | PyTuple l =>
      match l with
      | [x] => "(" +:+ py_repr x +:+ ",)"
      | _ => "(" +:+ join ", " (map py_repr l) +:+ ")"
      end
  | PyList l => "[" +:+ join ", " (map py_repr l) +:+ "]"
  | PyDict d =>
      "{" +:+ join ", " (map (λ kv, str_repr kv.1 +:+ ": " +:+ py_repr kv.2) d) +:+ "}"
  end.

(** ** [urllib.parse]: [quote], [quote_plus], [urlencode] *)

Definition always_safe (c : ascii) : bool :=
  let n := N_of_ascii c in
  (((48 <=? n) && (n <=? 57)) || ((65 <=? n) && (n <=? 90))
   || ((97 <=? n) && (n <=? 122))
   || bool_decide (c ∈ ["_"; "."; "-"; "~"]%char))%N.

Definition percent (c : ascii) : list ascii :=
  let n := N_of_ascii c in
  ["%"%char; upper (hex_digit (n / 16)); upper (hex_digit (n mod 16))].

(** [quote(s)], with [safe='/'], on the bytes of [s]. *)
Definition py_quote (s : string) : string :=
  chars (mjoin ((λ c, if always_safe c || bool_decide (c = "/"%char)
                      then [c] else percent c)
                <$> String.list_ascii_of_string s)).

(** [quote_plus(s)], with [safe=''] *)
Definition py_quote_plus (s : string) : string :=
  chars (mjoin ((λ c, if always_safe c then [c]
                      else if bool_decide (c = " "%char) then ["+"%char]
                      else percent c)
                <$> String.list_ascii_of_string s)).

Definition py_str_of (v : pyval) : string :=
  match v with
  | PyStr s => s
  | _ => py_repr v
  end.

(** [urlencode(query)] on a dict *)
Definition py_urlencode (query : dict) : string :=
  join "&" ((λ kv, py_quote_plus kv.1 +:+ "=" +:+ py_quote_plus (py_str_of kv.2))
            <$> query).

(** ** [json.loads] *)

Definition JSONDecodeError : exn := External "json.JSONDecodeError".

Definition is_space (c : ascii) : bool :=
  bool_decide (c ∈ [" "; "009"; "010"; "013"]%char).

Fixpoint skip_space (s : list ascii) : list ascii :=
  match s with
  | c :: s' => if is_space c then skip_space s' else s
  | [] => []
  end.

Definition digit_of (c : ascii) : option Z :=
  let n := N_of_ascii c in
  if ((48 <=? n) && (n <=? 57))%N then Some (Z.of_N (n - 48)) else None.

Definition hex_of (c : ascii) : option N :=
  let n := N_of_ascii c in
  if ((48 <=? n) && (n <=? 57))%N then Some (n - 48)%N
  else if ((65 <=? n) && (n <=? 70))%N then Some (n - 55)%N
  else if ((97 <=? n) && (n <=? 102))%N then Some (n - 87)%N
  else None.

(** The digits at the head of [s], and what follows them. *)
Fixpoint take_digits (s : list ascii) : list Z * list ascii :=
  match s with
  | c :: s' =>
      match digit_of c with
      | Some d => let (ds, rest) := take_digits s' in (d :: ds, rest)
      | None => ([], s)
      end
  | [] => ([], [])
  end.

Definition number_of_digits (ds : list Z) : Z :=
  fold_left (λ acc d, 10 * acc + d)%Z ds 0%Z.

(** [float(text)] for the decimal [m * 10^e] with the sign [neg]. *)
Definition decimal_to_float (neg : bool) (m e : Z) : float :=
  if (m =? 0)%Z then (if neg then (-0)%float else 0%float)
  else if (0 <=? e)%Z
  then SF2Prim (binary_normalize 53 1024 ((if neg then -1 else 1) * m * 10 ^ e) 0 neg)
  else SF2Prim (quotient_to_binary64 neg m (10 ^ (- e))).

(** A number at the head of [s]: an optional minus sign; a zero, or
    digits that do not start with a zero; then, each optional, a point
    with digits behind it, and an exponent ([e] or [E], an optional
    sign, digits).  With neither point nor exponent it is an int. *)
Definition scan_number (s : list ascii) : option (pyval * list ascii) :=
  let (neg, s1) :=
    match s with
    | c :: s' => if bool_decide (c = "-"%char) then (true, s') else (false, s)
    | [] => (false, s)
    end in
  match s1 with
  | c :: s2 =>
      match digit_of c with
      | None => None
      | Some d0 =>
          let (int_digits, s3) := if (d0 =? 0)%Z then ([0%Z], s2) else take_digits s1 in
          let (frac, s4) :=
            match s3 with
            | c :: s' =>
                if bool_decide (c = "."%char) then
                  let (fd, rest) := take_digits s' in
                  match fd with [] => ([], s3) | _ => (fd, rest) end
                else ([], s3)
            | [] => ([], s3)
            end in
          let (exp, s5) :=
            match s4 with
            | c :: s' =>
                if bool_decide (c = "e"%char ∨ c = "E"%char) then
                  let (eneg, s'') :=
                    match s' with
                    | c' :: t =>
                        if bool_decide (c' = "-"%char) then (true, t)
                        else if bool_decide (c' = "+"%char) then (false, t)
                        else (false, s')
                    | [] => (false, s')
                    end in
                  let (ed, rest) := take_digits s'' in
                  match ed with
                  | [] => (None, s4)
                  | _ => (Some (if eneg then - number_of_digits ed
                                else number_of_digits ed)%Z, rest)
                  end
                else (None, s4)
            | [] => (None, s4)
            end in
          match frac, exp with
          | [], None =>
              let n := number_of_digits int_digits in
              Some (PyInt (if neg then - n else n), s5)
          | _, _ =>
              let m := number_of_digits (int_digits ++ frac) in
              let e := (default 0 exp - Z.of_nat (length frac))%Z in
              Some (PyFloat (decimal_to_float neg m e), s5)
          end
      end
  | [] => None
  end.

(** A piece of a text between quotes: a byte written as it is, or the
    code unit of a [\uXXXX]. *)
Inductive unit_ :=
| Byte (c : ascii)
| Escaped (n : N).

Definition simple_escape (c : ascii) : option ascii :=
  if bool_decide (c = quote_char) then Some quote_char
  else if bool_decide (c = backslash) then Some backslash
  else if bool_decide (c = "/"%char) then Some "/"%char
  else if bool_decide (c = "b"%char) then Some "008"%char
  else if bool_decide (c = "f"%char) then Some "012"%char
  else if bool_decide (c = "n"%char) then Some "010"%char
  else if bool_decide (c = "r"%char) then Some "013"%char
  else if bool_decide (c = "t"%char) then Some "009"%char
  else None.

(** The text that opened with a quote just before [s], up to the quote
    that closes it. *)
Fixpoint scan_units (s : list ascii) (acc : list unit_) : option (list unit_ * list ascii) :=
  match s with
  | [] => None
  | c :: s' =>
      if bool_decide (c = quote_char) then Some (rev acc, s')
      else if bool_decide (c = backslash) then
        match s' with
        | e :: s'' =>
            if bool_decide (e = "u"%char) then
              match s'' with
              | h1 :: h2 :: h3 :: h4 :: rest =>
                  match hex_of h1, hex_of h2, hex_of h3, hex_of h4 with
                  | Some a, Some b, Some c', Some d =>
                      scan_units rest (Escaped (((a * 16 + b) * 16 + c') * 16 + d) :: acc)
                  | _, _, _, _ => None
                  end
              | _ => None
              end
            else
              match simple_escape e with
              | Some ch => scan_units s'' (Byte ch :: acc)
              | None => None
              end
        | [] => None
        end
      else if (N_of_ascii c <? 32)%N then None
      else scan_units s' (Byte c :: acc)
  end.

(** A code point in UTF-8. *)
Definition utf8 (cp : N) : list ascii :=
  (if cp <? 128 then [ascii_of_N cp]
   else if cp <? 2048 then [ascii_of_N (192 + cp / 64); ascii_of_N (128 + cp mod 64)]
   else if cp <? 65536 then
     [ascii_of_N (224 + cp / 4096); ascii_of_N (128 + cp / 64 mod 64);
      ascii_of_N (128 + cp mod 64)]
   else
     [ascii_of_N (240 + cp / 262144); ascii_of_N (128 + cp / 4096 mod 64);
      ascii_of_N (128 + cp / 64 mod 64); ascii_of_N (128 + cp mod 64)])%N.

(** The bytes of the units: a high surrogate directly followed by a low
    one is one code point. *)
Fixpoint bytes_of_units (us : list unit_) : list ascii :=
  match us with
  | [] => []
  | Byte c :: rest => c :: bytes_of_units rest
  | Escaped hi :: rest =>
      match rest with
      | Escaped lo :: rest' =>
          if ((55296 <=? hi) && (hi <=? 56319) && (56320 <=? lo) && (lo <=? 57343))%N
          then utf8 (65536 + (hi - 55296) * 1024 + (lo - 56320))%N ++ bytes_of_units rest'
          else utf8 hi ++ bytes_of_units rest
      | _ => utf8 hi ++ bytes_of_units rest
      end
  end.

Definition scan_string (s : list ascii) : option (string * list ascii) :=
  '(us, rest) ← scan_units s [];
  Some (chars (bytes_of_units us), rest).

(** [literal] at the head of [s]. *)
Fixpoint scan_literal (literal s : list ascii) : option (list ascii) :=
  match literal, s with
  | [], _ => Some s
  | c :: literal', c' :: s' => if bool_decide (c = c') then scan_literal literal' s' else None
  | _ :: _, [] => None
  end.

(** The elements of an array after its first bracket and the space
    behind it, up to the closing bracket. *)
Fixpoint scan_elements (value : list ascii → option (pyval * list ascii))
    (fuel : nat) (s : list ascii) (acc : list pyval) : option (list pyval * list ascii) :=
  match fuel with
  | O => None
  | S fuel' =>
      '(v, s1) ← value s;
      match skip_space s1 with
      | c :: s2 =>
          if bool_decide (c = ","%char)
          then scan_elements value fuel' (skip_space s2) (v :: acc)
          else if bool_decide (c = "]"%char) then Some (rev (v :: acc), s2)
          else None
      | [] => None
      end
  end.

(** The members of an object from the quote of a key on, up to the
    closing brace. *)
Fixpoint scan_members (value : list ascii → option (pyval * list ascii))
    (fuel : nat) (s : list ascii) (acc : dict) : option (dict * list ascii) :=
  match fuel with
  | O => None
  | S fuel' =>
      match s with
      | q :: s0 =>
          if bool_decide (q = quote_char) then
            '(k, s1) ← scan_string s0;
            match skip_space s1 with
            | c :: s2 =>
                if bool_decide (c = ":"%char) then
                  '(v, s3) ← value (skip_space s2);
                  let acc := dict_set acc k v in
                  match skip_space s3 with
                  | c' :: s4 =>
                      if bool_decide (c' = ","%char)
                      then scan_members value fuel' (skip_space s4) acc
                      else if bool_decide (c' = "}"%char) then Some (acc, s4)
                      else None
                  | [] => None
                  end
                else None
            | [] => None
            end
          else None
      | [] => None
      end
  end.

(** A value at the head of [s]. *)
Fixpoint scan_value (fuel : nat) (s : list ascii) : option (pyval * list ascii) :=
  match fuel with
  | O => None
  | S fuel' =>
      match s with
      | [] => None
      | c :: s' =>
          if bool_decide (c = quote_char) then
            '(str, rest) ← scan_string s'; Some (PyStr str, rest)
          else if bool_decide (c = "{"%char) then
            match skip_space s' with
            | c' :: s'' =>
                if bool_decide (c' = "}"%char) then Some (PyDict [], s'')
                else '(d, rest) ← scan_members (scan_value fuel') fuel' (c' :: s'') [];
                     Some (PyDict d, rest)
            | [] => None
            end
          else if bool_decide (c = "["%char) then
            match skip_space s' with
            | c' :: s'' =>
                if bool_decide (c' = "]"%char) then Some (PyList [], s'')
                else '(l, rest) ← scan_elements (scan_value fuel') fuel' (c' :: s'') [];
                     Some (PyList l, rest)
            | [] => None
            end
          else
            let literal (text : string) (v : pyval) :=
              rest ← scan_literal (String.list_ascii_of_string text) s; Some (v, rest) in
            match literal "null" PyNone with
            | Some r => Some r
            | None =>
            match literal "true" (PyBool true) with
            | Some r => Some r
            | None =>
            match literal "false" (PyBool false) with
            | Some r => Some r
            | None =>
            match scan_number s with
            | Some r => Some r
            | None =>
            match literal "NaN" (PyFloat nan) with
            | Some r => Some r
            | None =>
            match literal "Infinity" (PyFloat infinity) with
            | Some r => Some r
            | None => literal "-Infinity" (PyFloat neg_infinity)
            end end end end end end
      end
  end.

(** [json.loads(s)] *)
Definition py_json_loads (s : string) : result pyval :=
  let cs := String.list_ascii_of_string s in
  match scan_value (S (length cs)) (skip_space cs) with
  | Some (v, rest) =>
      match skip_space rest with
      | [] => Ok v
      | _ => Raise JSONDecodeError
      end
  | None => Raise JSONDecodeError
  end.

(** The runtime of the examples. *)
Definition python : runtime :=
  {| repr := py_repr;
     quote := py_quote;
     urlencode := py_urlencode;
     json_loads := py_json_loads |}.

(** ** Networks that answer from a script *)

Definition is_reverse (ev : event) : bool :=
  match ev with Reverse _ _ => true | _ => false end.
Definition is_geocode (ev : event) : bool :=
  match ev with Geocode _ _ => true | _ => false end.
Definition is_fetch (ev : event) : bool :=
  match ev with Fetch _ => true | _ => false end.

(** The answer to the next call of a kind: the script's entry at the
    number of calls of that kind made so far, an error past its end. *)
Definition next_answer {A} (kind : event → bool) (script : list (result A))
    (tr : list event) : result A :=
  default (Raise (External "no answer")) (script !! length (List.filter kind tr)).

Definition scripted (reverses geocodes : list (result (option Location)))
    (fetches : list (result pyval)) : network :=
  {| nominatim_reverse tr _ _ := next_answer is_reverse reverses tr;
     nominatim_geocode tr _ _ := next_answer is_geocode geocodes tr;
     fetch_json tr _ := next_answer is_fetch fetches tr |}.

(** ** The scenarios of the examples *)

Definition bing_service : BingService.t :=
  BingService.__init__ python (PyStr "KEY") (PyInt 1).

Definition open_service : OpenService.t :=
  OpenService.__init__ python "agent" (PyStr "KEY") (PyInt 1).

Definition bing : MapService.t := MapService.Bing bing_service.

Definition open : MapService.t := MapService.Open open_service.

Definition empty_world : Localizacion.state :=
  {| Localizacion.trace := []; Localizacion.objects := ∅ |}.

(** What the [Locations] service answers for a place at [(lat, lng)]. *)
Definition locations_answer (lat lng : float) (formatted : string) : pyval :=
  PyDict [("resourceSets",
    PyList [PyDict [("resources",
      PyList [PyDict [
        ("point", PyDict [("coordinates", PyList [PyFloat lat; PyFloat lng])]);
        ("address", PyDict [("formattedAddress", PyStr formatted)])]])]])].

(** What the [Routes] service answers for a route of [km] kilometres
    and [s] seconds. *)
Definition routes_answer (km s : pyval) : pyval :=
  PyDict [("resourceSets",
    PyList [PyDict [("resources",
      PyList [PyDict [("travelDistance", km); ("travelDurationTraffic", s)]])]])].

(** The state and the value left by a computation that returned. *)
Definition run {S A} (m : M S A) (s : S) : S := (m s).2.
Definition value {S A} (m : M S A) (s : S) : result A := (m s).1.

(** A location made from an address alone, in an empty world: it is
    the object 0. *)
Definition bogota_world : Localizacion.state :=
  run (Localizacion.new bing PyNone (PyStr "Bogotá, Colombia") []) empty_world.

(** The service fails once, then answers. *)
Definition flaky : network :=
  scripted [] [] [Raise (External "URLError");
                  Ok (locations_answer 4.60971 (-74.08175) "Bogotá, Colombia")].

(** A route from the coordinate [(4.6, -74.1)] to [(4.7, -74.0)] with
    no stop between: the locations 0 and 1, the route 0. *)
Definition direct_route : Ruta.state :=
  let w0 := empty_world in
  let w1 := run (Localizacion.new bing (PyTuple [PyFloat 4.6; PyFloat (-74.1)]) PyNone []) w0 in
  let w2 := run (Localizacion.new bing (PyTuple [PyFloat 4.7; PyFloat (-74.0)]) PyNone []) w1 in
  run (Ruta.new bing 0 1 [] []) {| Ruta.mundo := w2; Ruta.objects := ∅ |}.

Definition route_network : network :=
  scripted [] [] [Ok (routes_answer (PyFloat 15.2) (PyInt 1200))].

Definition processed_route : Ruta.state :=
  run (Ruta.procesar python route_network 0) direct_route.

(** The service answers at once. *)
Definition steady : network :=
  scripted [] [] [Ok (locations_answer 4.60971 (-74.08175) "Bogotá, Colombia")].

(** A round trip: the start, made from an address alone, is also the
    only stop between the start and the end.  The location 0 is the
    start and the stop, the location 1 the end, the route is 0. *)
Definition round_trip : Ruta.state :=
  let w0 := empty_world in
  let w1 := run (Localizacion.new bing PyNone (PyStr "Bogotá, Colombia") []) w0 in
  let w2 := run (Localizacion.new bing (PyTuple [PyFloat 4.7; PyFloat (-74.0)]) PyNone []) w1 in
  run (Ruta.new bing 0 1 [0] []) {| Ruta.mundo := w2; Ruta.objects := ∅ |}.

Definition round_trip_network : network :=
  scripted [] [] [Ok (locations_answer 4.60971 (-74.08175) "Bogotá, Colombia");
                  Ok (routes_answer (PyFloat 15.2) (PyInt 1200))].

(** A route whose start received neither a coordinate nor an address:
    no call of [Localizacion] makes such an object, an assignment to
    its attributes does. *)
Definition bare_location : Localizacion.t :=
  {| Localizacion._data_procesada := false;
     Localizacion._imagen_procesada := false;
     Localizacion._latlng_recibido := false;
     Localizacion._direccion_recibida := false;
     Localizacion._lat := PyNone;
     Localizacion._lng := PyNone;
     Localizacion._latlng := PyNone;
     Localizacion._direccion := PyNone;
     Localizacion._kwargs := [];
     Localizacion._map_service := bing;
     Localizacion.data := None |}.

Definition bare_start : Ruta.state :=
  let w0 := run (Localizacion.alloc bare_location) empty_world in
  let w1 := run (Localizacion.new bing (PyTuple [PyFloat 4.7; PyFloat (-74.0)]) PyNone []) w0 in
  run (Ruta.new bing 0 1 [] []) {| Ruta.mundo := w1; Ruta.objects := ∅ |}.

(** An address with a quotation mark in it, as the geocoder may
    return it. *)
Definition quoted_address : string :=
  "Bar " +:+ chars [quote_char] +:+ "El Sol" +:+ chars [quote_char] +:+ ", Bogotá".

Definition found (lat lng : float) (formatted : string) : network :=
  scripted [Ok (Some {| latitude := lat; longitude := lng; address := formatted |})]
           [Ok (Some {| latitude := lat; longitude := lng; address := formatted |})]
           [].

Definition not_found (answer : pyval) : network :=
  scripted [Ok None] [Ok None] [Ok answer].

(** ** More scenarios: the disk, the translator, the geodesic distance *)

(** A directory, a download and a file that never fail, and a
    translator that answers the text after [es: ]. *)
Definition calm : io :=
  {| translate _ text _ _ :=
       match text with
       | PyStr s => Ok (PyStr ("es: " +:+ s))
       | _ => Raise TypeError
       end;
     mkdir _ _ := Ok ();
     urlretrieve _ _ _ := Ok ();
     read_image _ file := Ok ("PNG " +:+ file) |}.

(** A download that fails. *)
Definition offline : io :=
  {| translate _ _ _ _ := Raise (External "ConnectError");
     mkdir _ _ := Ok ();
     urlretrieve _ _ _ := Raise (External "URLError");
     read_image _ _ := Raise (External "FileNotFoundError") |}.

(** A geodesic distance that answers the two points it was given. *)
Definition echo : geopy :=
  {| geodesic_km a b := Ok (PyList [a; b]) |}.

(** A location made from a coordinate alone, and one made with both a
    coordinate and an address, each in an empty world: the object 0. *)
Definition punto_world : Localizacion.state :=
  run (Localizacion.new bing (PyTuple [PyFloat 4.6; PyFloat (-74.1)]) PyNone [])
    empty_world.

Definition ambos_world : Localizacion.state :=
  run (Localizacion.new bing (PyTuple [PyFloat 4.6; PyFloat (-74.1)])
         (PyStr "Bogotá, Colombia") []) empty_world.

Definition sin_imagenes (w : Localizacion.state) : Localizacion.state_io :=
  {| Localizacion.base := w; Localizacion._imagen := ∅; Localizacion.io_trace := [] |}.

Definition rutas_sin_imagenes (st : Ruta.state) : Ruta.state_io :=
  {| Ruta.base := st; Ruta._imagen := ∅; Ruta.io_trace := [] |}.

(** A route from a location made with both a coordinate and an address
    to the coordinate [(4.7, -74.0)]: the locations 0 and 1, the
    route 0. *)
Definition ambos_route : Ruta.state :=
  let w1 := ambos_world in
  let w2 := run (Localizacion.new bing (PyTuple [PyFloat 4.7; PyFloat (-74.0)]) PyNone []) w1 in
  run (Ruta.new bing 0 1 [] []) {| Ruta.mundo := w2; Ruta.objects := ∅ |}.

(** What the [Routes] service answers for a route of two
    instructions. *)
Definition guide : pyval :=
  PyDict [("travelDistance", PyFloat 15.2);
          ("travelDurationTraffic", PyInt 1200);
          ("routeLegs",
           PyList [PyDict [("itineraryItems",
             PyList [PyDict [("instruction", PyDict [("text", PyStr "Head north")])];
                     PyDict [("instruction", PyDict [("text", PyStr "Turn left")])]])]])].

Definition guide_network : network :=
  scripted [] [] [Ok (PyDict [("resourceSets",
                    PyList [PyDict [("resources", PyList [guide])]])])].

Definition guided_route : Ruta.state :=
  run (Ruta.procesar python guide_network 0) direct_route.

(** The geocoder is down; the [Locations] service would answer. *)
Definition geocoder_down : network :=
  scripted [Raise (External "GeocoderTimedOut")] [Raise (External "GeocoderTimedOut")]
           [Ok (locations_answer 4.60971 (-74.08175) "Bogotá, Colombia")].

(** The answer of the [Routes] service in [route_network]. *)
Definition route_data : pyval :=
  PyDict [("travelDistance", PyFloat 15.2); ("travelDurationTraffic", PyInt 1200)].

(** The answer of the [Locations] service in [steady]. *)
Definition bogota_data : pyval :=
  PyDict [("point", PyDict [("coordinates",
                             PyList [PyFloat 4.60971; PyFloat (-74.08175)])]);
          ("address", PyDict [("formattedAddress", PyStr "Bogotá, Colombia")])].

(** The [Locations] service answers; the [Routes] service is down. *)
Definition routes_down : network :=
  scripted [] [] [Ok (locations_answer 4.60971 (-74.08175) "Bogotá, Colombia");
                  Raise (External "URLError")].

(** ** Vocabulary of the statements

    The specification names the failures; the module raises
    [ValueError] with these messages. *)

Definition AlreadyResolved : exn :=
  ValueError "La localización ya ha sido procesada".

Definition ResolutionFailed : exn :=
  ValueError "Error, al procesar REST".

Definition DependencyUnresolved (extremo : string) : exn :=
  ValueError ("La localización de " +:+ extremo
              +:+ " no ha sido procesada, porfavor ejecutar método procesar()").

Definition InvalidSpeed : exn :=
  ValueError "La velocidad debe ser mayor a cero.".


Definition of_number (n : number) : pyval :=
  match n with
  | NInt z => PyInt z
  | NFloat f => PyFloat f
  end.


Definition fuera (lo hi : Z) (v : pyval) : Prop :=
  py_gt v (PyInt hi) = Ok true ∨ py_lt v (PyInt lo) = Ok true.

(** A coordinate pair as Python writes it: a tuple or a list. *)
Definition par (as_list : bool) (lat lng : pyval) : pyval :=
  if as_list then PyList [lat; lng] else PyTuple [lat; lng].

(** The location behind [loc] received a coordinate or an address when
    it was made, or neither. *)
Definition recibida (st : Ruta.state) (loc : ref) : Prop :=
  ∃ o, Localizacion.objects (Ruta.mundo st) !! loc = Some o
       ∧ (Localizacion._latlng_recibido o = true
          ∨ Localizacion._direccion_recibida o = true).

Definition sin_recibir (st : Ruta.state) (loc : ref) : Prop :=
  ∃ o, Localizacion.objects (Ruta.mundo st) !! loc = Some o
       ∧ Localizacion._latlng_recibido o = false
       ∧ Localizacion._direccion_recibida o = false.

(** What [Ruta.procesar] takes for its start or its end: what the
    location received. *)
Definition extremo (o : Localizacion.t) : pyval :=
  if Localizacion._latlng_recibido o then Localizacion._latlng o
  else Localizacion._direccion o.

(** The coordinate a location holds without asking anyone: the one it
    received, or the one in the data of a finished [procesar]. *)
Definition coordenada (o : Localizacion.t) : option pyval :=
  if Localizacion._latlng_recibido o then Some (Localizacion._latlng o)
  else if Localizacion._data_procesada o then
    match Localizacion.data o with
    | Some d =>
        match (point ← getitem_key d "point";
               coordinates ← getitem_key point "coordinates";
               py_tuple coordinates) with
        | Ok c => Some c
        | Raise _ => None
        end
    | None => None
    end
  else None.

(** The key under which stop number [n] of [numero_paradas] is sent. *)
Definition clave (numero_paradas n : nat) : string :=
  if bool_decide (n = 1 ∨ n = numero_paradas)
  then "wayPoint." +:+ pretty n
  else "viaWayPoint." +:+ pretty n.

(** What [Localizacion.procesar] sends to the map service: the address
    when there is one, else the coordinate. *)
Definition ubicacion_a_procesar (o : Localizacion.t) : option pyval :=
  if negb (is_none (Localizacion._direccion o)) then Some (Localizacion._direccion o)
  else if negb (is_none (Localizacion._latlng o)) then Some (Localizacion._latlng o)
  else None.

(** [data['point']['coordinates']] as a tuple. *)
Definition coordinates_of (d : pyval) : result pyval :=
  point ← getitem_key d "point";
  coordinates ← getitem_key point "coordinates";
  py_tuple coordinates.

Definition url_rutas (self : MapService.t) : string :=
  match self with
  | MapService.Open s => OpenService._url_rutas s
  | MapService.Bing s => BingService._url_rutas s
  end.

Definition api_key (self : MapService.t) : pyval :=
  match self with
  | MapService.Open s => OpenService._api_key s
  | MapService.Bing s => BingService._api_key s
  end.

(** The address that [_rest_localizacion] fetches from the [Locations]
    service for [ubicacion], with no other parameter than the key. *)
Definition locations_url (rt : runtime) (url : string) (key : pyval)
    (ubicacion : pyval) : string :=
  match ubicacion with
  | PyStr s => (url +:+ (("/" +:+ quote rt s) +:+ "?")) +:+ urlencode rt [("key", key)]
  | _ => (url +:+ "?") +:+ urlencode rt [("key", key); ("query", ubicacion)]
  end.

(** ** What the constructor leaves in a location

    A location is of one of three kinds: it received both a coordinate
    and an address and kept neither; it received a coordinate alone, a
    tuple or a list of which [_lat] and [_lng] are the first two
    elements; or it received an address alone, a [str].  It has the
    attribute [data] exactly when it is marked as processed. *)
Definition bien_formada (o : Localizacion.t) : Prop :=
  (Localizacion._data_procesada o = true ↔ is_Some (Localizacion.data o))
  ∧ ((Localizacion._latlng_recibido o = true
      ∧ Localizacion._direccion_recibida o = true
      ∧ Localizacion._latlng o = PyNone
      ∧ Localizacion._direccion o = PyNone)
     ∨ (Localizacion._latlng_recibido o = true
        ∧ Localizacion._direccion_recibida o = false
        ∧ is_tuple_or_list (Localizacion._latlng o) = true
        ∧ getitem_idx (Localizacion._latlng o) 0 = Ok (Localizacion._lat o)
        ∧ getitem_idx (Localizacion._latlng o) 1 = Ok (Localizacion._lng o)
        ∧ Localizacion._direccion o = PyNone)
     ∨ (Localizacion._latlng_recibido o = false
        ∧ Localizacion._direccion_recibida o = true
        ∧ is_str (Localizacion._direccion o) = true
        ∧ Localizacion._latlng o = PyNone)).

(** Every location alive is as the constructor and the methods leave
    it. *)
Definition mundo_bien_formado (w : Localizacion.state) : Prop :=
  ∀ l o, Localizacion.objects w !! l = Some o → bien_formada o.

(** [data['address']['formattedAddress']] *)
Definition formatted_address_of (d : pyval) : result pyval :=
  address ← getitem_key d "address";
  getitem_key address "formattedAddress".

(** A tuple or a list of the elements [l]. *)
Definition secuencia (as_list : bool) (l : list pyval) : pyval :=
  if as_list then PyList l else PyTuple l.

(** The arguments that the constructor of [Localizacion] accepts: both
    a coordinate and an address, whatever they are; or a coordinate
    alone, a tuple or a list of two elements or more; or an address
    alone, a [str]. *)
Definition argumentos_aceptados (latlng direccion : pyval) : Prop :=
  (latlng ≠ PyNone ∧ direccion ≠ PyNone)
  ∨ (direccion = PyNone
     ∧ ∃ as_list lat lng rest, latlng = secuencia as_list (lat :: lng :: rest))
  ∨ (latlng = PyNone ∧ ∃ s, direccion = PyStr s).

(** What [OpenService] asks the geocoder for [ubicacion]: the place of
    a coordinate, or the coordinate of an address. *)
Definition geocoder_event (self : OpenService.t) (ubicacion : pyval) : event :=
  match ubicacion with
  | PyStr s => Geocode (OpenService.geolocator self) s
  | _ => Reverse (OpenService.geolocator self) ubicacion
  end.

Definition geocoder_answer (net : network) (self : OpenService.t) (tr : list event)
    (ubicacion : pyval) : result (option Location) :=
  match ubicacion with
  | PyStr s => nominatim_geocode net tr (OpenService.geolocator self) s
  | _ => nominatim_reverse net tr (OpenService.geolocator self) ubicacion
  end.

(** The locations of a world of routes. *)
Definition localizaciones (st : Ruta.state) : gmap ref Localizacion.t :=
  Localizacion.objects (Ruta.mundo st).

(** The calls made so far in a world of routes. *)
Definition llamadas (st : Ruta.state) : list event :=
  Localizacion.trace (Ruta.mundo st).

(** A location made with both a coordinate and an address. *)
Definition hecha_con_ambos (o : Localizacion.t) : Prop :=
  ∃ ms latlng direccion kwargs,
    latlng ≠ PyNone ∧ direccion ≠ PyNone
    ∧ Localizacion.__init__ ms latlng direccion kwargs = Ok o.

Definition sin_coordenadas : exn :=
  ValueError "Error, ejecutar el método procesar() en las localizaciones de la ruta".

(** ** Driving instructions *)

(** The items that the loop of [indicaciones_ruta] visits:
    [data["routeLegs"][0]["itineraryItems"]], iterated. *)
Definition itinerary_items (d : pyval) : result (list pyval) :=
  routeLegs ← getitem_key d "routeLegs";
  leg ← getitem_idx routeLegs 0;
  indicacioneItems ← getitem_key leg "itineraryItems";
  Ruta.py_iter indicacioneItems.

(** The request to translate [text] from English to Spanish. *)
Definition traduccion_pedida (text : pyval) : io_event := Translate text "en" "es".

(** The body of the loop of [indicaciones_ruta]. *)
Definition indicacion (out : io) (traducir : bool) (item : pyval)
    : M Ruta.state_io pyval :=
  texto ← lift (Ruta.instruction_text item);
  if traducir then
    text ← lift (Ruta.instruction_text item);
    Ruta.with_io (Ruta.translator_translate out text "en" "es")
  else mret texto.

(** ** Images *)

Definition url_localizacion_imagen (self : MapService.t) : string :=
  match self with
  | MapService.Open s => OpenService._url_localizacion_imagen s
  | MapService.Bing s => BingService._url_localizacion_imagen s
  end.

Definition url_rutas_imagen (self : MapService.t) : string :=
  match self with
  | MapService.Open s => OpenService._url_rutas_imagen s
  | MapService.Bing s => BingService._url_rutas_imagen s
  end.

(** The three steps that end the two image methods: the directory, the
    download into [file], the image read from [file]. *)
Definition descarga (out : io) (url file : string) : M (list io_event) Image :=
  path_mkdir out "images";;
  request_urlretrieve out url file;;
  Image_of_file out file.

(** The file of the image of a location, and of a route. *)
Definition archivo_localizacion (t : string) : string :=
  ("images/localizacion(" +:+ t) +:+ ").png".

Definition archivo_ruta (t_inicio t_final : string) : string :=
  ((("images/Ruta(" +:+ t_inicio) +:+ ")(") +:+ t_final) +:+ ").png".

(** * Facts *)

(** ** Laws of the computations *)

Lemma bind_Ok {S A B} (m : M S A) (k : A → M S B) s a s' :
  m s = (Ok a, s') → (m ≫= k) s = k a s'.
Proof. intros H. unfold mbind, M_bind. by rewrite H. Qed.

Lemma bind_Raise {S A B} (m : M S A) (k : A → M S B) s e s' :
  m s = (Raise e, s') → (m ≫= k) s = (Raise e, s').
Proof. intros H. unfold mbind, M_bind. by rewrite H. Qed.

Lemma Ruta_load_Some st r self :
  Ruta.objects st !! r = Some self → Ruta.load r st = (Ok self, st).
Proof. intros H. unfold Ruta.load. by rewrite H. Qed.

Lemma Localizacion_load_Some st r o :
  Localizacion.objects st !! r = Some o → Localizacion.load r st = (Ok o, st).
Proof. intros H. unfold Localizacion.load. by rewrite H. Qed.

Lemma with_mundo_eq {A} (m : M Localizacion.state A) st r w :
  m (Ruta.mundo st) = (r, w) →
  Ruta.with_mundo m st = (r, {| Ruta.mundo := w; Ruta.objects := Ruta.objects st |}).
Proof. intros H. unfold Ruta.with_mundo. by rewrite H. Qed.

Lemma with_mundo_same {A} (m : M Localizacion.state A) st r :
  m (Ruta.mundo st) = (r, Ruta.mundo st) → Ruta.with_mundo m st = (r, st).
Proof. intros H. rewrite (with_mundo_eq _ _ _ _ H). by destruct st. Qed.

(** ** Numbers *)

Lemma py_gt_not_le a b : py_gt a b = Ok true → py_le a b = Ok false.
Proof.
  unfold py_gt, py_le, py_compare.
  destruct (as_number a), (as_number b); try done.
  by destruct (number_compare _ _) as [[]|].
Qed.



Lemma py_compare_not_ValueError test a b msg :
  py_compare test a b ≠ Raise (ValueError msg).
Proof. unfold py_compare. by destruct (as_number a), (as_number b). Qed.

Lemma float_of_int_not_ValueError z msg : float_of_int z ≠ Raise (ValueError msg).
Proof. unfold float_of_int. by destruct (binary_normalize _ _ _ _ _). Qed.

Lemma to_float_not_ValueError n msg : to_float n ≠ Raise (ValueError msg).
Proof. destruct n; [apply float_of_int_not_ValueError | done]. Qed.

Lemma int_true_divide_not_ValueError a b msg :
  int_true_divide a b ≠ Raise (ValueError msg).
Proof.
  unfold int_true_divide. repeat case_match; done.
Qed.

Lemma py_truediv_not_ValueError a b msg : py_truediv a b ≠ Raise (ValueError msg).
Proof.
  unfold py_truediv.
  destruct (as_number a) as [[x|x]|], (as_number b) as [[y|y]|]; simpl; try done.
  - pose proof (int_true_divide_not_ValueError x y msg).
    destruct (int_true_divide x y); simpl; congruence.
  - pose proof (float_of_int_not_ValueError x msg).
    destruct (float_of_int x); simpl; [by case_match | congruence].
  - pose proof (float_of_int_not_ValueError y msg).
    destruct (float_of_int y); simpl; [by case_match | congruence].
  - by case_match.
Qed.

Lemma py_mul_not_ValueError a b msg : py_mul a b ≠ Raise (ValueError msg).
Proof.
  unfold py_mul.
  destruct (as_number a) as [[x|x]|], (as_number b) as [[y|y]|]; simpl; try done.
  - pose proof (float_of_int_not_ValueError x msg).
    destruct (float_of_int x); simpl; congruence.
  - by destruct (sequence_repeat _ _).
  - pose proof (float_of_int_not_ValueError y msg).
    destruct (float_of_int y); simpl; congruence.
  - by destruct (sequence_repeat _ _).
Qed.

Lemma division_times_not_ValueError a b k msg :
  (q ← py_truediv a b; py_mul q k) ≠ Raise (ValueError msg).
Proof.
  pose proof (py_truediv_not_ValueError a b msg).
  destruct (py_truediv a b) as [q|]; simpl; [|congruence].
  apply py_mul_not_ValueError.
Qed.

(** A float above the int 0 is not equal to the float 0. *)
Lemma float_gt_0_nonzero (v : float) :
  py_gt (PyFloat v) (PyInt 0) = Ok true → PrimFloat.eqb v 0 = false.
Proof.
  unfold py_gt, py_compare, number_compare, as_number, float_int_compare.
  rewrite FloatAxioms.eqb_spec. change (Prim2SF 0) with (S754_zero false).
  destruct (Prim2SF v) as [s|s| |s m e]; simpl; try done.
  - by destruct s.
  - by destruct s.
Qed.

Section Accessors.
Context (rt : runtime) (net : network).

Lemma obtener_latlng_recibido w loc o :
  Localizacion.objects w !! loc = Some o →
  Localizacion._latlng_recibido o = true →
  Localizacion.obtener_latlng rt net loc w = (Ok (Localizacion._latlng o), w).
Proof.
  intros Ho Hf. unfold Localizacion.obtener_latlng.
  rewrite (bind_Ok _ _ _ _ _ (Localizacion_load_Some _ _ _ Ho)).
  by rewrite Hf.
Qed.

Lemma obtener_direccion_recibida w loc o :
  Localizacion.objects w !! loc = Some o →
  Localizacion._direccion_recibida o = true →
  Localizacion.obtener_direccion rt net loc w = (Ok (Localizacion._direccion o), w).
Proof.
  intros Ho Hf. unfold Localizacion.obtener_direccion.
  rewrite (bind_Ok _ _ _ _ _ (Localizacion_load_Some _ _ _ Ho)).
  by rewrite Hf.
Qed.

Lemma proc_extremo_recibida st loc o msg :
  Localizacion.objects (Ruta.mundo st) !! loc = Some o →
  Localizacion._latlng_recibido o = true ∨ Localizacion._direccion_recibida o = true →
  Ruta.proc_extremo rt net loc msg st = (Ok (extremo o), st).
Proof.
  intros Ho Hf. unfold Ruta.proc_extremo, extremo.
  rewrite (bind_Ok _ _ _ _ _ (with_mundo_same _ _ _ (Localizacion_load_Some _ _ _ Ho))).
  destruct (Localizacion._latlng_recibido o) eqn:E1.
  - apply with_mundo_same. by apply obtener_latlng_recibido.
  - destruct Hf as [|Hd]; [done|]. rewrite Hd.
    apply with_mundo_same. by apply obtener_direccion_recibida.
Qed.

Lemma proc_extremo_sin_recibir st loc o msg :
  Localizacion.objects (Ruta.mundo st) !! loc = Some o →
  Localizacion._latlng_recibido o = false →
  Localizacion._direccion_recibida o = false →
  Ruta.proc_extremo rt net loc msg st = (Raise (ValueError msg), st).
Proof.
  intros Ho H1 H2. unfold Ruta.proc_extremo.
  rewrite (bind_Ok _ _ _ _ _ (with_mundo_same _ _ _ (Localizacion_load_Some _ _ _ Ho))).
  by rewrite H1, H2.
Qed.

End Accessors.

(** ** The encoding of positions and stops *)

Lemma py_compare_number test (x : number) (k : Z) :
  ∃ b, py_compare test (of_number x) (PyInt k) = Ok b.
Proof. destruct x; simpl; eauto. Qed.

Lemma py_or_true_l a b : a = Ok true → py_or a b = Ok true.
Proof. by intros ->. Qed.

Lemma py_or_false_l a b : a = Ok false → py_or a b = b.
Proof. by intros ->. Qed.

Lemma fuera_py_or lo hi (x : number) :
  fuera lo hi (of_number x) →
  py_or (py_gt (of_number x) (PyInt hi)) (py_lt (of_number x) (PyInt lo)) = Ok true.
Proof.
  intros [H|H]; [by apply py_or_true_l|].
  destruct (py_compare_number (λ c, match c with Gt => true | _ => false end) x hi)
    as [[] Hb]; fold py_gt in Hb.
  - by apply py_or_true_l.
  - by rewrite py_or_false_l.
Qed.



Lemma getitem_par as_list lat lng :
  getitem_idx (par as_list lat lng) 0 = Ok lat
  ∧ getitem_idx (par as_list lat lng) 1 = Ok lng
  ∧ is_tuple_or_list (par as_list lat lng) = true.
Proof. by destruct as_list. Qed.

Section Encoding.
Context (rt : runtime).

Lemma tuple_LatLng_to_string_par as_list lat lng :
  _tuple_LatLng_to_string rt (par as_list lat lng)
  = py_or (py_gt lat (PyInt 90)) (py_lt lat (PyInt (-90))) ≫= λ lat_out : bool,
    if lat_out then Raise (ValueError "Latitud inválida")
    else
      py_or (py_gt lng (PyInt 180)) (py_lt lng (PyInt (-180))) ≫= λ lng_out : bool,
      if lng_out then Raise (ValueError "Longitud inválida")
      else Ok (PyStr (py_str rt lat +:+ "," +:+ py_str rt lng)).
Proof. by destruct as_list. Qed.










End Encoding.

(** ** Stops as query parameters *)

Lemma dict_set_fresh (d : dict) k v :
  k ∉ dict_keys d → dict_set d k v = d ++ [(k, v)].
Proof.
  induction d as [|[k' v'] d IH]; intros Hk; [done|]. simpl in *.
  apply not_elem_of_cons in Hk as [Hne Hk].
  rewrite decide_False by done. by rewrite IH.
Qed.

Lemma dict_get_elem (d : dict) k v :
  NoDup (dict_keys d) → (k, v) ∈ d → dict_get d k = Some v.
Proof.
  induction d as [|[k' v'] d IH]; intros Hnd Hin; [by apply elem_of_nil in Hin|].
  simpl in *. apply NoDup_cons in Hnd as [Hk' Hnd].
  apply elem_of_cons in Hin as [[= -> ->]|Hin].
  - by rewrite decide_True.
  - rewrite decide_False; [by apply IH|].
    intros ->. apply Hk'. unfold dict_keys.
    apply list_elem_of_fmap. by exists (k, v).
Qed.

Lemma clave_inj N : Inj (=) (=) (clave N).
Proof.
  intros a b. unfold clave.
  repeat case_bool_decide; intros Heq;
    first [ apply (inj (String.append _)), (inj pretty) in Heq; done
          | cbv beta iota delta [String.append] in Heq; discriminate ].
Qed.

Lemma clave_via N n : n ≠ 1 → n ≠ N → clave N n = "viaWayPoint." +:+ pretty n.
Proof. intros. unfold clave. rewrite bool_decide_eq_false_2; [done|]. lia. Qed.

Lemma clave_extremo N n : n = 1 ∨ n = N → clave N n = "wayPoint." +:+ pretty n.
Proof. intros. unfold clave. by rewrite bool_decide_eq_true_2. Qed.

(** Each turn of the loop adds its stop under a key not yet there. *)
Lemma viajes_loop N (ns : list nat) (ps : list pyval) (d : dict) :
  NoDup (dict_keys d ++ (clave N <$> ns)) →
  fold_left
    (λ (viajes : dict) (nwp : nat * pyval),
       let (n, wp) := nwp in
       if bool_decide (n = 1 ∨ n = N)
       then dict_set viajes ("wayPoint." +:+ pretty n) wp
       else dict_set viajes ("viaWayPoint." +:+ pretty n) wp)
    (zip ns ps) d
  = d ++ zip_with (λ n wp, (clave N n, wp)) ns ps.
Proof.
  revert ps d. induction ns as [|n ns IH]; intros ps d Hnd; simpl.
  { by rewrite app_nil_r. }
  destruct ps as [|p ps]; simpl; [by rewrite app_nil_r|].
  assert (Hfresh : clave N n ∉ dict_keys d).
  { apply NoDup_app in Hnd as (_ & Hd & _). intros Hin.
    apply (Hd _ Hin). simpl. by left. }
  assert (Hstep : (if bool_decide (n = 1 ∨ n = N)
                   then dict_set d ("wayPoint." +:+ pretty n) p
                   else dict_set d ("viaWayPoint." +:+ pretty n) p)
                  = d ++ [(clave N n, p)]).
  { rewrite <- (dict_set_fresh _ _ _ Hfresh). unfold clave. by case_bool_decide. }
  rewrite Hstep, IH.
  - by rewrite <- app_assoc.
  - unfold dict_keys in *. rewrite fmap_app. simpl. rewrite <- app_assoc. simpl.
    by rewrite fmap_cons in Hnd.
Qed.

Lemma viajes_de_zip (paradas : list pyval) :
  viajes_de paradas
  = zip_with (λ n wp, (clave (length paradas) n, wp)) (seq 1 (length paradas)) paradas.
Proof.
  unfold viajes_de. rewrite viajes_loop; [done|]. simpl.
  apply (NoDup_fmap_2 _ (Inj0 := clave_inj _)), NoDup_seq.
Qed.

Lemma zip_with_keys {B} (f : nat → string) (ns : list nat) (ps : list B) :
  length ns = length ps →
  (zip_with (λ n wp, (f n, wp)) ns ps).*1 = f <$> ns.
Proof.
  revert ps. induction ns as [|n ns IH]; intros [|p ps] Hlen; simpl in *; try done.
  f_equal. apply IH. lia.
Qed.


Section Waypoints.
Context (rt : runtime).


Lemma zip_with_clave_via N a (ts : list pyval) :
  (∀ n, a ≤ n < a + length ts → n ≠ 1 ∧ n ≠ N) →
  zip_with (λ n wp, (clave N n, wp)) (seq a (length ts)) ts
  = zip_with (λ n wp, ("viaWayPoint." +:+ pretty n, wp)) (seq a (length ts)) ts.
Proof.
  revert a. induction ts as [|t ts IH]; intros a Hn; [done|]. simpl.
  rewrite clave_via by (apply Hn; simpl; lia).
  f_equal. apply IH. intros n ?. apply Hn. simpl. lia.
Qed.

(** The parameters made from the stops [t_inicio], [ts], [t_final]. *)
Lemma viajes_de_closed t_inicio (ts : list pyval) t_final :
  viajes_de (t_inicio :: ts ++ [t_final])
  = ("wayPoint.1", t_inicio)
    :: zip_with (λ n wp, ("viaWayPoint." +:+ pretty n, wp)) (seq 2 (length ts)) ts
    ++ [("wayPoint." +:+ pretty (length ts + 2), t_final)].
Proof.
  rewrite viajes_de_zip. simpl. rewrite length_app. simpl.
  set (N := S (length ts + 1)).
  rewrite seq_app. simpl.
  rewrite zip_with_app by (by rewrite length_seq). simpl.
  rewrite zip_with_clave_via by (intros; subst N; lia).
  rewrite (clave_extremo N 1) by (by left).
  rewrite (clave_extremo N (S (S (length ts)))) by (right; subst N; lia).
  by replace (length ts + 2) with (S (S (length ts))) by lia.
Qed.

Lemma viajes_de_NoDup (paradas : list pyval) : NoDup (dict_keys (viajes_de paradas)).
Proof.
  rewrite viajes_de_zip. unfold dict_keys.
  rewrite zip_with_keys by (by rewrite length_seq).
  apply (NoDup_fmap_2 _ (Inj0 := clave_inj _)), NoDup_seq.
Qed.

(** The stop at place [k] of the intermediate ones is held under
    [viaWayPoint.(k+2)]. *)
Lemma viajes_de_via t_inicio (ts : list pyval) t_final k t :
  ts !! k = Some t →
  dict_get (viajes_de (t_inicio :: ts ++ [t_final])) ("viaWayPoint." +:+ pretty (k + 2))
  = Some t.
Proof.
  intros Ht. apply dict_get_elem; [apply viajes_de_NoDup|].
  rewrite viajes_de_closed. right. apply elem_of_app. left.
  apply list_elem_of_lookup. exists k.
  pose proof (lookup_lt_Some _ _ _ Ht) as Hlt.
  rewrite lookup_zip_with, lookup_seq_lt by done.
  simpl. rewrite Ht. simpl. by replace (S (S k)) with (k + 2) by lia.
Qed.


End Waypoints.

(** ** Locations *)

Section LocationFacts.
Context (rt : runtime) (net : network).

(** [procesar], case by case. *)
Lemma Localizacion_procesar_unfold w l o :
  Localizacion.objects w !! l = Some o →
  Localizacion.procesar rt net l w =
    if Localizacion._data_procesada o then (Raise AlreadyResolved, w)
    else if Localizacion._latlng_recibido o && Localizacion._direccion_recibida o
    then (Raise (ValueError "No es necesario procesar la ubicación"), w)
    else match ubicacion_a_procesar o with
         | None => (Raise (ValueError "Error, no hay datos de ubicación para procesar"), w)
         | Some u =>
             match MapService._rest_localizacion rt net (Localizacion._map_service o) u
                     (Localizacion._kwargs o) (Localizacion.trace w) with
             | (Ok d, tr) =>
                 (Ok d, {| Localizacion.trace := tr;
                           Localizacion.objects :=
                             <[l := Localizacion.set_data d o]> (Localizacion.objects w) |})
             | (Raise _, tr) =>
                 (Raise ResolutionFailed,
                  {| Localizacion.trace := tr;
                     Localizacion.objects := Localizacion.objects w |})
             end
         end.
Proof.
  intros Ho. unfold Localizacion.procesar.
  rewrite (bind_Ok _ _ _ _ _ (Localizacion_load_Some _ _ _ Ho)).
  destruct (Localizacion._data_procesada o); [done|].
  destruct (_ && _); [done|].
  unfold ubicacion_a_procesar.
  assert (Hrest : ∀ u,
    (try_except
       (d ← Localizacion.with_trace
              (MapService._rest_localizacion rt net (Localizacion._map_service o) u
                 (Localizacion._kwargs o));
        Localizacion.modify l (Localizacion.set_data d))
       (raise (ValueError "Error, al procesar REST"));;
     Localizacion.get_data l) w
    = match MapService._rest_localizacion rt net (Localizacion._map_service o) u
              (Localizacion._kwargs o) (Localizacion.trace w) with
      | (Ok d, tr) =>
          (Ok d, {| Localizacion.trace := tr;
                    Localizacion.objects :=
                      <[l := Localizacion.set_data d o]> (Localizacion.objects w) |})
      | (Raise _, tr) =>
          (Raise ResolutionFailed,
           {| Localizacion.trace := tr;
              Localizacion.objects := Localizacion.objects w |})
      end).
  { intros u.
    unfold try_except, Localizacion.with_trace, Localizacion.modify,
      Localizacion.get_data, Localizacion.load, raise, mbind, M_bind, mret, M_ret.
    destruct (MapService._rest_localizacion _ _ _ _ _ _) as [[d|e] tr]; simpl; [|done].
    rewrite Ho. simpl. by rewrite lookup_insert_eq. }
  destruct (negb (is_none (Localizacion._direccion o))); [apply Hrest|].
  destruct (negb (is_none (Localizacion._latlng o))); [apply Hrest|].
  done.
Qed.

Lemma Localizacion_procesar_dangling w l :
  Localizacion.objects w !! l = None →
  Localizacion.procesar rt net l w = (Raise Dangling, w).
Proof.
  intros Ho. unfold Localizacion.procesar, Localizacion.load, mbind, M_bind.
  by rewrite Ho.
Qed.

(** A [procesar] that returns left its object processed, with the
    answer as data, and no other object touched. *)
Lemma Localizacion_procesar_Ok w l d w' :
  Localizacion.procesar rt net l w = (Ok d, w') →
  ∃ o, Localizacion.objects w !! l = Some o
       ∧ Localizacion._data_procesada o = false
       ∧ Localizacion.objects w' = <[l := Localizacion.set_data d o]> (Localizacion.objects w).
Proof.
  intros H. destruct (Localizacion.objects w !! l) as [o|] eqn:Ho.
  - rewrite (Localizacion_procesar_unfold _ _ _ Ho) in H.
    exists o. split; [done|].
    destruct (Localizacion._data_procesada o); [done|].
    destruct (_ && _); [done|].
    destruct (ubicacion_a_procesar o); [|done].
    destruct (MapService._rest_localizacion _ _ _ _ _ _) as [[d'|e] tr]; [|done].
    by injection H as <- <-.
  - by rewrite (Localizacion_procesar_dangling _ _ Ho) in H.
Qed.

(** A [procesar] that raises left every object as it was. *)
Lemma Localizacion_procesar_Raise w l e w' :
  Localizacion.procesar rt net l w = (Raise e, w') →
  Localizacion.objects w' = Localizacion.objects w.
Proof.
  intros H. destruct (Localizacion.objects w !! l) as [o|] eqn:Ho.
  - rewrite (Localizacion_procesar_unfold _ _ _ Ho) in H.
    destruct (Localizacion._data_procesada o); [by injection H as <- <-|].
    destruct (_ && _); [by injection H as <- <-|].
    destruct (ubicacion_a_procesar o); [|by injection H as <- <-].
    destruct (MapService._rest_localizacion _ _ _ _ _ _) as [[d'|e'] tr]; [done|].
    by injection H as <- <-.
  - rewrite (Localizacion_procesar_dangling _ _ Ho) in H. by injection H as <- <-.
Qed.

Lemma Localizacion_procesar_procesada w l o :
  Localizacion.objects w !! l = Some o →
  Localizacion._data_procesada o = true →
  Localizacion.procesar rt net l w = (Raise AlreadyResolved, w).
Proof.
  intros Ho Hp. by rewrite (Localizacion_procesar_unfold _ _ _ Ho), Hp.
Qed.

End LocationFacts.

Section CoordinateAccessor.
Context (rt : runtime) (net : network).

Lemma Localizacion_get_data_Some w l o :
  Localizacion.objects w !! l = Some o →
  Localizacion.get_data l w
  = (match Localizacion.data o with Some d => Ok d | None => Raise AttributeError end, w).
Proof.
  intros Ho. unfold Localizacion.get_data.
  rewrite (bind_Ok _ _ _ _ _ (Localizacion_load_Some _ _ _ Ho)).
  by destruct (Localizacion.data o).
Qed.

(** [obtener_latlng], case by case. *)
Lemma obtener_latlng_unfold w l o :
  Localizacion.objects w !! l = Some o →
  Localizacion.obtener_latlng rt net l w =
    if Localizacion._latlng_recibido o then (Ok (Localizacion._latlng o), w)
    else if Localizacion._data_procesada o then
      (match Localizacion.data o with
       | Some d => coordinates_of d
       | None => Raise AttributeError
       end, w)
    else match Localizacion.procesar rt net l w with
         | (Ok d, w') => (coordinates_of d, w')
         | (Raise e, w') => (Raise e, w')
         end.
Proof.
  intros Ho. unfold Localizacion.obtener_latlng.
  rewrite (bind_Ok _ _ _ _ _ (Localizacion_load_Some _ _ _ Ho)).
  destruct (Localizacion._latlng_recibido o); [done|].
  destruct (Localizacion._data_procesada o) eqn:Hp; simpl.
  - unfold mbind, M_bind, mret, M_ret, lift.
    rewrite (Localizacion_get_data_Some _ _ _ Ho).
    by destruct (Localizacion.data o).
  - destruct (Localizacion.procesar rt net l w) as [[d|e] w'] eqn:Hproc.
    + destruct (Localizacion_procesar_Ok rt net _ _ _ _ Hproc) as (o' & Ho' & _ & Hobj).
      assert (Hl : Localizacion.objects w' !! l = Some (Localizacion.set_data d o')).
      { rewrite Hobj. apply lookup_insert_eq. }
      unfold mbind, M_bind, mret, M_ret, lift. rewrite Hproc.
      by rewrite (Localizacion_get_data_Some _ _ _ Hl).
    + unfold mbind, M_bind. by rewrite Hproc.
Qed.

End CoordinateAccessor.

(** ** The intermediate stops of a route *)

Section Vias.
Context (rt : runtime) (net : network).

Lemma coordenada_set_data d o c :
  Localizacion._latlng_recibido o = false →
  coordinates_of d = Ok c →
  coordenada (Localizacion.set_data d o) = Some c.
Proof.
  intros Hf Hc. unfold coordenada. simpl. rewrite Hf.
  fold (coordinates_of d). by rewrite Hc.
Qed.

(** One call of [obtener_latlng]: it touches no object but its own, and
    not even that one when its coordinate was already at hand; what it
    returns is the coordinate its object holds afterwards. *)
Lemma obtener_latlng_effect w l res w' :
  Localizacion.obtener_latlng rt net l w = (res, w') →
  (∀ l0, l0 ≠ l → Localizacion.objects w' !! l0 = Localizacion.objects w !! l0)
  ∧ (∀ l0 o c, Localizacion.objects w !! l0 = Some o → coordenada o = Some c →
       Localizacion.objects w' !! l0 = Some o)
  ∧ (∀ c, res = Ok c →
       ∃ o', Localizacion.objects w' !! l = Some o' ∧ coordenada o' = Some c).
Proof.
  intros H. destruct (Localizacion.objects w !! l) as [o|] eqn:Ho.
  2:{ unfold Localizacion.obtener_latlng, Localizacion.load, mbind, M_bind in H.
      rewrite Ho in H. injection H as <- <-. split_and!; [done..|]. intros; done. }
  rewrite (obtener_latlng_unfold _ _ _ _ _ Ho) in H.
  destruct (Localizacion._latlng_recibido o) eqn:Hr.
  { injection H as <- <-. split_and!; [done..|].
    intros c [= <-]. exists o. split; [done|]. unfold coordenada. by rewrite Hr. }
  destruct (Localizacion._data_procesada o) eqn:Hp.
  { injection H as <- <-. split_and!; [done..|].
    intros c Hc. exists o. split; [done|]. unfold coordenada. rewrite Hr, Hp.
    destruct (Localizacion.data o); [|done].
    fold (coordinates_of p). unfold coordinates_of in *. by rewrite Hc. }
  assert (Hnone : coordenada o = None).
  { unfold coordenada. by rewrite Hr, Hp. }
  destruct (Localizacion.procesar rt net l w) as [[d|e] w1] eqn:Hproc.
  - injection H as <- <-.
    destruct (Localizacion_procesar_Ok _ _ _ _ _ _ Hproc) as (o1 & Ho1 & _ & Hobj).
    assert (o1 = o) as -> by congruence.
    split_and!.
    + intros l0 Hne. rewrite Hobj. by apply lookup_insert_ne.
    + intros l0 o0 c Ho0 Hc. rewrite Hobj.
      destruct (decide (l0 = l)) as [->|Hne]; [congruence|].
      by rewrite lookup_insert_ne.
    + intros c Hc. eexists. rewrite Hobj, lookup_insert_eq. split; [done|].
      by apply coordenada_set_data.
  - injection H as <- <-.
    rewrite (Localizacion_procesar_Raise _ _ _ _ _ _ Hproc).
    split_and!; [done..|]. intros; done.
Qed.

Lemma mapM_cons_unfold {S A B} (f : A → M S B) x l s :
  mapM f (x :: l) s =
    match f x s with
    | (Ok y, s1) =>
        match mapM f l s1 with
        | (Ok ys, s2) => (Ok (y :: ys), s2)
        | (Raise e, s2) => (Raise e, s2)
        end
    | (Raise e, s1) => (Raise e, s1)
    end.
Proof.
  simpl. unfold mbind, M_bind, mret, M_ret.
  destruct (f x s) as [[y|e] s1]; [|done].
  by destruct (mapM f l s1) as [[ys|e] s2].
Qed.

(** The list comprehension over the stops: only the stops are touched,
    a coordinate already at hand stays, and each value returned is the
    coordinate its stop holds afterwards. *)
Lemma mapM_obtener_latlng_effect vias w res w' :
  mapM (Localizacion.obtener_latlng rt net) vias w = (res, w') →
  (∀ l0, l0 ∉ vias → Localizacion.objects w' !! l0 = Localizacion.objects w !! l0)
  ∧ (∀ l0 o c, Localizacion.objects w !! l0 = Some o → coordenada o = Some c →
       Localizacion.objects w' !! l0 = Some o)
  ∧ (∀ cs, res = Ok cs →
       Forall2 (λ l c, ∃ o, Localizacion.objects w' !! l = Some o
                            ∧ coordenada o = Some c) vias cs).
Proof.
  revert w res w'. induction vias as [|l vias IH]; intros w res w' H.
  { injection H as <- <-. split_and!; [done..|]. intros cs [= <-]. constructor. }
  rewrite mapM_cons_unfold in H.
  destruct (Localizacion.obtener_latlng rt net l w) as [[c|e] w1] eqn:H1.
  2:{ injection H as <- <-.
      destruct (obtener_latlng_effect _ _ _ _ H1) as (Ha & Hb & _).
      split_and!; [|done|intros; done].
      intros l0 Hl0. apply Ha. intros ->. apply Hl0. by left. }
  destruct (obtener_latlng_effect _ _ _ _ H1) as (Ha & Hb & Hc).
  destruct (mapM (Localizacion.obtener_latlng rt net) vias w1) as [[cs|e] w2] eqn:H2;
    destruct (IH _ _ _ H2) as (IHa & IHb & IHc); injection H as <- <-.
  - split_and!.
    + intros l0 Hl0. apply not_elem_of_cons in Hl0 as [Hne Hl0].
      by rewrite IHa, Ha.
    + intros l0 o c0 Ho Hco. eapply IHb; [|done]. by eapply Hb.
    + intros cs' [= <-]. constructor; [|by apply IHc].
      destruct (Hc c eq_refl) as (o' & Ho' & Hco'). exists o'. split; [|done].
      by eapply IHb.
  - split_and!.
    + intros l0 Hl0. apply not_elem_of_cons in Hl0 as [Hne Hl0].
      by rewrite IHa, Ha.
    + intros l0 o c0 Ho Hco. eapply IHb; [|done]. by eapply Hb.
    + intros; done.
Qed.

End Vias.

(** ** Routes: the checks on start and end, and the derived values *)

Section RouteFacts.
Context (rt : runtime) (net : network).

(** C8.  [Ruta.procesar] on a route not yet processed looks only at what
    its start and its end received when they were made: a start or an
    end that received neither a coordinate nor an address makes it raise
    the ValueError of that end, with no call appended to the trace and
    every object, the route included, as it was; a start or an end that
    received one is read without any call. *)
Theorem Ruta_procesar_dependency_unresolved st r self :
  Ruta.objects st !! r = Some self →
  Ruta._data_procesada self = false →
  (sin_recibir st (Ruta._inicio self) →
     Ruta.procesar rt net r st = (Raise (DependencyUnresolved "inicio"), st))
  ∧ (recibida st (Ruta._inicio self) → sin_recibir st (Ruta._final self) →
     Ruta.procesar rt net r st = (Raise (DependencyUnresolved "final"), st))
  ∧ (∀ loc msg, recibida st loc →
     ∃ v, Ruta.proc_extremo rt net loc msg st = (Ok v, st)).
Proof.
  intros Hr Hp. repeat split.
  - intros (o & Ho & H1 & H2). unfold Ruta.procesar.
    rewrite (bind_Ok _ _ _ _ _ (Ruta_load_Some _ _ _ Hr)), Hp.
    by rewrite (bind_Raise _ _ _ _ _ (proc_extremo_sin_recibir rt net _ _ _ _ Ho H1 H2)).
  - intros (oi & Hoi & Hfi) (o & Ho & H1 & H2). unfold Ruta.procesar.
    rewrite (bind_Ok _ _ _ _ _ (Ruta_load_Some _ _ _ Hr)), Hp.
    rewrite (bind_Ok _ _ _ _ _ (proc_extremo_recibida rt net _ _ _ _ Hoi Hfi)).
    by rewrite (bind_Raise _ _ _ _ _ (proc_extremo_sin_recibir rt net _ _ _ _ Ho H1 H2)).
  - intros loc msg (o & Ho & Hf). eexists. by apply proc_extremo_recibida.
Qed.

(** C9.  [tiempo_de_viaje_minutos_con_velocidad_constante] leaves the
    state as it is (no call, no object touched) and gives the same answer
    on every route and in every state; it raises the ValueError for the
    speed exactly when [velocidad_km_h <= 0] holds, and for a speed above
    zero it is [(distancia_km / velocidad_km_h) * 60], a float product of
    a float quotient when both are floats. *)
Theorem tiempo_de_viaje_minutos_con_velocidad_constante_spec
    (r : ref) (distancia_km velocidad_km_h : pyval) (st : Ruta.state) :
  let f := Ruta.tiempo_de_viaje_minutos_con_velocidad_constante in
  (f r distancia_km velocidad_km_h st).2 = st
  ∧ (∀ r' st', (f r' distancia_km velocidad_km_h st').1
               = (f r distancia_km velocidad_km_h st).1)
  ∧ ((f r distancia_km velocidad_km_h st).1 = Raise InvalidSpeed
     ↔ py_le velocidad_km_h (PyInt 0) = Ok true)
  ∧ (py_gt velocidad_km_h (PyInt 0) = Ok true →
     (f r distancia_km velocidad_km_h st).1
     = (q ← py_truediv distancia_km velocidad_km_h; py_mul q (PyInt 60)))
  ∧ (∀ d v : float,
       distancia_km = PyFloat d → velocidad_km_h = PyFloat v →
       py_gt velocidad_km_h (PyInt 0) = Ok true →
       (f r distancia_km velocidad_km_h st).1 = Ok (PyFloat (d / v * 60))).
Proof.
  cbv zeta. unfold Ruta.tiempo_de_viaje_minutos_con_velocidad_constante.
  unfold mbind at 1 3 4 5 6 7, M_bind, lift, raise.
  split_and!.
  - by destruct (py_le velocidad_km_h (PyInt 0)) as [[]|].
  - intros r' st'. by destruct (py_le velocidad_km_h (PyInt 0)) as [[]|].
  - destruct (py_le velocidad_km_h (PyInt 0)) as [[]|] eqn:E; simpl; split; try done.
    + intros H. by apply division_times_not_ValueError in H.
    + intros [= ->]. by apply py_compare_not_ValueError in E.
  - intros H. by rewrite (py_gt_not_le _ _ H).
  - intros d v -> -> H. rewrite (py_gt_not_le _ _ H). simpl.
    unfold py_truediv. simpl. by rewrite (float_gt_0_nonzero _ H).
Qed.

(** C7.  On a processed route [distancia_ruta_bing_kilometros] is the
    [travelDistance] of the stored answer and [tiempo_de_viaje_segundos]
    its [travelDurationTraffic]; [distancia_ruta_bing_metros] is the
    former [* 1000] and [tiempo_de_viaje_minutos] the latter [/ 60], in
    Python's arithmetic; none of the four makes a call or touches an
    object. *)
Theorem distancia_y_tiempo_de_ruta_procesada st r self d :
  Ruta.objects st !! r = Some self →
  Ruta._data_procesada self = true →
  Ruta.data self = Some d →
  Ruta.distancia_ruta_bing_kilometros rt net r st
  = (getitem_key d "travelDistance", st)
  ∧ Ruta.tiempo_de_viaje_segundos rt net r st
    = (getitem_key d "travelDurationTraffic", st)
  ∧ (∀ km, getitem_key d "travelDistance" = Ok km →
       Ruta.distancia_ruta_bing_metros rt net r st = (py_mul km (PyInt 1000), st))
  ∧ (∀ s, getitem_key d "travelDurationTraffic" = Ok s →
       Ruta.tiempo_de_viaje_minutos rt net r st = (py_truediv s (PyInt 60), st))
  ∧ (∀ e, getitem_key d "travelDistance" = Raise e →
       Ruta.distancia_ruta_bing_metros rt net r st = (Raise e, st))
  ∧ (∀ e, getitem_key d "travelDurationTraffic" = Raise e →
       Ruta.tiempo_de_viaje_minutos rt net r st = (Raise e, st)).
Proof.
  intros Hr Hp Hd.
  assert (Hdata : Ruta.get_data r st = (Ok d, st)).
  { unfold Ruta.get_data.
    rewrite (bind_Ok _ _ _ _ _ (Ruta_load_Some _ _ _ Hr)). by rewrite Hd. }
  assert (Hkm : Ruta.distancia_ruta_bing_kilometros rt net r st
                = (getitem_key d "travelDistance", st)).
  { unfold Ruta.distancia_ruta_bing_kilometros.
    rewrite (bind_Ok _ _ _ _ _ (Ruta_load_Some _ _ _ Hr)), Hp. simpl.
    erewrite bind_Ok by reflexivity.
    by rewrite (bind_Ok _ _ _ _ _ Hdata). }
  assert (Hs : Ruta.tiempo_de_viaje_segundos rt net r st
               = (getitem_key d "travelDurationTraffic", st)).
  { unfold Ruta.tiempo_de_viaje_segundos.
    rewrite (bind_Ok _ _ _ _ _ (Ruta_load_Some _ _ _ Hr)), Hp. simpl.
    erewrite bind_Ok by reflexivity.
    by rewrite (bind_Ok _ _ _ _ _ Hdata). }
  split_and!; try done.
  - intros km Hk. unfold Ruta.distancia_ruta_bing_metros.
    rewrite Hk in Hkm. by rewrite (bind_Ok _ _ _ _ _ Hkm).
  - intros s Hk. unfold Ruta.tiempo_de_viaje_minutos.
    rewrite Hk in Hs. by rewrite (bind_Ok _ _ _ _ _ Hs).
  - intros e Hk. unfold Ruta.distancia_ruta_bing_metros.
    rewrite Hk in Hkm. by rewrite (bind_Raise _ _ _ _ _ Hkm).
  - intros e Hk. unfold Ruta.tiempo_de_viaje_minutos.
    rewrite Hk in Hs. by rewrite (bind_Raise _ _ _ _ _ Hs).
Qed.

End RouteFacts.

(** ** [Ruta.procesar], case by case *)

Section RouteProcesar.
Context (rt : runtime) (net : network).

(** Reading the start or the end changes nothing. *)
Lemma proc_extremo_state loc msg st :
  (Ruta.proc_extremo rt net loc msg st).2 = st.
Proof.
  destruct (Localizacion.objects (Ruta.mundo st) !! loc) as [o|] eqn:Ho.
  - destruct (Localizacion._latlng_recibido o) eqn:H1;
      [|destruct (Localizacion._direccion_recibida o) eqn:H2].
    + by rewrite (proc_extremo_recibida rt net _ _ _ msg Ho (or_introl H1)).
    + by rewrite (proc_extremo_recibida rt net _ _ _ msg Ho (or_intror H2)).
    + by rewrite (proc_extremo_sin_recibir rt net _ _ _ msg Ho H1 H2).
  - unfold Ruta.proc_extremo, Ruta.with_mundo, Localizacion.load, mbind, M_bind.
    rewrite Ho. by destruct st.
Qed.

Lemma MapService_rest_ruta_eq self :
  MapService._rest_ruta rt net self
  = rest_ruta rt net (url_rutas self) (api_key self).
Proof. by destruct self. Qed.

Lemma Ruta_procesar_unfold st r self :
  Ruta.objects st !! r = Some self →
  Ruta._data_procesada self = false →
  Ruta.procesar rt net r st =
    match Ruta.proc_extremo rt net (Ruta._inicio self)
            "La localización de inicio no ha sido procesada, porfavor ejecutar método procesar()"
            st with
    | (Raise e, _) => (Raise e, st)
    | (Ok proc_inicio, _) =>
      match Ruta.proc_extremo rt net (Ruta._final self)
              "La localización de final no ha sido procesada, porfavor ejecutar método procesar()"
              st with
      | (Raise e, _) => (Raise e, st)
      | (Ok proc_final, _) =>
        match mapM (Localizacion.obtener_latlng rt net) (Ruta._paradas self)
                (Ruta.mundo st) with
        | (Raise _, w1) =>
            (Raise ResolutionFailed,
             {| Ruta.mundo := w1; Ruta.objects := Ruta.objects st |})
        | (Ok via, w1) =>
          match MapService._rest_ruta rt net (Ruta._map_service self)
                  proc_inicio proc_final via (Ruta._kwargs self)
                  (Localizacion.trace w1) with
          | (Raise _, tr) =>
              (Raise ResolutionFailed,
               {| Ruta.mundo := {| Localizacion.trace := tr;
                                   Localizacion.objects := Localizacion.objects w1 |};
                  Ruta.objects := Ruta.objects st |})
          | (Ok d, tr) =>
              (Ok d,
               {| Ruta.mundo := {| Localizacion.trace := tr;
                                   Localizacion.objects := Localizacion.objects w1 |};
                  Ruta.objects := <[r := Ruta.set_data d self]> (Ruta.objects st) |})
          end
        end
      end
    end.
Proof.
  intros Hr Hp. unfold Ruta.procesar.
  rewrite (bind_Ok _ _ _ _ _ (Ruta_load_Some _ _ _ Hr)), Hp.
  pose proof (proc_extremo_state (Ruta._inicio self)
    "La localización de inicio no ha sido procesada, porfavor ejecutar método procesar()"
    st) as Hi.
  destruct (Ruta.proc_extremo rt net (Ruta._inicio self) _ st) as [[p_i|e] sti] eqn:Ei;
    simpl in Hi; subst sti.
  2:{ by rewrite (bind_Raise _ _ _ _ _ Ei). }
  rewrite (bind_Ok _ _ _ _ _ Ei).
  pose proof (proc_extremo_state (Ruta._final self)
    "La localización de final no ha sido procesada, porfavor ejecutar método procesar()"
    st) as Hf.
  destruct (Ruta.proc_extremo rt net (Ruta._final self) _ st) as [[p_f|e] stf] eqn:Ef;
    simpl in Hf; subst stf.
  2:{ by rewrite (bind_Raise _ _ _ _ _ Ef). }
  rewrite (bind_Ok _ _ _ _ _ Ef).
  unfold try_except, Ruta.with_mundo, Localizacion.with_trace, Ruta.modify,
    Ruta.get_data, Ruta.load, raise, mbind, M_bind, mret, M_ret.
  destruct (mapM (Localizacion.obtener_latlng rt net) (Ruta._paradas self) (Ruta.mundo st))
    as [[via|e] w1]; simpl; [|done].
  destruct (MapService._rest_ruta rt net _ _ _ _ _ _) as [[d|e] tr]; simpl; [|done].
  rewrite Hr. simpl. by rewrite lookup_insert_eq.
Qed.

Lemma Ruta_procesar_dangling st r :
  Ruta.objects st !! r = None →
  Ruta.procesar rt net r st = (Raise Dangling, st).
Proof.
  intros Hr. unfold Ruta.procesar, Ruta.load, mbind, M_bind. by rewrite Hr.
Qed.

Lemma Ruta_procesar_procesada st r self :
  Ruta.objects st !! r = Some self →
  Ruta._data_procesada self = true →
  Ruta.procesar rt net r st = (Raise AlreadyResolved, st).
Proof.
  intros Hr Hp. unfold Ruta.procesar.
  by rewrite (bind_Ok _ _ _ _ _ (Ruta_load_Some _ _ _ Hr)), Hp.
Qed.

(** A [procesar] that returns left its route processed. *)
Lemma Ruta_procesar_Ok st r d st' :
  Ruta.procesar rt net r st = (Ok d, st') →
  ∃ self, Ruta.objects st !! r = Some self
          ∧ Ruta.objects st' = <[r := Ruta.set_data d self]> (Ruta.objects st).
Proof.
  intros H. destruct (Ruta.objects st !! r) as [self|] eqn:Hr.
  2:{ by rewrite (Ruta_procesar_dangling _ _ Hr) in H. }
  destruct (Ruta._data_procesada self) eqn:Hp.
  { by rewrite (Ruta_procesar_procesada _ _ _ Hr Hp) in H. }
  rewrite (Ruta_procesar_unfold _ _ _ Hr Hp) in H.
  exists self. split; [done|].
  repeat case_match; try done. by injection H as <- <-.
Qed.

(** A [procesar] that raises left every route as it was. *)
Lemma Ruta_procesar_Raise st r e st' :
  Ruta.procesar rt net r st = (Raise e, st') →
  Ruta.objects st' = Ruta.objects st.
Proof.
  intros H. destruct (Ruta.objects st !! r) as [self|] eqn:Hr.
  2:{ rewrite (Ruta_procesar_dangling _ _ Hr) in H. by injection H as <- <-. }
  destruct (Ruta._data_procesada self) eqn:Hp.
  { rewrite (Ruta_procesar_procesada _ _ _ Hr Hp) in H. by injection H as <- <-. }
  rewrite (Ruta_procesar_unfold _ _ _ Hr Hp) in H.
  repeat case_match; try done; by injection H as <- <-.
Qed.

End RouteProcesar.

(** ** Resolution happens once, and what a route does to its stops *)

Lemma dict_get_set (d : dict) k v k' :
  dict_get (dict_set d k v) k' = if decide (k = k') then Some v else dict_get d k'.
Proof.
  induction d as [|[k0 v0] d IH]; simpl.
  - by destruct (decide (k = k')).
  - destruct (decide (k0 = k)) as [->|Hne]; simpl.
    + by destruct (decide (k = k')).
    + destruct (decide (k0 = k')) as [->|Hne'].
      * by rewrite decide_False by done.
      * done.
Qed.

Lemma dict_get_update_other (d e : dict) k :
  k ∉ dict_keys e → dict_get (dict_update d e) k = dict_get d k.
Proof.
  unfold dict_update. revert d.
  induction e as [|[k0 v0] e IH]; intros d Hk; [done|]. simpl in *.
  apply not_elem_of_cons in Hk as [Hne Hk].
  rewrite IH by done. rewrite dict_get_set. by rewrite decide_False.
Qed.

Lemma dict_get_update (d e : dict) k v :
  NoDup (dict_keys e) → dict_get e k = Some v →
  dict_get (dict_update d e) k = Some v.
Proof.
  unfold dict_update. revert d.
  induction e as [|[k0 v0] e IH]; intros d Hnd Hk; [done|]. simpl in *.
  apply NoDup_cons in Hnd as [Hk0 Hnd].
  destruct (decide (k0 = k)) as [->|Hne].
  - injection Hk as ->.
    pose proof (dict_get_update_other (dict_set d k v) e k Hk0) as Ho.
    unfold dict_update in Ho. rewrite Ho, dict_get_set. by rewrite decide_True.
  - by apply IH.
Qed.

Lemma mapM_Ok_inv (f : pyval → result pyval) l ts :
  mapM f l = Ok ts → Forall2 (λ v t, f v = Ok t) l ts.
Proof.
  revert ts. induction l as [|v l IH]; intros ts H; simpl in H.
  { injection H as <-. constructor. }
  destruct (f v) as [t|] eqn:Hv; [|done]. simpl in H.
  destruct (mapM f l) as [ts'|]; [|done]. simpl in H.
  injection H as <-. constructor; [done|]. by apply IH.
Qed.

Section Resolve.
Context (rt : runtime) (net : network).

Lemma paradas_de_inv inicio final via paradas :
  paradas_de rt inicio final via = Ok paradas →
  ∃ t_inicio t_via t_final,
    paradas = t_inicio :: t_via ++ [t_final]
    ∧ _posicion_a_string_url rt inicio = Ok t_inicio
    ∧ Forall2 (λ v t, _posicion_a_string_url rt v = Ok t) via t_via
    ∧ _posicion_a_string_url rt final = Ok t_final.
Proof.
  unfold paradas_de. intros H.
  destruct (_posicion_a_string_url rt inicio) as [ti|]; [|done]. simpl in H.
  case_bool_decide as Hlen.
  - destruct (mapM _ via) as [tv|] eqn:Hv; [|done]. simpl in H.
    destruct (_posicion_a_string_url rt final) as [tf|]; [|done]. simpl in H.
    injection H as <-. exists ti, tv, tf. split_and!; try done.
    by apply mapM_Ok_inv.
  - simpl in H.
    destruct (_posicion_a_string_url rt final) as [tf|]; [|done]. simpl in H.
    injection H as <-. exists ti, [], tf. split_and!; try done.
    destruct via; [constructor|simpl in Hlen; lia].
Qed.

(** What a [_rest_ruta] that returns has fetched. *)
Lemma rest_ruta_Ok url key inicio final via kwargs tr d tr' :
  rest_ruta rt net url key inicio final via kwargs tr = (Ok d, tr') →
  ∃ paradas,
    paradas_de rt inicio final via = Ok paradas
    ∧ tr' = tr ++ [Fetch ((url +:+ "?") +:+ urlencode rt
                     (dict_update (dict_update kwargs (viajes_de paradas))
                        [("key", key)]))].
Proof.
  unfold rest_ruta, lift, _json_from_url, mbind, M_bind. intros H.
  destruct (keyword_arguments _ kwargs); [|done].
  destruct (paradas_de rt inicio final via) as [paradas|]; [|done].
  exists paradas. split; [done|].
  destruct (fetch_json net tr _); [|done].
  by injection H as _ <-.
Qed.

(** C1, as amended.  [procesar] on a location or on a route that has
    returned once raises the ValueError of a processed object ever
    after, as long as the object is as that call left it, and changes
    nothing then; a [procesar] that raised left the object as it was
    before the call, not yet processed if it was not, so that a later
    call tries again. *)
Theorem procesar_una_vez :
  (∀ l w d w',
     Localizacion.procesar rt net l w = (Ok d, w') →
     ∀ w'', Localizacion.objects w'' !! l = Localizacion.objects w' !! l →
            Localizacion.procesar rt net l w'' = (Raise AlreadyResolved, w''))
  ∧ (∀ l w e w',
       Localizacion.procesar rt net l w = (Raise e, w') →
       Localizacion.objects w' = Localizacion.objects w)
  ∧ (∀ r st d st',
       Ruta.procesar rt net r st = (Ok d, st') →
       ∀ st'', Ruta.objects st'' !! r = Ruta.objects st' !! r →
               Ruta.procesar rt net r st'' = (Raise AlreadyResolved, st''))
  ∧ (∀ r st e st',
       Ruta.procesar rt net r st = (Raise e, st') →
       Ruta.objects st' = Ruta.objects st).
Proof.
  split_and!.
  - intros l w d w' H w'' Hsame.
    destruct (Localizacion_procesar_Ok _ _ _ _ _ _ H) as (o & _ & _ & Hobj).
    rewrite Hobj, lookup_insert_eq in Hsame.
    by apply (Localizacion_procesar_procesada _ _ _ _ _ Hsame).
  - intros l w e w'. apply Localizacion_procesar_Raise.
  - intros r st d st' H st'' Hsame.
    destruct (Ruta_procesar_Ok _ _ _ _ _ _ H) as (self & _ & Hobj).
    rewrite Hobj, lookup_insert_eq in Hsame.
    by apply (Ruta_procesar_procesada _ _ _ _ _ Hsame).
  - intros r st e st'. apply Ruta_procesar_Raise.
Qed.

(** C10, as amended.  [Ruta.procesar] on a route not yet processed,
    whose start and end received a coordinate or an address, calls
    [obtener_latlng] on every intermediate stop, in their order: the
    locations are left as these calls leave them, whether [procesar]
    then returns or raises.  When one of these calls raises, [procesar]
    raises the ValueError of the REST call and asks nothing for the
    route.  When all return, every stop holds a coordinate (the one it
    received, or the one of a [procesar] run on it now or before), and
    [procesar] is [_rest_ruta] on what the start and the end received
    and on these coordinates, its exception replaced by the ValueError
    of the REST call: the stops stay processed when the route call
    fails.  The request fetched by a [procesar] that returned carries
    under [viaWayPoint.k] the encoding of the coordinate held by stop
    [k-2].  Either way no location outside the list of stops is
    touched, and no location whose coordinate was at hand. *)
Theorem Ruta_procesar_paradas st r self res st' :
  Ruta.objects st !! r = Some self →
  Ruta._data_procesada self = false →
  recibida st (Ruta._inicio self) →
  recibida st (Ruta._final self) →
  Ruta.procesar rt net r st = (res, st') →
  let locs := λ s, Localizacion.objects (Ruta.mundo s) in
  let asked :=
    mapM (Localizacion.obtener_latlng rt net) (Ruta._paradas self) (Ruta.mundo st) in
  locs st' = Localizacion.objects asked.2
  ∧ (∀ l, l ∉ Ruta._paradas self → locs st' !! l = locs st !! l)
  ∧ (∀ l o c, locs st !! l = Some o → coordenada o = Some c →
       locs st' !! l = Some o)
  ∧ (∀ e, res = Raise e → e = ResolutionFailed)
  ∧ (∀ e, asked.1 = Raise e →
       res = Raise ResolutionFailed
       ∧ Localizacion.trace (Ruta.mundo st') = Localizacion.trace asked.2)
  ∧ (∀ coords, asked.1 = Ok coords →
       Forall2 (λ l c, ∃ o, locs st' !! l = Some o ∧ coordenada o = Some c)
         (Ruta._paradas self) coords
       ∧ ∃ oi ofin,
           locs st !! Ruta._inicio self = Some oi
           ∧ locs st !! Ruta._final self = Some ofin
           ∧ (res, Localizacion.trace (Ruta.mundo st'))
             = match MapService._rest_ruta rt net (Ruta._map_service self)
                       (extremo oi) (extremo ofin) coords (Ruta._kwargs self)
                       (Localizacion.trace asked.2) with
               | (Ok d, tr) => (Ok d, tr)
               | (Raise _, tr) => (Raise ResolutionFailed, tr)
               end)
  ∧ (∀ d, res = Ok d →
       ∃ coords t_inicio t_via t_final,
         Forall2 (λ l c, ∃ o, locs st' !! l = Some o ∧ coordenada o = Some c)
           (Ruta._paradas self) coords
         ∧ Forall2 (λ c t, _posicion_a_string_url rt c = Ok t) coords t_via
         ∧ let kwargs :=
             dict_update
               (dict_update (Ruta._kwargs self)
                  (viajes_de (t_inicio :: t_via ++ [t_final])))
               [("key", api_key (Ruta._map_service self))] in
           last (Localizacion.trace (Ruta.mundo st'))
           = Some (Fetch ((url_rutas (Ruta._map_service self) +:+ "?")
                          +:+ urlencode rt kwargs))
           ∧ ∀ k t, t_via !! k = Some t →
               dict_get kwargs ("viaWayPoint." +:+ pretty (k + 2)) = Some t).
Proof.
  intros Hr Hp (oi & Hoi & Hfi) (ofin & Hof & Hff) H. cbv zeta.
  rewrite (Ruta_procesar_unfold _ _ _ _ _ Hr Hp) in H.
  rewrite (proc_extremo_recibida rt net _ _ _ _ Hoi Hfi) in H.
  rewrite (proc_extremo_recibida rt net _ _ _ _ Hof Hff) in H.
  destruct (mapM (Localizacion.obtener_latlng rt net) (Ruta._paradas self) (Ruta.mundo st))
    as [[coords|e] w1] eqn:Hvias;
    destruct (mapM_obtener_latlng_effect _ _ _ _ _ _ Hvias) as (Ha & Hb & Hc).
  2:{ injection H as <- <-. simpl.
      split; [done|]. split; [done|]. split; [done|].
      split; [by intros e' [= <-]|]. split; [done|]. split; done. }
  destruct (MapService._rest_ruta rt net _ _ _ _ _ _) as [[d|e] tr] eqn:Hrest.
  2:{ injection H as <- <-. simpl.
      split; [done|]. split; [done|]. split; [done|].
      split; [by intros e' [= <-]|]. split; [done|]. split; [|done].
      intros coords' [= <-]. split; [by apply Hc|].
      exists oi, ofin. by rewrite Hrest. }
  injection H as <- <-. simpl.
  split; [done|]. split; [done|]. split; [done|].
  split; [done|]. split; [done|]. split.
  { intros coords' [= <-]. split; [by apply Hc|].
    exists oi, ofin. by rewrite Hrest. }
  intros d' [= <-].
  rewrite MapService_rest_ruta_eq in Hrest.
  destruct (rest_ruta_Ok _ _ _ _ _ _ _ _ _ Hrest) as (paradas & Hpar & ->).
  destruct (paradas_de_inv _ _ _ _ Hpar) as (ti & tv & tf & -> & Hti & Htv & Htf).
  exists coords, ti, tv, tf. cbv zeta. split_and!.
  - by apply Hc.
  - done.
  - by rewrite last_snoc.
  - intros k t Hk.
    rewrite dict_get_set, decide_False.
    2:{ cbv beta iota delta [String.append]. discriminate. }
    apply dict_get_update; [apply viajes_de_NoDup|].
    by apply viajes_de_via.
Qed.

End Resolve.

(** ** What the map services ask for *)

Section ServiceFacts.
Context (rt : runtime) (net : network).

Lemma rest_localizacion_bing_str url key s tr :
  rest_localizacion_bing rt net url key (PyStr s) [] tr
  = (fetch_json net tr (locations_url rt url key (PyStr s)) ≫= first_resource,
     tr ++ [Fetch (locations_url rt url key (PyStr s))]).
Proof.
  unfold rest_localizacion_bing, _json_from_url, lift, mbind at 1, M_bind. simpl.
  by destruct (fetch_json net tr _).
Qed.

Lemma rest_localizacion_bing_tuple url key l tr :
  rest_localizacion_bing rt net url key (PyTuple l) [] tr
  = (fetch_json net tr (locations_url rt url key (PyTuple l)) ≫= first_resource,
     tr ++ [Fetch (locations_url rt url key (PyTuple l))]).
Proof.
  unfold rest_localizacion_bing, _json_from_url, lift, mbind at 1, M_bind. simpl.
  by destruct (fetch_json net tr _).
Qed.

Lemma rest_localizacion_bing_list url key l tr :
  rest_localizacion_bing rt net url key (PyList l) [] tr
  = (fetch_json net tr (locations_url rt url key (PyList l)) ≫= first_resource,
     tr ++ [Fetch (locations_url rt url key (PyList l))]).
Proof.
  unfold rest_localizacion_bing, _json_from_url, lift, mbind at 1, M_bind. simpl.
  by destruct (fetch_json net tr _).
Qed.

(** When the geocoder finds the place, [OpenService._rest_localizacion]
    returns what [json.loads] makes of the text [proc], and fetches
    nothing. *)
Lemma OpenService_rest_localizacion_found self s res tr :
  nominatim_geocode net tr (OpenService.geolocator self) s = Ok (Some res) →
  OpenService._rest_localizacion rt net self (PyStr s) [] tr
  = (json_loads rt (OpenService.proc rt res),
     tr ++ [Geocode (OpenService.geolocator self) s]).
Proof.
  intros H. unfold OpenService._rest_localizacion, OpenService.geolocator_geocode,
    lift, mbind, M_bind. simpl. by rewrite H.
Qed.

Lemma OpenService_rest_localizacion_found_reverse self l res tr :
  nominatim_reverse net tr (OpenService.geolocator self) (PyTuple l) = Ok (Some res) →
  OpenService._rest_localizacion rt net self (PyTuple l) [] tr
  = (json_loads rt (OpenService.proc rt res),
     tr ++ [Reverse (OpenService.geolocator self) (PyTuple l)]).
Proof.
  intros H. unfold OpenService._rest_localizacion, OpenService.geolocator_reverse,
    lift, mbind, M_bind. simpl. by rewrite H.
Qed.

End ServiceFacts.

(** ** Where the module departs from what is said of it *)

(** C2.  The request that [_rest_localizacion] sends to the [Locations]
    service, in [BingService] and in [OpenService] when the geocoder
    found nothing: an address is quoted into the path and no [query]
    parameter is sent; a coordinate is sent as the [query] parameter and
    the path is left bare -- the other way round from the two example
    calls in the comments of the code.  The answer is unwrapped as
    [resourceSets[0].resources[0]]. *)
Theorem rest_localizacion_request :
  (∀ rt net self (ubicacion : pyval) tr,
     is_str ubicacion = true ∨ is_tuple_or_list ubicacion = true →
     let url := locations_url rt (BingService._url_localizacion self)
                  (BingService._api_key self) ubicacion in
     BingService._rest_localizacion rt net self ubicacion [] tr
     = (fetch_json net tr url ≫= first_resource, tr ++ [Fetch url]))
  ∧ (∀ rt net self s tr,
       nominatim_geocode net tr (OpenService.geolocator self) s = Ok None →
       let tr1 := tr ++ [Geocode (OpenService.geolocator self) s] in
       let url := locations_url rt (OpenService._url_localizacion self)
                    (OpenService._api_key self) (PyStr s) in
       OpenService._rest_localizacion rt net self (PyStr s) [] tr
       = (fetch_json net tr1 url ≫= first_resource, tr1 ++ [Fetch url]))
  ∧ (BingService._rest_localizacion python (not_found PyNone) bing_service
       (PyStr "Bogotá, Colombia") [] []).2
    = [Fetch "http://dev.virtualearth.net/REST/v1/Locations/Bogot%C3%A1%2C%20Colombia?key=KEY"]
  ∧ (BingService._rest_localizacion python (not_found PyNone) bing_service
       (PyTuple [PyFloat 4.6; PyFloat (-74.1)]) [] []).2
    = [Fetch "http://dev.virtualearth.net/REST/v1/Locations?key=KEY&query=%284.6%2C+-74.1%29"]
  ∧ OpenService._rest_localizacion python
      (not_found (locations_answer 10 10 "Bogotá")) open_service
      (PyStr "Bogotá, Colombia") [] []
    = (Ok (PyDict [
         ("point", PyDict [("coordinates", PyList [PyFloat 10; PyFloat 10])]);
         ("address", PyDict [("formattedAddress", PyStr "Bogotá")])]),
       [Geocode "agent" "Bogotá, Colombia";
        Fetch "http://dev.virtualearth.net/REST/v1/Locations/Bogot%C3%A1%2C%20Colombia?key=KEY"]).
Proof.
  split_and!.
  - intros rt net self ubicacion tr Hu. cbv zeta.
    unfold BingService._rest_localizacion.
    erewrite bind_Ok by reflexivity.
    destruct Hu as [Hs|Hs]; destruct ubicacion; try done.
    + apply rest_localizacion_bing_str.
    + apply rest_localizacion_bing_tuple.
    + apply rest_localizacion_bing_list.
  - intros rt net self s tr H. cbv zeta.
    unfold OpenService._rest_localizacion.
    erewrite bind_Ok by reflexivity.
    erewrite bind_Ok.
    2:{ simpl. unfold OpenService.geolocator_geocode. by rewrite H. }
    apply rest_localizacion_bing_str.
  - vm_compute. reflexivity.
  - vm_compute. reflexivity.
  - vm_compute. reflexivity.
Qed.

(** C3.  A [Localizacion] made with both a coordinate and an address
    keeps neither: its two accessors make no call and change nothing,
    and each returns [None], not the value that was given. *)
Theorem both_received_returns_None rt net map_service
    (latlng : list pyval) (direccion : string) kwargs w :
  let l := fresh (dom (Localizacion.objects w)) in
  ∃ w1,
    Localizacion.new map_service (PyTuple latlng) (PyStr direccion) kwargs w = (Ok l, w1)
    ∧ Localizacion.trace w1 = Localizacion.trace w
    ∧ Localizacion.obtener_latlng rt net l w1 = (Ok PyNone, w1)
    ∧ Localizacion.obtener_direccion rt net l w1 = (Ok PyNone, w1).
Proof.
  cbv zeta. eexists. split; [reflexivity|]. split; [reflexivity|].
  split.
  - eapply eq_trans;
      [eapply obtener_latlng_recibido; [simpl; apply lookup_insert_eq | reflexivity]
      |reflexivity].
  - eapply eq_trans;
      [eapply obtener_direccion_recibida; [simpl; apply lookup_insert_eq | reflexivity]
      |reflexivity].
Qed.

(** C4.  When the geocoder finds the place, [OpenService] fetches
    nothing from the other service and returns what [json.loads] reads
    in a text into which the address is pasted as it is: for Bogotá
    this is the coordinate and the address found; for an address with a
    quotation mark in it the text is not JSON and the call raises. *)
Theorem rest_localizacion_found :
  (∀ rt net self s res tr,
     nominatim_geocode net tr (OpenService.geolocator self) s = Ok (Some res) →
     OpenService._rest_localizacion rt net self (PyStr s) [] tr
     = (json_loads rt (OpenService.proc rt res),
        tr ++ [Geocode (OpenService.geolocator self) s]))
  ∧ OpenService._rest_localizacion python
      (found 4.60971 (-74.08175) "Bogotá, Colombia") open_service
      (PyStr "Bogotá, Colombia") [] []
    = (Ok (PyDict [
         ("point", PyDict [("coordinates",
                            PyList [PyFloat 4.60971; PyFloat (-74.08175)])]);
         ("address", PyDict [("formattedAddress", PyStr "Bogotá, Colombia")])]),
       [Geocode "agent" "Bogotá, Colombia"])
  ∧ OpenService.proc python
      {| latitude := 1; longitude := 2; address := quoted_address |}
    = "{" +:+ chars [quote_char] +:+ "point" +:+ chars [quote_char] +:+ ": {"
      +:+ chars [quote_char] +:+ "coordinates" +:+ chars [quote_char]
      +:+ ": [1.0, 2.0]}, " +:+ chars [quote_char] +:+ "address"
      +:+ chars [quote_char] +:+ ": {" +:+ chars [quote_char]
      +:+ "formattedAddress" +:+ chars [quote_char] +:+ ": "
      +:+ chars [quote_char] +:+ quoted_address +:+ chars [quote_char] +:+ "} }"
  ∧ OpenService._rest_localizacion python (found 1 2 quoted_address) open_service
      (PyStr "El Sol") [] []
    = (Raise JSONDecodeError, [Geocode "agent" "El Sol"])
  ∧ value (Localizacion.obtener_latlng python (found 1 2 quoted_address) 0)
      (run (Localizacion.new open PyNone (PyStr "El Sol") []) empty_world)
    = Raise ResolutionFailed.
Proof.
  split_and!.
  - intros. by apply OpenService_rest_localizacion_found.
  - vm_compute. reflexivity.
  - vm_compute. reflexivity.
  - vm_compute. reflexivity.
  - vm_compute. reflexivity.
Qed.

(** ** More on the accessors and on the route service *)

Section MoreFacts.
Context (rt : runtime) (net : network).

(** X1.  [obtener_latlng] asks at most once: after a call that
    returned, the next call on the same location returns the same value,
    makes no call and changes nothing. *)
Theorem obtener_latlng_memo w l c w' :
  Localizacion.obtener_latlng rt net l w = (Ok c, w') →
  Localizacion.obtener_latlng rt net l w' = (Ok c, w').
Proof.
  intros H.
  destruct (obtener_latlng_effect rt net _ _ _ _ H) as (_ & _ & Hc).
  destruct (Hc c eq_refl) as (o' & Ho' & Hco).
  rewrite (obtener_latlng_unfold rt net _ _ _ Ho').
  unfold coordenada in Hco.
  destruct (Localizacion._latlng_recibido o'); [congruence|].
  destruct (Localizacion._data_procesada o'); [|done].
  destruct (Localizacion.data o') as [d|]; [|done].
  fold (coordinates_of d) in Hco.
  destruct (coordinates_of d); congruence.
Qed.

(** X2.  A location made from a coordinate alone gives that coordinate
    back, and one made from an address alone gives that address back,
    without any call and without any change. *)
Theorem received_value_returned map_service (lat lng : pyval) (direccion : string)
    kwargs w :
  let l := fresh (dom (Localizacion.objects w)) in
  (∃ w1,
     Localizacion.new map_service (PyTuple [lat; lng]) PyNone kwargs w = (Ok l, w1)
     ∧ Localizacion.obtener_latlng rt net l w1 = (Ok (PyTuple [lat; lng]), w1))
  ∧ (∃ w1,
       Localizacion.new map_service PyNone (PyStr direccion) kwargs w = (Ok l, w1)
       ∧ Localizacion.obtener_direccion rt net l w1 = (Ok (PyStr direccion), w1)).
Proof.
  cbv zeta. split; eexists; (split; [reflexivity|]).
  - eapply eq_trans;
      [eapply obtener_latlng_recibido; [simpl; apply lookup_insert_eq | reflexivity]
      |reflexivity].
  - eapply eq_trans;
      [eapply obtener_direccion_recibida; [simpl; apply lookup_insert_eq | reflexivity]
      |reflexivity].
Qed.

(** X3.  [_rest_ruta] of either service never asks the geocoder: it
    leaves the trace as it was, or adds one fetch from the [Routes]
    service. *)
Theorem rest_ruta_fetches_once self inicio final via kwargs tr :
  let tr' := (MapService._rest_ruta rt net self inicio final via kwargs tr).2 in
  tr' = tr
  ∨ ∃ query, tr' = tr ++ [Fetch ((url_rutas self +:+ "?") +:+ query)].
Proof.
  cbv zeta. rewrite MapService_rest_ruta_eq.
  unfold rest_ruta, lift, _json_from_url, mbind, M_bind.
  destruct (keyword_arguments _ kwargs); [|by left].
  destruct (paradas_de rt inicio final via) as [paradas|]; [|by left].
  right. eexists. by destruct (fetch_json net tr _).
Qed.

End MoreFacts.

(** ** The facts at work on the scenarios *)

Lemma run_value {S A} (m : M S A) (s : S) : m s = (value m s, run m s).
Proof. unfold value, run. by destruct (m s). Qed.

(** C1 fails as stated: a location whose first [procesar] raised (the
    service was down) is as it was, and its second [procesar] returns
    the answer of the service instead of raising the ValueError of a
    processed location. *)
Lemma procesar_again_after_failure :
  value (Localizacion.procesar python flaky 0) bogota_world = Raise ResolutionFailed
  ∧ Localizacion.objects (run (Localizacion.procesar python flaky 0) bogota_world)
    = Localizacion.objects bogota_world
  ∧ value (Localizacion.procesar python flaky 0)
      (run (Localizacion.procesar python flaky 0) bogota_world)
    = Ok (PyDict [
        ("point", PyDict [("coordinates",
                           PyList [PyFloat 4.60971; PyFloat (-74.08175)])]);
        ("address", PyDict [("formattedAddress", PyStr "Bogotá, Colombia")])]).
Proof. vm_compute. split_and!; reflexivity. Qed.

(** C1, as amended, on the location of Bogotá: after a [procesar] that
    returned, the next one raises and changes nothing. *)
Lemma procesar_una_vez_witness :
  Localizacion.procesar python steady 0
    (run (Localizacion.procesar python steady 0) bogota_world)
  = (Raise AlreadyResolved, run (Localizacion.procesar python steady 0) bogota_world).
Proof.
  refine (proj1 (procesar_una_vez python steady) 0 bogota_world
            (PyDict [
               ("point", PyDict [("coordinates",
                                  PyList [PyFloat 4.60971; PyFloat (-74.08175)])]);
               ("address", PyDict [("formattedAddress", PyStr "Bogotá, Colombia")])])
            _ _ _ eq_refl).
  vm_compute. reflexivity.
Defined.

(** C10 fails as stated: in the round trip the start is also a stop, and
    [Ruta.procesar] leaves it processed. *)
Lemma route_processes_its_start :
  Ruta._inicio <$> Ruta.objects round_trip !! 0 = Some 0
  ∧ Ruta._paradas <$> Ruta.objects round_trip !! 0 = Some [0]
  ∧ Localizacion._data_procesada
      <$> Localizacion.objects (Ruta.mundo round_trip) !! 0 = Some false
  ∧ Localizacion._data_procesada
      <$> Localizacion.objects
            (Ruta.mundo (run (Ruta.procesar python round_trip_network 0) round_trip)) !! 0
    = Some true.
Proof. vm_compute. split_and!; reflexivity. Qed.

(** C10, as amended, on the round trip when the route service is down:
    [procesar] raises, the stop is left holding the coordinate that was
    found for it, and the end, which is not a stop, is as it was. *)
Lemma Ruta_procesar_paradas_witness :
  value (Ruta.procesar python routes_down 0) round_trip = Raise ResolutionFailed
  ∧ (∃ o, Localizacion.objects
            (Ruta.mundo (run (Ruta.procesar python routes_down 0) round_trip)) !! 0
          = Some o
          ∧ coordenada o = Some (PyTuple [PyFloat 4.60971; PyFloat (-74.08175)]))
  ∧ Localizacion.objects
      (Ruta.mundo (run (Ruta.procesar python routes_down 0) round_trip)) !! 1
    = Localizacion.objects (Ruta.mundo round_trip) !! 1.
Proof.
  assert (Hr : Ruta.objects round_trip !! 0 = Some (Ruta.__init__ bing 0 1 [0] []))
    by (vm_compute; reflexivity).
  assert (Hi : recibida round_trip 0).
  { eexists. split; [vm_compute; reflexivity|]. right. reflexivity. }
  assert (Hf : recibida round_trip 1).
  { eexists. split; [vm_compute; reflexivity|]. left. reflexivity. }
  destruct (Ruta_procesar_paradas python routes_down round_trip 0 _ _ _
              Hr eq_refl Hi Hf (run_value _ _))
    as (_ & Hframe & _ & _ & _ & Hcoords & _).
  split_and!.
  - vm_compute. reflexivity.
  - destruct (Hcoords [PyTuple [PyFloat 4.60971; PyFloat (-74.08175)]]) as (Hheld & _).
    { vm_compute. reflexivity. }
    by apply Forall2_cons_1 in Hheld as [Ho _].
  - apply Hframe. simpl. intros H. apply list_elem_of_singleton in H. discriminate.
Defined.

(** C8 on a route whose start received nothing. *)
Lemma Ruta_procesar_dependency_unresolved_witness :
  Ruta.procesar python route_network 0 bare_start
  = (Raise (DependencyUnresolved "inicio"), bare_start).
Proof.
  assert (Hr : Ruta.objects bare_start !! 0 = Some (Ruta.__init__ bing 0 1 [] []))
    by (vm_compute; reflexivity).
  apply (proj1 (Ruta_procesar_dependency_unresolved python route_network
                  bare_start 0 _ Hr eq_refl)).
  exists bare_location. split_and!; vm_compute; reflexivity.
Defined.

(** C7 on the route processed with a distance of 15.2 km and a time of
    1200 s. *)
Lemma distancia_y_tiempo_de_ruta_procesada_witness :
  Ruta.distancia_ruta_bing_metros python route_network 0 processed_route
  = (Ok (PyFloat 15200), processed_route)
  ∧ Ruta.tiempo_de_viaje_minutos python route_network 0 processed_route
    = (Ok (PyFloat 20), processed_route).
Proof.
  destruct (distancia_y_tiempo_de_ruta_procesada python route_network processed_route 0
              (Ruta.set_data
                 (PyDict [("travelDistance", PyFloat 15.2);
                          ("travelDurationTraffic", PyInt 1200)])
                 (Ruta.__init__ bing 0 1 [] []))
              (PyDict [("travelDistance", PyFloat 15.2);
                       ("travelDurationTraffic", PyInt 1200)]))
    as (_ & _ & Hm & Hmin & _).
  - vm_compute. reflexivity.
  - reflexivity.
  - reflexivity.
  - split.
    + apply (Hm (PyFloat 15.2)). reflexivity.
    + apply (Hmin (PyInt 1200)). reflexivity.
Defined.




(** C9 on 30 km at 60 km/h, and at no speed. *)
Lemma tiempo_de_viaje_minutos_con_velocidad_constante_witness :
  value (Ruta.tiempo_de_viaje_minutos_con_velocidad_constante 0 (PyInt 30) (PyInt 60))
    direct_route
  = Ok (PyFloat 30)
  ∧ value (Ruta.tiempo_de_viaje_minutos_con_velocidad_constante 0 (PyInt 30) (PyInt 0))
      direct_route
    = Raise InvalidSpeed.
Proof.
  split.
  - apply (proj1 (proj2 (proj2 (proj2
      (tiempo_de_viaje_minutos_con_velocidad_constante_spec 0 (PyInt 30) (PyInt 60)
         direct_route))))).
    reflexivity.
  - apply (proj2 (proj1 (proj2 (proj2
      (tiempo_de_viaje_minutos_con_velocidad_constante_spec 0 (PyInt 30) (PyInt 0)
         direct_route))))).
    reflexivity.
Defined.

(** X1 on the location of Bogotá. *)
Lemma obtener_latlng_memo_witness :
  Localizacion.obtener_latlng python steady 0
    (run (Localizacion.obtener_latlng python steady 0) bogota_world)
  = (Ok (PyTuple [PyFloat 4.60971; PyFloat (-74.08175)]),
     run (Localizacion.obtener_latlng python steady 0) bogota_world).
Proof.
  apply (obtener_latlng_memo python steady bogota_world).
  vm_compute. reflexivity.
Defined.

(** The scenarios of the specification. *)
Example bogota_from_the_geocoder :
  Localizacion.obtener_latlng python
    (found 4.60971 (-74.08175) "Bogotá, Colombia") 0
    (run (Localizacion.new open PyNone (PyStr "Bogotá, Colombia") []) empty_world)
  = (Ok (PyTuple [PyFloat 4.60971; PyFloat (-74.08175)]),
     run (Localizacion.procesar python
            (found 4.60971 (-74.08175) "Bogotá, Colombia") 0)
       (run (Localizacion.new open PyNone (PyStr "Bogotá, Colombia") []) empty_world))
  ∧ Localizacion.trace
      (run (Localizacion.procesar python
              (found 4.60971 (-74.08175) "Bogotá, Colombia") 0)
         (run (Localizacion.new open PyNone (PyStr "Bogotá, Colombia") []) empty_world))
    = [Geocode "agent" "Bogotá, Colombia"].
Proof. vm_compute. split; reflexivity. Qed.

Example direct_route_procesar :
  value (Ruta.procesar python route_network 0) direct_route
  = Ok (PyDict [("travelDistance", PyFloat 15.2); ("travelDurationTraffic", PyInt 1200)])
  ∧ Localizacion.trace (Ruta.mundo processed_route)
    = [Fetch "http://dev.virtualearth.net/REST/v1/Routes/Driving?wayPoint.1=4.6%2C-74.1&wayPoint.2=4.7%2C-74.0&key=KEY"].
Proof. vm_compute. split; reflexivity. Qed.

Example round_trip_requests :
  Localizacion.trace
    (Ruta.mundo (run (Ruta.procesar python round_trip_network 0) round_trip))
  = [Fetch "http://dev.virtualearth.net/REST/v1/Locations/Bogot%C3%A1%2C%20Colombia?key=KEY";
     Fetch "http://dev.virtualearth.net/REST/v1/Routes/Driving?wayPoint.1=Bogot%C3%A1%2C+Colombia&viaWayPoint.2=4.60971%2C-74.08175&wayPoint.3=4.7%2C-74.0&key=KEY"].
Proof. vm_compute. reflexivity. Qed.

Example py_mul_travelDistance : py_mul (PyFloat 15.2) (PyInt 1000) = Ok (PyFloat 15200).
Proof. reflexivity. Qed.

Example py_truediv_travelDuration : py_truediv (PyInt 1200) (PyInt 60) = Ok (PyFloat 20).
Proof. reflexivity. Qed.

(** ** The invariant of [Localizacion] *)

Lemma init_bien_formada ms latlng direccion kwargs o :
  Localizacion.__init__ ms latlng direccion kwargs = Ok o → bien_formada o.
Proof.
  unfold Localizacion.__init__, bien_formada. intros H.
  destruct (negb (is_none latlng) && negb (is_none direccion)).
  { injection H as <-. simpl. split; [done|]. by left. }
  destruct (negb (is_none latlng)) eqn:Hl.
  - destruct (is_tuple_or_list latlng) eqn:Ht; [|done].
    destruct (getitem_idx latlng 0) as [lat|] eqn:H0; [|done]. simpl in H.
    destruct (getitem_idx latlng 1) as [lng|] eqn:H1; [|done]. simpl in H.
    injection H as <-. simpl. split; [done|]. right. by left.
  - destruct (negb (is_none direccion)) eqn:Hd; [|done].
    destruct (is_str direccion) eqn:Hs; [|done].
    injection H as <-. simpl. split; [done|]. right. by right.
Qed.

Lemma set_data_bien_formada d o :
  bien_formada o → bien_formada (Localizacion.set_data d o).
Proof.
  unfold bien_formada. simpl. intros (H1 & H2). split; [|done]. by split.
Qed.

Lemma same_objects_bien_formado w w' :
  Localizacion.objects w' = Localizacion.objects w →
  mundo_bien_formado w → mundo_bien_formado w'.
Proof. intros He Hw l o. rewrite He. apply Hw. Qed.

Lemma new_bien_formado ms latlng direccion kwargs w res w' :
  mundo_bien_formado w →
  Localizacion.new ms latlng direccion kwargs w = (res, w') →
  mundo_bien_formado w'.
Proof.
  intros Hw. unfold Localizacion.new, Localizacion.alloc, lift, mbind, M_bind.
  destruct (Localizacion.__init__ ms latlng direccion kwargs) as [o|e] eqn:Hi.
  - intros [= <- <-] l0 o0. simpl.
    destruct (decide (l0 = fresh (dom (Localizacion.objects w)))) as [->|Hne].
    + rewrite lookup_insert_eq. intros [= <-]. by eapply init_bien_formada.
    + rewrite lookup_insert_ne by done. apply Hw.
  - by intros [= <- <-].
Qed.

Section Invariant.
Context (rt : runtime) (net : network).

Lemma procesar_bien_formado l w res w' :
  mundo_bien_formado w →
  Localizacion.procesar rt net l w = (res, w') →
  mundo_bien_formado w'.
Proof.
  intros Hw H. destruct res as [d|e].
  - destruct (Localizacion_procesar_Ok _ _ _ _ _ _ H) as (o & Ho & _ & Hobj).
    intros l0 o0. rewrite Hobj. destruct (decide (l0 = l)) as [->|Hne].
    + rewrite lookup_insert_eq. intros [= <-].
      apply set_data_bien_formada. by eapply Hw.
    + rewrite lookup_insert_ne by done. apply Hw.
  - eapply same_objects_bien_formado; [|done].
    by eapply Localizacion_procesar_Raise.
Qed.

Lemma obtener_latlng_bien_formado l w res w' :
  mundo_bien_formado w →
  Localizacion.obtener_latlng rt net l w = (res, w') →
  mundo_bien_formado w'.
Proof.
  intros Hw H. destruct (Localizacion.objects w !! l) as [o|] eqn:Ho.
  2:{ unfold Localizacion.obtener_latlng, Localizacion.load, mbind, M_bind in H.
      rewrite Ho in H. by injection H as <- <-. }
  rewrite (obtener_latlng_unfold _ _ _ _ _ Ho) in H.
  destruct (Localizacion._latlng_recibido o); [by injection H as <- <-|].
  destruct (Localizacion._data_procesada o); [by injection H as <- <-|].
  destruct (Localizacion.procesar rt net l w) as [[d|e] w1] eqn:Hp;
    injection H as <- <-; by eapply procesar_bien_formado.
Qed.

(** [obtener_direccion], case by case. *)
Lemma obtener_direccion_unfold w l o :
  Localizacion.objects w !! l = Some o →
  Localizacion.obtener_direccion rt net l w =
    if Localizacion._direccion_recibida o then (Ok (Localizacion._direccion o), w)
    else if Localizacion._data_procesada o then
      (match Localizacion.data o with
       | Some d => formatted_address_of d
       | None => Raise AttributeError
       end, w)
    else match Localizacion.procesar rt net l w with
         | (Ok d, w') => (formatted_address_of d, w')
         | (Raise e, w') => (Raise e, w')
         end.
Proof.
  intros Ho. unfold Localizacion.obtener_direccion.
  rewrite (bind_Ok _ _ _ _ _ (Localizacion_load_Some _ _ _ Ho)).
  destruct (Localizacion._direccion_recibida o); [done|].
  destruct (Localizacion._data_procesada o) eqn:Hp; simpl.
  - unfold mbind, M_bind, mret, M_ret, lift.
    rewrite (Localizacion_get_data_Some _ _ _ Ho).
    by destruct (Localizacion.data o).
  - destruct (Localizacion.procesar rt net l w) as [[d|e] w'] eqn:Hproc.
    + destruct (Localizacion_procesar_Ok rt net _ _ _ _ Hproc) as (o' & Ho' & _ & Hobj).
      assert (Hl : Localizacion.objects w' !! l = Some (Localizacion.set_data d o')).
      { rewrite Hobj. apply lookup_insert_eq. }
      unfold mbind, M_bind, mret, M_ret, lift. rewrite Hproc.
      by rewrite (Localizacion_get_data_Some _ _ _ Hl).
    + unfold mbind, M_bind. by rewrite Hproc.
Qed.

Lemma obtener_direccion_bien_formado l w res w' :
  mundo_bien_formado w →
  Localizacion.obtener_direccion rt net l w = (res, w') →
  mundo_bien_formado w'.
Proof.
  intros Hw H. destruct (Localizacion.objects w !! l) as [o|] eqn:Ho.
  2:{ unfold Localizacion.obtener_direccion, Localizacion.load, mbind, M_bind in H.
      rewrite Ho in H. by injection H as <- <-. }
  rewrite (obtener_direccion_unfold _ _ _ Ho) in H.
  destruct (Localizacion._direccion_recibida o); [by injection H as <- <-|].
  destruct (Localizacion._data_procesada o); [by injection H as <- <-|].
  destruct (Localizacion.procesar rt net l w) as [[d|e] w1] eqn:Hp;
    injection H as <- <-; by eapply procesar_bien_formado.
Qed.

(** X4.  The constructor of [Localizacion] leaves a well-formed
    location, and [Localizacion(...)], [procesar], [obtener_latlng] and
    [obtener_direccion] keep every location of the world well formed,
    whether they return or raise. *)
Theorem Localizacion_bien_formada :
  (∀ ms latlng direccion kwargs o,
     Localizacion.__init__ ms latlng direccion kwargs = Ok o → bien_formada o)
  ∧ (∀ ms latlng direccion kwargs w,
       mundo_bien_formado w →
       mundo_bien_formado (Localizacion.new ms latlng direccion kwargs w).2)
  ∧ (∀ l w,
       mundo_bien_formado w →
       mundo_bien_formado (Localizacion.procesar rt net l w).2
       ∧ mundo_bien_formado (Localizacion.obtener_latlng rt net l w).2
       ∧ mundo_bien_formado (Localizacion.obtener_direccion rt net l w).2).
Proof.
  split_and!.
  - apply init_bien_formada.
  - intros ms latlng direccion kwargs w Hw.
    destruct (Localizacion.new ms latlng direccion kwargs w) as [res w'] eqn:H.
    by eapply new_bien_formado.
  - intros l w Hw. split_and!.
    + destruct (Localizacion.procesar rt net l w) as [res w'] eqn:H.
      by eapply procesar_bien_formado.
    + destruct (Localizacion.obtener_latlng rt net l w) as [res w'] eqn:H.
      by eapply obtener_latlng_bien_formado.
    + destruct (Localizacion.obtener_direccion rt net l w) as [res w'] eqn:H.
      by eapply obtener_direccion_bien_formado.
Qed.

End Invariant.

(** ** What [procesar] raises *)

Section Exceptions.
Context (rt : runtime) (net : network).

Lemma bien_formada_ubicacion o :
  bien_formada o →
  Localizacion._latlng_recibido o && Localizacion._direccion_recibida o = false →
  is_Some (ubicacion_a_procesar o).
Proof.
  intros (_ & [(H1 & H2 & _)|[(H1 & H2 & Ht & _ & _ & Hd)|(H1 & H2 & Hs & Hl)]]) Hb;
    unfold ubicacion_a_procesar.
  - by rewrite H1, H2 in Hb.
  - rewrite Hd. simpl. by destruct (Localizacion._latlng o).
  - by destruct (Localizacion._direccion o).
Qed.

Lemma bien_formada_recibida o :
  bien_formada o →
  Localizacion._latlng_recibido o = true ∨ Localizacion._direccion_recibida o = true.
Proof. intros (_ & [(H1 & _)|[(H1 & _)|(_ & H2 & _)]]); eauto. Qed.

(** X5.  [Localizacion.procesar] on a location of the world raises
    nothing but a ValueError, whatever the map service or the network
    raised; in a well-formed world it is one of three: the location was
    processed, it received both a coordinate and an address, or the
    call to the service failed.  [Ruta.procesar] on a route of a
    well-formed world whose start and end are alive raises only the
    first or the last of these: the two ValueErrors about a start or an
    end that was not processed cannot occur. *)
Theorem procesar_raises :
  (∀ l w e w',
     is_Some (Localizacion.objects w !! l) →
     Localizacion.procesar rt net l w = (Raise e, w') →
     (∃ msg, e = ValueError msg)
     ∧ (mundo_bien_formado w →
        e = AlreadyResolved
        ∨ e = ValueError "No es necesario procesar la ubicación"
        ∨ e = ResolutionFailed))
  ∧ (∀ r st self e st',
       Ruta.objects st !! r = Some self →
       mundo_bien_formado (Ruta.mundo st) →
       is_Some (Localizacion.objects (Ruta.mundo st) !! Ruta._inicio self) →
       is_Some (Localizacion.objects (Ruta.mundo st) !! Ruta._final self) →
       Ruta.procesar rt net r st = (Raise e, st') →
       e = AlreadyResolved ∨ e = ResolutionFailed).
Proof.
  split.
  - intros l w e w' [o Ho] H.
    rewrite (Localizacion_procesar_unfold _ _ _ _ _ Ho) in H.
    destruct (Localizacion._data_procesada o).
    { injection H as <- <-. split; [by eexists|]. by left. }
    destruct (_ && _) eqn:Hb.
    { injection H as <- <-. split; [by eexists|]. right. by left. }
    destruct (ubicacion_a_procesar o) as [u|] eqn:Hu.
    + destruct (MapService._rest_localizacion _ _ _ _ _ _) as [[d|e'] tr]; [done|].
      injection H as <- <-. split; [by eexists|]. right. by right.
    + injection H as <- <-. split; [by eexists|].
      intros Hw. destruct (bien_formada_ubicacion o (Hw _ _ Ho) Hb) as [u Hu'].
      congruence.
  - intros r st self e st' Hr Hw [oi Hoi] [ofin Hof] H.
    destruct (Ruta._data_procesada self) eqn:Hp.
    { rewrite (Ruta_procesar_procesada _ _ _ _ _ Hr Hp) in H.
      injection H as <- <-. by left. }
    rewrite (Ruta_procesar_unfold _ _ _ _ _ Hr Hp) in H.
    rewrite (proc_extremo_recibida rt net _ _ _ _ Hoi
               (bien_formada_recibida _ (Hw _ _ Hoi))) in H.
    rewrite (proc_extremo_recibida rt net _ _ _ _ Hof
               (bien_formada_recibida _ (Hw _ _ Hof))) in H.
    destruct (mapM (Localizacion.obtener_latlng rt net) (Ruta._paradas self) (Ruta.mundo st))
      as [[via|e1] w1].
    + destruct (MapService._rest_ruta _ _ _ _ _ _ _ _) as [[d|e2] tr]; [done|].
      injection H as <- <-. by right.
    + injection H as <- <-. by right.
Qed.

End Exceptions.

(** ** The constructor of [Localizacion] *)

Lemma is_none_true v : is_none v = true ↔ v = PyNone.
Proof. by destruct v. Qed.

Lemma is_none_false v : is_none v = false ↔ v ≠ PyNone.
Proof. by destruct v. Qed.

(** [Localizacion.new], by its two outcomes. *)
Lemma Localizacion_new_cases ms latlng direccion kwargs w :
  let '(res, w') := Localizacion.new ms latlng direccion kwargs w in
  match res with
  | Ok l =>
      argumentos_aceptados latlng direccion
      ∧ Localizacion.objects w !! l = None
      ∧ Localizacion.trace w' = Localizacion.trace w
      ∧ ∃ o, Localizacion.objects w' = <[l := o]> (Localizacion.objects w)
             ∧ Localizacion._data_procesada o = false
             ∧ Localizacion._imagen_procesada o = false
             ∧ Localizacion._kwargs o = kwargs
             ∧ Localizacion._map_service o = ms
  | Raise e =>
      ¬ argumentos_aceptados latlng direccion
      ∧ w' = w
      ∧ if is_tuple_or_list latlng && is_none direccion
        then e = IndexError
        else ∃ msg, e = ValueError msg
  end.
Proof.
  unfold Localizacion.new, Localizacion.alloc, lift, mbind, M_bind.
  destruct (Localizacion.__init__ ms latlng direccion kwargs) as [o|e] eqn:Hi.
  - split_and!.
    + unfold Localizacion.__init__, argumentos_aceptados in *.
      destruct (is_none latlng) eqn:Hl, (is_none direccion) eqn:Hd; simpl in Hi.
      * done.
      * apply is_none_true in Hl. right. right. split; [done|].
        destruct direccion; try done. by eexists.
      * apply is_none_true in Hd. right. left. split; [done|].
        destruct latlng as [| | | | |[|lat [|lng rest]]|[|lat [|lng rest]]|]; try done.
        -- by exists false, lat, lng, rest.
        -- by exists true, lat, lng, rest.
      * apply is_none_false in Hl, Hd. by left.
    + apply not_elem_of_dom. apply is_fresh.
    + done.
    + exists o. split; [done|].
      unfold Localizacion.__init__ in Hi.
      repeat case_match; try done; simplify_eq/=; try done;
        destruct (getitem_idx latlng 0); simplify_eq/=;
        destruct (getitem_idx latlng 1); by simplify_eq/=.
  - split_and!; [|done|].
    + unfold Localizacion.__init__, argumentos_aceptados in *.
      intros [(Hl & Hd)|[(-> & as_list & lat & lng & rest & ->)|(-> & s & ->)]].
      * apply is_none_false in Hl, Hd. by rewrite Hl, Hd in Hi.
      * by destruct as_list.
      * done.
    + unfold Localizacion.__init__ in Hi.
      destruct (is_none latlng) eqn:Hl, (is_none direccion) eqn:Hd; simpl in Hi.
      * apply is_none_true in Hl as ->. simpl. injection Hi as <-. by eexists.
      * apply is_none_true in Hl as ->. simpl.
        destruct (is_str direccion); [done|]. injection Hi as <-. by eexists.
      * rewrite andb_true_r.
        destruct (is_tuple_or_list latlng) eqn:Ht.
        -- destruct latlng as [| | | | |[|lat [|lng rest]]|[|lat [|lng rest]]|];
             try done; simpl in Hi; by injection Hi as <-.
        -- injection Hi as <-. by eexists.
      * done.
Qed.

(** X6.  The call [Localizacion(map_service, latlng, direccion,
    **kwargs)] returns exactly when no keyword names [self],
    [map_service], [latlng] or [direccion] and the arguments are those
    described by [argumentos_aceptados]; the object it makes is new, not
    processed, and holds the [kwargs] and the map service.  When it
    raises, the world is as it was: it raises a TypeError for a keyword
    that names a parameter, and else a ValueError, or an IndexError for
    a coordinate of fewer than two elements. *)
Theorem Localizacion_call_spec ms latlng direccion kwargs w :
  let keywords :=
    keyword_arguments ["self"; "map_service"; "latlng"; "direccion"] kwargs in
  let '(res, w') := Localizacion.call ms latlng direccion kwargs w in
  match res with
  | Ok l =>
      keywords = Ok ()
      ∧ argumentos_aceptados latlng direccion
      ∧ Localizacion.objects w !! l = None
      ∧ Localizacion.trace w' = Localizacion.trace w
      ∧ ∃ o, Localizacion.objects w' = <[l := o]> (Localizacion.objects w)
             ∧ Localizacion._data_procesada o = false
             ∧ Localizacion._imagen_procesada o = false
             ∧ Localizacion._kwargs o = kwargs
             ∧ Localizacion._map_service o = ms
  | Raise e =>
      w' = w
      ∧ match keywords with
        | Raise _ => e = TypeError
        | Ok _ =>
            ¬ argumentos_aceptados latlng direccion
            ∧ if is_tuple_or_list latlng && is_none direccion
              then e = IndexError
              else ∃ msg, e = ValueError msg
        end
  end.
Proof.
  cbv zeta. unfold Localizacion.call.
  pose proof (Localizacion_new_cases ms latlng direccion kwargs w) as Hnew.
  destruct (keyword_arguments _ kwargs) as [[]|e0] eqn:Hk.
  - erewrite bind_Ok by reflexivity.
    destruct (Localizacion.new ms latlng direccion kwargs w) as [[l|e] w'].
    + by split.
    + destruct Hnew as (? & ? & ?). by split.
  - erewrite bind_Raise by reflexivity. split; [done|].
    unfold keyword_arguments in Hk. case_bool_decide; [|done]. by injection Hk as <-.
Qed.

(** ** The parameters of a request *)

Lemma dict_get_None (d : dict) k : dict_get d k = None ↔ k ∉ dict_keys d.
Proof.
  induction d as [|[k' v'] d IH]; simpl.
  - split; [intros _; apply not_elem_of_nil|done].
  - rewrite not_elem_of_cons. destruct (decide (k' = k)) as [->|Hne].
    + split; [done|]. by intros [? _].
    + rewrite IH. split; [by split|by intros [_ ?]].
Qed.

Lemma dict_keys_set (d : dict) k v :
  dict_keys (dict_set d k v)
  = if decide (k ∈ dict_keys d) then dict_keys d else dict_keys d ++ [k].
Proof.
  induction d as [|[k' v'] d IH].
  - destruct (decide (k ∈ dict_keys [])) as [Hin|_]; [|done].
    by apply elem_of_nil in Hin.
  - cbn [dict_set]. destruct (decide (k' = k)) as [->|Hne].
    + destruct (decide (k ∈ dict_keys ((k, v') :: d))) as [_|Hnin]; [done|].
      exfalso. apply Hnin. by left.
    + change (dict_keys ((k', v') :: dict_set d k v))
        with (k' :: dict_keys (dict_set d k v)).
      rewrite IH.
      destruct (decide (k ∈ dict_keys d)) as [Hin|Hnin],
               (decide (k ∈ dict_keys ((k', v') :: d))) as [Hin'|Hnin']; try done.
      * exfalso. apply Hnin'. by right.
      * apply elem_of_cons in Hin' as [->|Hin']; done.
Qed.

Lemma dict_keys_set_prefix (d : dict) k v :
  dict_keys d `prefix_of` dict_keys (dict_set d k v).
Proof.
  rewrite dict_keys_set. case_decide; [done|]. by apply prefix_app_r.
Qed.

Lemma dict_keys_update_prefix (d e : dict) :
  dict_keys d `prefix_of` dict_keys (dict_update d e).
Proof.
  unfold dict_update. revert d.
  induction e as [|[k v] e IH]; intros d; simpl; [done|].
  etrans; [apply (dict_keys_set_prefix d k v)|apply IH].
Qed.

Lemma clave_not_key N n : clave N n ≠ "key".
Proof.
  unfold clave. case_bool_decide; cbv beta iota delta [String.append]; discriminate.
Qed.

Lemma viajes_de_not_key (paradas : list pyval) :
  "key" ∉ dict_keys (viajes_de paradas).
Proof.
  rewrite viajes_de_zip. unfold dict_keys.
  rewrite zip_with_keys by (by rewrite length_seq).
  intros Hin. apply list_elem_of_fmap in Hin as (n & Hn & _).
  by apply (clave_not_key (length paradas) n).
Qed.

Section Parameters.
Context (rt : runtime) (net : network).

(** X7.  The request of a [_rest_ruta] that returned carries the
    parameters of the caller in their order, then those the method
    adds; under [key] it carries the key of the service and under each
    key of a stop the stop, whatever the caller gave under these keys;
    every other parameter of the caller is carried as given. *)
Theorem rest_ruta_parametros self inicio final via kwargs tr d tr' :
  MapService._rest_ruta rt net self inicio final via kwargs tr = (Ok d, tr') →
  ∃ paradas params,
    paradas_de rt inicio final via = Ok paradas
    ∧ tr' = tr ++ [Fetch ((url_rutas self +:+ "?") +:+ urlencode rt params)]
    ∧ dict_keys kwargs `prefix_of` dict_keys params
    ∧ dict_get params "key" = Some (api_key self)
    ∧ (∀ k v, dict_get (viajes_de paradas) k = Some v → dict_get params k = Some v)
    ∧ (∀ k, k ≠ "key" → dict_get (viajes_de paradas) k = None →
         dict_get params k = dict_get kwargs k).
Proof.
  rewrite MapService_rest_ruta_eq. intros H.
  destruct (rest_ruta_Ok _ _ _ _ _ _ _ _ _ _ _ H) as (paradas & Hp & ->).
  exists paradas. eexists. split_and!; [done|reflexivity|..].
  - etrans; [|apply dict_keys_update_prefix]. apply dict_keys_update_prefix.
  - simpl. rewrite dict_get_set. by rewrite decide_True.
  - intros k v Hk. simpl. rewrite dict_get_set, decide_False.
    + apply dict_get_update; [apply viajes_de_NoDup|done].
    + intros <-. pose proof (viajes_de_not_key paradas) as Hn.
      apply dict_get_None in Hn. congruence.
  - intros k Hne Hk. simpl. rewrite dict_get_set, decide_False by done.
    apply dict_get_update_other. by apply dict_get_None.
Qed.

End Parameters.

(** ** The accessors of a route *)

Section RouteAccessors.
Context (rt : runtime) (net : network).

(** The accessors of a route share their beginning: [procesar] when the
    route is not processed, then [self.data]. *)
Lemma Ruta_data_unfold {A} (k : pyval → M Ruta.state A) st r :
  (self ← Ruta.load r;
   (if negb (Ruta._data_procesada self) then Ruta.procesar rt net r;; mret ()
    else mret ());;
   d ← Ruta.get_data r;
   k d) st
  = match Ruta.objects st !! r with
    | None => (Raise Dangling, st)
    | Some self =>
        if Ruta._data_procesada self then
          match Ruta.data self with
          | Some d => k d st
          | None => (Raise AttributeError, st)
          end
        else
          match Ruta.procesar rt net r st with
          | (Ok d, st') => k d st'
          | (Raise e, st') => (Raise e, st')
          end
    end.
Proof.
  destruct (Ruta.objects st !! r) as [self|] eqn:Hr.
  2:{ unfold Ruta.load, mbind, M_bind. by rewrite Hr. }
  rewrite (bind_Ok _ _ _ _ _ (Ruta_load_Some _ _ _ Hr)).
  destruct (Ruta._data_procesada self) eqn:Hp; simpl.
  - unfold Ruta.get_data, Ruta.load, mbind, M_bind, mret, M_ret, raise.
    rewrite Hr. by destruct (Ruta.data self).
  - destruct (Ruta.procesar rt net r st) as [[d|e] st'] eqn:Hproc.
    + destruct (Ruta_procesar_Ok _ _ _ _ _ _ Hproc) as (self' & Hr' & Hobj).
      unfold Ruta.get_data, Ruta.load, mbind, M_bind, mret, M_ret, raise.
      rewrite Hproc, Hobj, lookup_insert_eq. done.
    + unfold mbind, M_bind. by rewrite Hproc.
Qed.

(** An accessor that returned left the route processed, with the data
    from which it read. *)
Lemma Ruta_data_Ok {A} (k : pyval → M Ruta.state A) st r a st' :
  (∀ d s, (k d s).2 = s) →
  (self ← Ruta.load r;
   (if negb (Ruta._data_procesada self) then Ruta.procesar rt net r;; mret ()
    else mret ());;
   d ← Ruta.get_data r;
   k d) st = (Ok a, st') →
  ∃ self d, Ruta.objects st' !! r = Some self
            ∧ Ruta._data_procesada self = true
            ∧ Ruta.data self = Some d
            ∧ k d st' = (Ok a, st').
Proof.
  intros Hk. rewrite Ruta_data_unfold.
  destruct (Ruta.objects st !! r) as [self|] eqn:Hr; [|done].
  destruct (Ruta._data_procesada self) eqn:Hp.
  - destruct (Ruta.data self) as [d|] eqn:Hd; [|done].
    intros H. pose proof (Hk d st) as Hst. rewrite H in Hst. simpl in Hst. subst st'.
    by exists self, d.
  - destruct (Ruta.procesar rt net r st) as [[d|e] st1] eqn:Hproc; [|done].
    intros H. pose proof (Hk d st1) as Hst. rewrite H in Hst. simpl in Hst. subst st'.
    destruct (Ruta_procesar_Ok _ _ _ _ _ _ Hproc) as (self' & Hr' & Hobj).
    exists (Ruta.set_data d self'), d. rewrite Hobj, lookup_insert_eq. done.
Qed.

Lemma distancia_ruta_bing_kilometros_procesada st r self d :
  Ruta.objects st !! r = Some self →
  Ruta._data_procesada self = true →
  Ruta.data self = Some d →
  Ruta.distancia_ruta_bing_kilometros rt net r st = (getitem_key d "travelDistance", st).
Proof.
  intros Hr Hp Hd. unfold Ruta.distancia_ruta_bing_kilometros.
  rewrite (Ruta_data_unfold (λ d, lift (getitem_key d "travelDistance"))).
  by rewrite Hr, Hp, Hd.
Qed.

Lemma tiempo_de_viaje_segundos_procesada st r self d :
  Ruta.objects st !! r = Some self →
  Ruta._data_procesada self = true →
  Ruta.data self = Some d →
  Ruta.tiempo_de_viaje_segundos rt net r st
  = (getitem_key d "travelDurationTraffic", st).
Proof.
  intros Hr Hp Hd. unfold Ruta.tiempo_de_viaje_segundos.
  rewrite (Ruta_data_unfold (λ d, lift (getitem_key d "travelDurationTraffic"))).
  by rewrite Hr, Hp, Hd.
Qed.

(** X8.  One fetch serves every accessor of a route: after a
    [distancia_ruta_bing_kilometros] that returned, the same call
    returns the same value, [distancia_ruta_bing_metros] is that value
    [* 1000], neither these nor the two accessors of the time make a
    call or change an object, and [procesar] raises the ValueError of a
    processed route. *)
Theorem distancia_ruta_bing_kilometros_memo r st km st' :
  Ruta.distancia_ruta_bing_kilometros rt net r st = (Ok km, st') →
  Ruta.distancia_ruta_bing_kilometros rt net r st' = (Ok km, st')
  ∧ Ruta.distancia_ruta_bing_metros rt net r st' = (py_mul km (PyInt 1000), st')
  ∧ (Ruta.tiempo_de_viaje_segundos rt net r st').2 = st'
  ∧ (Ruta.tiempo_de_viaje_minutos rt net r st').2 = st'
  ∧ Ruta.procesar rt net r st' = (Raise AlreadyResolved, st').
Proof.
  intros H.
  apply (Ruta_data_Ok (λ d, lift (getitem_key d "travelDistance"))) in H; [|done].
  destruct H as (self & d & Hr & Hp & Hd & Hk).
  unfold lift in Hk. injection Hk as Hk.
  pose proof (distancia_ruta_bing_kilometros_procesada _ _ _ _ Hr Hp Hd) as Hkm.
  pose proof (tiempo_de_viaje_segundos_procesada _ _ _ _ Hr Hp Hd) as Hs.
  rewrite Hk in Hkm. split_and!.
  - done.
  - unfold Ruta.distancia_ruta_bing_metros. by rewrite (bind_Ok _ _ _ _ _ Hkm).
  - by rewrite Hs.
  - unfold Ruta.tiempo_de_viaje_minutos.
    destruct (getitem_key d "travelDurationTraffic") as [s|e].
    + by rewrite (bind_Ok _ _ _ _ _ Hs).
    + by rewrite (bind_Raise _ _ _ _ _ Hs).
  - by apply (Ruta_procesar_procesada _ _ _ _ _ Hr Hp).
Qed.

End RouteAccessors.

(** ** The accessors of a location, and what the geocoder is asked *)

Section LocationAccessors.
Context (rt : runtime) (net : network).

(** The query to the [Locations] service is one fetch. *)
Lemma rest_localizacion_bing_fetch url key ubicacion kwargs tr :
  ∃ u, rest_localizacion_bing rt net url key ubicacion kwargs tr
       = (fetch_json net tr u ≫= first_resource, tr ++ [Fetch u]).
Proof.
  unfold rest_localizacion_bing.
  destruct (is_tuple_or_list ubicacion); [|destruct ubicacion];
    unfold _json_from_url, lift, mbind at 1, M_bind;
    match goal with |- context [Fetch ?u] => exists u end;
    by destruct (fetch_json net tr _).
Qed.

(** X9.  After a [procesar] that returned, the two accessors of the
    location make no call and change nothing: each returns what the
    location received, or reads it in the answer that [procesar]
    stored. *)
Theorem accessors_after_procesar l w d w' :
  Localizacion.procesar rt net l w = (Ok d, w') →
  ∃ o, Localizacion.objects w !! l = Some o
       ∧ Localizacion.obtener_latlng rt net l w'
         = (if Localizacion._latlng_recibido o then Ok (Localizacion._latlng o)
            else coordinates_of d, w')
       ∧ Localizacion.obtener_direccion rt net l w'
         = (if Localizacion._direccion_recibida o then Ok (Localizacion._direccion o)
            else formatted_address_of d, w').
Proof.
  intros H.
  destruct (Localizacion_procesar_Ok _ _ _ _ _ _ H) as (o & Ho & _ & Hobj).
  exists o. split; [done|].
  assert (Hl : Localizacion.objects w' !! l = Some (Localizacion.set_data d o)).
  { rewrite Hobj. apply lookup_insert_eq. }
  split.
  - rewrite (obtener_latlng_unfold _ _ _ _ _ Hl). simpl.
    by destruct (Localizacion._latlng_recibido o).
  - rewrite (obtener_direccion_unfold _ _ _ _ _ Hl). simpl.
    by destruct (Localizacion._direccion_recibida o).
Qed.

(** X10.  [obtener_direccion] asks at most once: after a call that
    returned, the next call on the same location returns the same
    value, makes no call and changes nothing. *)
Theorem obtener_direccion_memo w l a w' :
  Localizacion.obtener_direccion rt net l w = (Ok a, w') →
  Localizacion.obtener_direccion rt net l w' = (Ok a, w').
Proof.
  intros H. destruct (Localizacion.objects w !! l) as [o|] eqn:Ho.
  2:{ unfold Localizacion.obtener_direccion, Localizacion.load, mbind, M_bind in H.
      by rewrite Ho in H. }
  rewrite (obtener_direccion_unfold _ _ _ _ _ Ho) in H.
  destruct (Localizacion._direccion_recibida o) eqn:Hr.
  { injection H as <- <-. by rewrite (obtener_direccion_unfold _ _ _ _ _ Ho), Hr. }
  destruct (Localizacion._data_procesada o) eqn:Hp.
  { injection H as H <-. by rewrite (obtener_direccion_unfold _ _ _ _ _ Ho), Hr, Hp, H. }
  destruct (Localizacion.procesar rt net l w) as [[d|e] w1] eqn:Hproc; [|done].
  injection H as H <-.
  destruct (Localizacion_procesar_Ok _ _ _ _ _ _ Hproc) as (o1 & Ho1 & _ & Hobj).
  assert (o1 = o) as -> by congruence.
  assert (Hl : Localizacion.objects w1 !! l = Some (Localizacion.set_data d o)).
  { rewrite Hobj. apply lookup_insert_eq. }
  rewrite (obtener_direccion_unfold _ _ _ _ _ Hl). simpl. by rewrite Hr, H.
Qed.

(** X11.  [OpenService._rest_localizacion] asks the geocoder once,
    before anything else.  When the geocoder raises, the exception is
    passed on and the other service is not asked; when it finds the
    place, the answer is read from the text [proc] and nothing is
    fetched; only when it finds nothing is the [Locations] service
    fetched, once. *)
Theorem OpenService_rest_localizacion_calls self ubicacion kwargs tr :
  is_str ubicacion = true ∨ is_tuple_or_list ubicacion = true →
  keyword_arguments ["self"; "ubicacion"] kwargs = Ok () →
  let asked := tr ++ [geocoder_event self ubicacion] in
  let '(res, tr') := OpenService._rest_localizacion rt net self ubicacion kwargs tr in
  match geocoder_answer net self tr ubicacion with
  | Raise e => res = Raise e ∧ tr' = asked
  | Ok (Some found) => res = json_loads rt (OpenService.proc rt found) ∧ tr' = asked
  | Ok None =>
      ∃ url, res = fetch_json net asked url ≫= first_resource
             ∧ tr' = asked ++ [Fetch url]
  end.
Proof.
  intros Hu Hk. cbv zeta. unfold OpenService._rest_localizacion.
  rewrite Hk. erewrite bind_Ok by reflexivity.
  assert (Hgeo :
    (if is_tuple_or_list ubicacion then OpenService.geolocator_reverse net self ubicacion
     else match ubicacion with
          | PyStr s => OpenService.geolocator_geocode net self s
          | _ => raise UnboundLocalError
          end) tr
    = (geocoder_answer net self tr ubicacion, tr ++ [geocoder_event self ubicacion])).
  { destruct Hu as [Hu|Hu]; destruct ubicacion; done. }
  destruct (geocoder_answer net self tr ubicacion) as [[found|]|e] eqn:Ha.
  - by rewrite (bind_Ok _ _ _ _ _ Hgeo).
  - rewrite (bind_Ok _ _ _ _ _ Hgeo).
    destruct (rest_localizacion_bing_fetch (OpenService._url_localizacion self)
                (OpenService._api_key self) ubicacion kwargs
                (tr ++ [geocoder_event self ubicacion])) as [url ->].
    by exists url.
  - by rewrite (bind_Raise _ _ _ _ _ Hgeo).
Qed.

End LocationAccessors.

(** ** A route between locations that kept nothing *)

Lemma hecha_con_ambos_extremo o :
  hecha_con_ambos o →
  Localizacion._latlng_recibido o = true ∧ extremo o = PyNone.
Proof.
  intros (ms & latlng & direccion & kwargs & Hl & Hd & H).
  apply is_none_false in Hl, Hd. unfold Localizacion.__init__ in H.
  rewrite Hl, Hd in H. simpl in H. by injection H as <-.
Qed.

Section NoneWaypoint.
Context (rt : runtime) (net : network).

(** X12.  A location made with both a coordinate and an address is sent
    by [Ruta.procesar] as [None]: the request of a [procesar] that
    returned carries [None] under [wayPoint.1] when the start is such a
    location, and under the last [wayPoint] when the end is. *)
Theorem Ruta_procesar_extremo_None st r self d st' :
  Ruta.objects st !! r = Some self →
  Ruta._data_procesada self = false →
  Ruta.procesar rt net r st = (Ok d, st') →
  ∃ params,
    last (llamadas st')
    = Some (Fetch ((url_rutas (Ruta._map_service self) +:+ "?") +:+ urlencode rt params))
    ∧ (∀ o, localizaciones st !! Ruta._inicio self = Some o → hecha_con_ambos o →
         dict_get params "wayPoint.1" = Some PyNone)
    ∧ (∀ o, localizaciones st !! Ruta._final self = Some o → hecha_con_ambos o →
         dict_get params ("wayPoint." +:+ pretty (length (Ruta._paradas self) + 2))
         = Some PyNone).
Proof.
  intros Hr Hp H.
  rewrite (Ruta_procesar_unfold _ _ _ _ _ Hr Hp) in H.
  destruct (Ruta.proc_extremo rt net (Ruta._inicio self) _ st) as [[p_i|e] sti] eqn:Ei;
    [|done].
  destruct (Ruta.proc_extremo rt net (Ruta._final self) _ st) as [[p_f|e] stf] eqn:Ef;
    [|done].
  destruct (mapM (Localizacion.obtener_latlng rt net) (Ruta._paradas self) (Ruta.mundo st))
    as [[coords|e] w1] eqn:Hvias; [|done].
  destruct (mapM_obtener_latlng_effect _ _ _ _ _ _ Hvias) as (_ & _ & Hc).
  pose proof (Forall2_length _ _ _ (Hc _ eq_refl)) as Hlen1.
  rewrite MapService_rest_ruta_eq in H.
  destruct (rest_ruta rt net _ _ _ _ _ _ _) as [[d'|e] tr] eqn:Hrest; [|done].
  injection H as <- <-.
  destruct (rest_ruta_Ok _ _ _ _ _ _ _ _ _ _ _ Hrest) as (paradas & Hpar & ->).
  destruct (paradas_de_inv _ _ _ _ _ Hpar) as (ti & tv & tf & -> & Hti & Htv & Htf).
  pose proof (Forall2_length _ _ _ Htv) as Hlen2.
  pose proof (viajes_de_NoDup (ti :: tv ++ [tf])) as Hnd.
  eexists. split; [unfold llamadas; simpl; by rewrite last_snoc|]. split.
  - intros o Ho Hamb. destruct (hecha_con_ambos_extremo _ Hamb) as (Hrec & Hex).
    rewrite (proc_extremo_recibida rt net _ _ _ _ Ho (or_introl Hrec)) in Ei.
    injection Ei as <- <-. rewrite Hex in Hti. injection Hti as <-.
    simpl. rewrite dict_get_set, decide_False by done.
    apply dict_get_update; [done|].
    apply dict_get_elem; [done|]. rewrite viajes_de_closed. by left.
  - intros o Ho Hamb. destruct (hecha_con_ambos_extremo _ Hamb) as (Hrec & Hex).
    rewrite (proc_extremo_recibida rt net _ _ _ _ Ho (or_introl Hrec)) in Ef.
    injection Ef as <- <-. rewrite Hex in Htf. injection Htf as <-.
    simpl. rewrite dict_get_set, decide_False.
    2:{ cbv beta iota delta [String.append]. discriminate. }
    apply dict_get_update; [done|].
    apply dict_get_elem; [done|]. rewrite viajes_de_closed.
    right. apply elem_of_app. right. rewrite Hlen1, Hlen2. by left.
Qed.

End NoneWaypoint.

(** ** The geodesic distance *)

Section Geodesic.
Context (rt : runtime) (net : network) (geo : geopy).

(** A coordinate at hand is returned without a call. *)
Lemma obtener_latlng_at_hand w l o c :
  Localizacion.objects w !! l = Some o →
  coordenada o = Some c →
  Localizacion.obtener_latlng rt net l w = (Ok c, w).
Proof.
  intros Ho Hc. rewrite (obtener_latlng_unfold _ _ _ _ _ Ho).
  unfold coordenada in Hc.
  destruct (Localizacion._latlng_recibido o); [congruence|].
  destruct (Localizacion._data_procesada o); [|done].
  destruct (Localizacion.data o) as [d|]; [|done].
  fold (coordinates_of d) in Hc. destruct (coordinates_of d); congruence.
Qed.

(** [distancia_geodesica_kilometros], case by case: each end is asked
    for its coordinate once. *)
Lemma distancia_geodesica_kilometros_unfold st r self :
  Ruta.objects st !! r = Some self →
  Ruta.distancia_geodesica_kilometros rt net geo r st =
    match Localizacion.obtener_latlng rt net (Ruta._inicio self) (Ruta.mundo st) with
    | (Raise e, w1) => (Raise e, {| Ruta.mundo := w1; Ruta.objects := Ruta.objects st |})
    | (Ok a, w1) =>
        if is_none a
        then (Raise sin_coordenadas,
              {| Ruta.mundo := w1; Ruta.objects := Ruta.objects st |})
        else
          match Localizacion.obtener_latlng rt net (Ruta._final self) w1 with
          | (Raise e, w2) =>
              (Raise e, {| Ruta.mundo := w2; Ruta.objects := Ruta.objects st |})
          | (Ok b, w2) =>
              (if is_none b then Raise sin_coordenadas else geodesic_km geo a b,
               {| Ruta.mundo := w2; Ruta.objects := Ruta.objects st |})
          end
    end.
Proof.
  intros Hr. unfold Ruta.distancia_geodesica_kilometros.
  rewrite (bind_Ok _ _ _ _ _ (Ruta_load_Some _ _ _ Hr)).
  destruct (Localizacion.obtener_latlng rt net (Ruta._inicio self) (Ruta.mundo st))
    as [[a|e] w1] eqn:H1.
  2:{ by rewrite (bind_Raise _ _ _ _ _ (with_mundo_eq _ _ _ _ H1)). }
  rewrite (bind_Ok _ _ _ _ _ (with_mundo_eq _ _ _ _ H1)).
  destruct (is_none a) eqn:Ha.
  { by erewrite bind_Ok by reflexivity. }
  set (st1 := {| Ruta.mundo := w1; Ruta.objects := Ruta.objects st |}).
  destruct (Localizacion.obtener_latlng rt net (Ruta._final self) w1)
    as [[b|e] w2] eqn:H2.
  2:{ erewrite bind_Raise; [done|].
      by rewrite (bind_Raise _ _ _ _ _ (with_mundo_eq _ st1 _ _ H2)). }
  set (st2 := {| Ruta.mundo := w2; Ruta.objects := Ruta.objects st |}).
  erewrite bind_Ok.
  2:{ by rewrite (bind_Ok _ _ _ _ _ (with_mundo_eq _ st1 _ _ H2)). }
  destruct (is_none b) eqn:Hb; [done|].
  (* the two ends hold their coordinates now *)
  destruct (obtener_latlng_effect _ _ _ _ _ _ H1) as (_ & _ & Hc1).
  destruct (Hc1 a eq_refl) as (o1 & Ho1 & Hco1).
  destruct (obtener_latlng_effect _ _ _ _ _ _ H2) as (_ & Hkeep & Hc2).
  destruct (Hc2 b eq_refl) as (o2 & Ho2 & Hco2).
  pose proof (Hkeep _ _ _ Ho1 Hco1) as Ho1'.
  rewrite (bind_Ok _ _ _ _ _
             (with_mundo_same _ st2 _ (obtener_latlng_at_hand _ _ _ _ Ho1' Hco1))).
  by rewrite (bind_Ok _ _ _ _ _
                (with_mundo_same _ st2 _ (obtener_latlng_at_hand _ _ _ _ Ho2 Hco2))).
Qed.

(** X13.  Between two ends whose coordinates are at hand,
    [distancia_geodesica_kilometros] is the geodesic distance of these
    coordinates, or the ValueError of the method when one of them is
    [None]; it makes no call and changes nothing. *)
Theorem distancia_geodesica_kilometros_at_hand st r self oi ofin a b :
  Ruta.objects st !! r = Some self →
  localizaciones st !! Ruta._inicio self = Some oi →
  localizaciones st !! Ruta._final self = Some ofin →
  coordenada oi = Some a →
  coordenada ofin = Some b →
  Ruta.distancia_geodesica_kilometros rt net geo r st
  = (if is_none a || is_none b then Raise sin_coordenadas else geodesic_km geo a b, st).
Proof.
  intros Hr Hoi Hof Ha Hb.
  rewrite (distancia_geodesica_kilometros_unfold _ _ _ Hr).
  rewrite (obtener_latlng_at_hand _ _ _ _ Hoi Ha).
  destruct (is_none a); [by destruct st|].
  rewrite (obtener_latlng_at_hand _ _ _ _ Hof Hb).
  by destruct st.
Qed.

(** X14.  [distancia_geodesica_kilometros] never touches a route, the
    route it is called on included, nor a location other than the two
    ends, nor an end whose coordinate was at hand; when it returns a
    distance, each end holds a coordinate that is not [None] and the
    distance is the geodesic distance of the two. *)
Theorem distancia_geodesica_kilometros_effect st r self res st' :
  Ruta.objects st !! r = Some self →
  Ruta.distancia_geodesica_kilometros rt net geo r st = (res, st') →
  Ruta.objects st' = Ruta.objects st
  ∧ (∀ l, l ≠ Ruta._inicio self → l ≠ Ruta._final self →
       localizaciones st' !! l = localizaciones st !! l)
  ∧ (∀ l o c, localizaciones st !! l = Some o → coordenada o = Some c →
       localizaciones st' !! l = Some o)
  ∧ (∀ km, res = Ok km →
       ∃ oi ofin a b,
         localizaciones st' !! Ruta._inicio self = Some oi
         ∧ localizaciones st' !! Ruta._final self = Some ofin
         ∧ coordenada oi = Some a ∧ coordenada ofin = Some b
         ∧ a ≠ PyNone ∧ b ≠ PyNone
         ∧ geodesic_km geo a b = Ok km).
Proof.
  intros Hr H. rewrite (distancia_geodesica_kilometros_unfold _ _ _ Hr) in H.
  unfold localizaciones.
  destruct (Localizacion.obtener_latlng rt net (Ruta._inicio self) (Ruta.mundo st))
    as [[a|e] w1] eqn:H1;
    destruct (obtener_latlng_effect _ _ _ _ _ _ H1) as (Hf1 & Hk1 & Hc1).
  2:{ injection H as <- <-. simpl. split_and!; [done|by auto|done|done]. }
  destruct (is_none a) eqn:Ha.
  { injection H as <- <-. simpl. split_and!; [done|by auto|done|done]. }
  destruct (Localizacion.obtener_latlng rt net (Ruta._final self) w1)
    as [[b|e] w2] eqn:H2;
    destruct (obtener_latlng_effect _ _ _ _ _ _ H2) as (Hf2 & Hk2 & Hc2).
  2:{ injection H as <- <-. simpl. split_and!; [done| |by eauto|done].
      intros l Hl1 Hl2. by rewrite Hf2, Hf1. }
  injection H as <- <-. simpl. split_and!; [done| |by eauto|].
  { intros l Hl1 Hl2. by rewrite Hf2, Hf1. }
  intros km Hkm. destruct (is_none b) eqn:Hb; [done|].
  destruct (Hc1 a eq_refl) as (o1 & Ho1 & Hco1).
  destruct (Hc2 b eq_refl) as (o2 & Ho2 & Hco2).
  exists o1, o2, a, b. split_and!; try done.
  - by eapply Hk2.
  - by apply is_none_false.
  - by apply is_none_false.
Qed.

End Geodesic.

(** ** The driving instructions *)

Lemma mapM_lift {S} (f : pyval → result pyval) (l : list pyval) (s : S) :
  mapM (λ x, lift (f x)) l s = (mapM f l, s).
Proof.
  revert s. induction l as [|x l IH]; intros s; [done|].
  rewrite mapM_cons_unfold. unfold lift at 1. simpl.
  destruct (f x) as [y|e]; [|done]. rewrite IH. simpl.
  by destruct (mapM f l).
Qed.

Lemma mapM_ext_M {S A B} (f g : A → M S B) (l : list A) (s : S) :
  (∀ x s, f x s = g x s) → mapM f l s = mapM g l s.
Proof.
  intros Hfg. revert s. induction l as [|x l IH]; intros s; [done|].
  rewrite !mapM_cons_unfold, Hfg.
  destruct (g x s) as [[y|e] s1]; [|done]. by rewrite IH.
Qed.

Section Instructions.
Context (rt : runtime) (net : network) (out : io).

Lemma Ruta_with_base_eq {A} (m : M Ruta.state A) st r w :
  m (Ruta.base st) = (r, w) →
  Ruta.with_base m st
  = (r, {| Ruta.base := w; Ruta._imagen := Ruta._imagen st;
           Ruta.io_trace := Ruta.io_trace st |}).
Proof. intros H. unfold Ruta.with_base. by rewrite H. Qed.

Lemma Ruta_with_base_same {A} (m : M Ruta.state A) st r :
  m (Ruta.base st) = (r, Ruta.base st) → Ruta.with_base m st = (r, st).
Proof. intros H. rewrite (Ruta_with_base_eq _ _ _ _ H). by destruct st. Qed.

Lemma Ruta_get_data_Some st r self :
  Ruta.objects st !! r = Some self →
  Ruta.get_data r st
  = (match Ruta.data self with Some d => Ok d | None => Raise AttributeError end, st).
Proof.
  intros Hr. unfold Ruta.get_data.
  rewrite (bind_Ok _ _ _ _ _ (Ruta_load_Some _ _ _ Hr)).
  by destruct (Ruta.data self).
Qed.

(** [indicaciones_ruta] on a processed route. *)
Lemma indicaciones_ruta_procesada st r self d traducir :
  Ruta.objects (Ruta.base st) !! r = Some self →
  Ruta._data_procesada self = true →
  Ruta.data self = Some d →
  Ruta.indicaciones_ruta rt net out r traducir st
  = match itinerary_items d with
    | Ok items => mapM (indicacion out traducir) items st
    | Raise e => (Raise e, st)
    end.
Proof.
  intros Hr Hp Hd. unfold Ruta.indicaciones_ruta.
  rewrite (bind_Ok _ _ _ _ _ (Ruta_with_base_same _ _ _ (Ruta_load_Some _ _ _ Hr))).
  rewrite Hp. simpl. erewrite bind_Ok by reflexivity.
  erewrite bind_Ok.
  2:{ apply Ruta_with_base_same. rewrite (Ruta_get_data_Some _ _ _ Hr), Hd. done. }
  unfold itinerary_items.
  destruct (getitem_key d "routeLegs") as [legs|e]; simpl;
    [|by erewrite bind_Raise by reflexivity].
  destruct (getitem_idx legs 0) as [leg|e]; simpl;
    [|by erewrite bind_Raise by reflexivity].
  destruct (getitem_key leg "itineraryItems") as [its|e]; simpl;
    [|by erewrite bind_Raise by reflexivity].
  erewrite bind_Ok by reflexivity.
  destruct (Ruta.py_iter its) as [items|e]; simpl;
    [|by erewrite bind_Raise by reflexivity].
  by erewrite bind_Ok by reflexivity.
Qed.

(** X15.  Without [traducir], [indicaciones_ruta] on a processed route
    returns the text of the instruction of every item of the first leg,
    in their order, or the exception of the first item without one; it
    asks no translator, makes no call and changes nothing. *)
Theorem indicaciones_ruta_textos st r self d :
  Ruta.objects (Ruta.base st) !! r = Some self →
  Ruta._data_procesada self = true →
  Ruta.data self = Some d →
  Ruta.indicaciones_ruta rt net out r false st
  = (items ← itinerary_items d; mapM Ruta.instruction_text items, st).
Proof.
  intros Hr Hp Hd. rewrite (indicaciones_ruta_procesada _ _ _ _ _ Hr Hp Hd).
  destruct (itinerary_items d) as [items|e]; [|done]. simpl.
  rewrite <- (mapM_lift Ruta.instruction_text items st).
  apply mapM_ext_M. intros item s.
  unfold indicacion, lift, mbind, M_bind. by destruct (Ruta.instruction_text item).
Qed.

(** The loop with [traducir]: one request to the translator for each
    item, in their order, until one raises. *)
Lemma mapM_indicacion_traducir items texts st res st' :
  Forall2 (λ item t, Ruta.instruction_text item = Ok t) items texts →
  mapM (indicacion out true) items st = (res, st') →
  Ruta.base st' = Ruta.base st
  ∧ Ruta._imagen st' = Ruta._imagen st
  ∧ ∃ n, Ruta.io_trace st'
         = Ruta.io_trace st ++ (traduccion_pedida <$> take n texts)
         ∧ match res with
           | Ok ts =>
               n = length texts
               ∧ length ts = length texts
               ∧ ∀ i t, texts !! i = Some t →
                   ∃ a, ts !! i = Some a
                        ∧ translate out
                            (Ruta.io_trace st ++ (traduccion_pedida <$> take i texts))
                            t "en" "es" = Ok a
           | Raise e =>
               ∃ i t, n = S i ∧ texts !! i = Some t
                      ∧ translate out
                          (Ruta.io_trace st ++ (traduccion_pedida <$> take i texts))
                          t "en" "es" = Raise e
           end.
Proof.
  intros Hf. revert st res st'.
  induction Hf as [|item t items texts Ht _ IH]; intros st res st' H.
  { injection H as <- <-. split_and!; [done..|]. exists 0. simpl.
    rewrite app_nil_r. split_and!; try done. }
  rewrite mapM_cons_unfold in H.
  assert (Hstep : indicacion out true item st
                  = (translate out (Ruta.io_trace st) t "en" "es",
                     {| Ruta.base := Ruta.base st; Ruta._imagen := Ruta._imagen st;
                        Ruta.io_trace := Ruta.io_trace st ++ [traduccion_pedida t] |})).
  { unfold indicacion. rewrite Ht.
    erewrite bind_Ok by reflexivity. by erewrite bind_Ok by reflexivity. }
  rewrite Hstep in H.
  destruct (translate out (Ruta.io_trace st) t "en" "es") as [a|e] eqn:Ha.
  2:{ injection H as <- <-. simpl. split_and!; [done..|]. exists 1. split; [done|].
      exists 0, t. simpl. by rewrite app_nil_r. }
  destruct (mapM (indicacion out true) items _) as [[ts|e] st2] eqn:Hrest;
    destruct (IH _ _ _ Hrest) as (Hb & Hi & n & Htr & Hres); simpl in *;
    injection H as <- <-.
  - destruct Hres as (-> & Hlen & Hans).
    split_and!; [done..|]. exists (S (length texts)). simpl.
    rewrite Htr, <- app_assoc. split; [done|]. split_and!; [done|by rewrite Hlen|].
    intros [|i] t' Hi'; simpl in *.
    + injection Hi' as <-. exists a. by rewrite app_nil_r.
    + destruct (Hans i t' Hi') as (a' & Ha' & Htr').
      exists a'. split; [done|]. by rewrite <- app_assoc in Htr'.
  - destruct Hres as (i & t' & -> & Hi' & Htr').
    split_and!; [done..|]. exists (S (S i)). simpl.
    rewrite Htr, <- app_assoc. split; [done|].
    exists (S i), t'. simpl. split_and!; [done..|]. by rewrite <- app_assoc in Htr'.
Qed.

(** X16.  With [traducir], [indicaciones_ruta] on a processed route
    whose items all have the text of an instruction asks the translator
    once for each text, in their order, from English to Spanish, and
    returns its answers in that order; when the translator raises, the
    exception is passed on, the texts after it are not sent and the
    answers before it are lost.  Nothing else is called or changed. *)
Theorem indicaciones_ruta_traducidas st r self d items texts res st' :
  Ruta.objects (Ruta.base st) !! r = Some self →
  Ruta._data_procesada self = true →
  Ruta.data self = Some d →
  itinerary_items d = Ok items →
  Forall2 (λ item t, Ruta.instruction_text item = Ok t) items texts →
  Ruta.indicaciones_ruta rt net out r true st = (res, st') →
  Ruta.base st' = Ruta.base st
  ∧ Ruta._imagen st' = Ruta._imagen st
  ∧ ∃ n, Ruta.io_trace st'
         = Ruta.io_trace st ++ (traduccion_pedida <$> take n texts)
         ∧ match res with
           | Ok ts =>
               n = length texts
               ∧ length ts = length texts
               ∧ ∀ i t, texts !! i = Some t →
                   ∃ a, ts !! i = Some a
                        ∧ translate out
                            (Ruta.io_trace st ++ (traduccion_pedida <$> take i texts))
                            t "en" "es" = Ok a
           | Raise e =>
               ∃ i t, n = S i ∧ texts !! i = Some t
                      ∧ translate out
                          (Ruta.io_trace st ++ (traduccion_pedida <$> take i texts))
                          t "en" "es" = Raise e
           end.
Proof.
  intros Hr Hp Hd Hitems Hf.
  rewrite (indicaciones_ruta_procesada _ _ _ _ _ Hr Hp Hd), Hitems.
  by apply mapM_indicacion_traducir.
Qed.

End Instructions.

(** ** The encoding of a coordinate, at its edges *)

Section EncodingEdges.
Context (rt : runtime).

(** X25.  [_tuple_LatLng_to_string] looks at the first two elements
    only: what follows them is ignored, and a tuple or a list of fewer
    than two raises an IndexError.  The latitude is checked first: one
    that is not a number raises a TypeError and one above 90 or below
    -90 the ValueError of the latitude, whatever the longitude is. *)
Theorem tuple_LatLng_to_string_edges :
  (∀ as_list lat lng rest,
     _tuple_LatLng_to_string rt (secuencia as_list (lat :: lng :: rest))
     = _tuple_LatLng_to_string rt (par as_list lat lng))
  ∧ (∀ as_list l, length l < 2 →
       _tuple_LatLng_to_string rt (secuencia as_list l) = Raise IndexError)
  ∧ (∀ as_list lat lng, as_number lat = None →
       _tuple_LatLng_to_string rt (par as_list lat lng) = Raise TypeError)
  ∧ (∀ as_list (lat : number) lng, fuera (-90) 90 (of_number lat) →
       _tuple_LatLng_to_string rt (par as_list (of_number lat) lng)
       = Raise (ValueError "Latitud inválida")).
Proof.
  split_and!.
  - intros as_list lat lng rest. by destruct as_list.
  - intros as_list [|x [|y l]] Hlen; simpl in Hlen; try lia; by destruct as_list.
  - intros as_list lat lng Hn. rewrite tuple_LatLng_to_string_par.
    unfold py_gt, py_compare. by rewrite Hn.
  - intros as_list lat lng Hf. rewrite tuple_LatLng_to_string_par.
    by rewrite (fuera_py_or _ _ _ Hf).
Qed.

End EncodingEdges.

(** ** The images *)

Lemma dict_get_other_keywords names (kwargs : dict) k :
  k ∉ names → dict_get (other_keywords names kwargs) k = dict_get kwargs k.
Proof.
  intros Hk. unfold other_keywords.
  induction kwargs as [|[k' v'] kwargs IH]; [done|].
  rewrite filter_cons. simpl. case_decide as Hin; simpl.
  - destruct (decide (k' = k)); [done|apply IH].
  - rewrite decide_False; [apply IH|]. intros ->. by apply Hk.
Qed.

Section Images.
Context (rt : runtime) (out : io).

(** The three steps, one after the other until one raises. *)
Lemma descarga_trace url file tr res tr' :
  descarga out url file tr = (res, tr') →
  ∃ n, 1 ≤ n ≤ 3
       ∧ tr' = tr ++ take n [Mkdir "images"; Urlretrieve url file; ReadImage file]
       ∧ ∀ i, res = Ok i →
           n = 3
           ∧ filename i = file
           ∧ read_image out (tr ++ [Mkdir "images"; Urlretrieve url file]) file
             = Ok (content i).
Proof.
  unfold descarga, path_mkdir, request_urlretrieve, Image_of_file, mbind, M_bind.
  destruct (mkdir out tr "images") as [[]|e].
  2:{ intros [= <- <-]. exists 1. split_and!; [lia|lia|done|done]. }
  destruct (urlretrieve out _ url file) as [[]|e].
  2:{ intros [= <- <-]. exists 2. rewrite <- app_assoc.
      split_and!; [lia|lia|done|done]. }
  rewrite <- !app_assoc. simpl.
  intros [= <- <-]. exists 3. split_and!; [lia|lia|done|].
  intros i Hi. destruct (read_image out _ file) as [c|e]; [|done].
  simpl in Hi. injection Hi as <-. done.
Qed.

(** The image of a coordinate that can be encoded. *)
Lemma rest_localizacion_imagen_tuple url key u t w h z kwargs tr :
  is_tuple_or_list u = true →
  _tuple_LatLng_to_string rt u = Ok (PyStr t) →
  rest_localizacion_imagen rt out url key u w h z kwargs tr
  = descarga out
      ((url +:+ (("/" +:+ t) +:+ "?"))
       +:+ urlencode rt
             (dict_update
                (dict_update
                   (dict_update
                      (dict_update (dict_update kwargs [("key", key)])
                         [("zoomLevel", z)])
                      [("dpi", PyStr "Large")])
                   [("mapSize", mapSize rt w h)])
                [("pushpin", PyStr (t +:+ ";66"))]))
      (archivo_localizacion t) tr.
Proof.
  intros Hu Ht. unfold rest_localizacion_imagen, descarga.
  unfold _posicion_a_string_url. rewrite Hu, Ht.
  unfold lift, mbind, M_bind, path_mkdir. simpl.
  by destruct (mkdir out tr "images").
Qed.

(** An image method called with good keywords is its body. *)
Lemma MapService_rest_localizacion_imagen_eq self ubicacion kwargs tr :
  keyword_arguments ["self"; "ubicacion"] kwargs = Ok () →
  MapService._rest_localizacion_imagen rt out self ubicacion kwargs tr
  = rest_localizacion_imagen rt out (url_localizacion_imagen self) (api_key self)
      ubicacion
      (keyword_or_default kwargs "width" (PyInt 500))
      (keyword_or_default kwargs "height" (PyInt 500))
      (keyword_or_default kwargs "zoomLevel" (PyInt 16))
      (other_keywords ["width"; "height"; "zoomLevel"] kwargs) tr.
Proof.
  intros Hk.
  destruct self; simpl;
    unfold OpenService._rest_localizacion_imagen, BingService._rest_localizacion_imagen,
      call_rest_localizacion_imagen;
    rewrite Hk; by erewrite bind_Ok by reflexivity.
Qed.

Lemma MapService_rest_localizacion_imagen_TypeError self ubicacion kwargs tr :
  keyword_arguments ["self"; "ubicacion"] kwargs ≠ Ok () →
  MapService._rest_localizacion_imagen rt out self ubicacion kwargs tr
  = (Raise TypeError, tr).
Proof.
  intros Hk.
  assert (Hr : keyword_arguments ["self"; "ubicacion"] kwargs = Raise TypeError).
  { unfold keyword_arguments in *. by case_bool_decide. }
  destruct self; simpl;
    unfold OpenService._rest_localizacion_imagen, BingService._rest_localizacion_imagen,
      call_rest_localizacion_imagen;
    rewrite Hr; by erewrite bind_Raise by reflexivity.
Qed.

(** X17.  The image of a coordinate that can be encoded as [t] is
    asked for in three steps, each made only when the one before
    returned: the directory [images], the download of
    [.../Imagery/Map/Road/t?...] into [images/localizacion(t).png],
    and the image read from that file, which is returned.  The request
    carries the key of the service, [dpi=Large], a pin at [t], and the
    size and the zoom level given among the keywords or else 500 by 500
    and 16, whatever the caller gave under [key], [dpi], [mapSize] and
    [pushpin]; every other keyword is carried as given. *)
Theorem rest_localizacion_imagen_request self ubicacion t kwargs tr res tr' :
  is_tuple_or_list ubicacion = true →
  _tuple_LatLng_to_string rt ubicacion = Ok (PyStr t) →
  keyword_arguments ["self"; "ubicacion"] kwargs = Ok () →
  MapService._rest_localizacion_imagen rt out self ubicacion kwargs tr = (res, tr') →
  ∃ params n,
    let url := (url_localizacion_imagen self +:+ (("/" +:+ t) +:+ "?"))
               +:+ urlencode rt params in
    let file := archivo_localizacion t in
    1 ≤ n ≤ 3
    ∧ tr' = tr ++ take n [Mkdir "images"; Urlretrieve url file; ReadImage file]
    ∧ (∀ i, res = Ok i →
         n = 3 ∧ filename i = file
         ∧ read_image out (tr ++ [Mkdir "images"; Urlretrieve url file]) file
           = Ok (content i))
    ∧ dict_get params "key" = Some (api_key self)
    ∧ dict_get params "zoomLevel"
      = Some (keyword_or_default kwargs "zoomLevel" (PyInt 16))
    ∧ dict_get params "dpi" = Some (PyStr "Large")
    ∧ dict_get params "mapSize"
      = Some (mapSize rt (keyword_or_default kwargs "width" (PyInt 500))
                (keyword_or_default kwargs "height" (PyInt 500)))
    ∧ dict_get params "pushpin" = Some (PyStr (t +:+ ";66"))
    ∧ ∀ k, k ∉ ["key"; "zoomLevel"; "dpi"; "mapSize"; "pushpin"; "width"; "height"] →
        dict_get params k = dict_get kwargs k.
Proof.
  intros Hu Ht Hk H.
  rewrite (MapService_rest_localizacion_imagen_eq _ _ _ _ Hk) in H.
  rewrite (rest_localizacion_imagen_tuple _ _ _ _ _ _ _ _ _ Hu Ht) in H.
  destruct (descarga_trace _ _ _ _ _ H) as (n & Hn & Htr & Hres).
  eexists. exists n. cbv zeta. split_and!; [lia|lia|exact Htr|exact Hres|..].
  - simpl. by rewrite !dict_get_set.
  - simpl. by rewrite !dict_get_set.
  - simpl. by rewrite !dict_get_set.
  - simpl. by rewrite !dict_get_set.
  - simpl. by rewrite !dict_get_set.
  - intros k Hnk. simpl. rewrite !dict_get_set.
    rewrite !not_elem_of_cons in Hnk.
    destruct Hnk as (? & ? & ? & ? & ? & ? & ? & _).
    rewrite !decide_False by done.
    apply dict_get_other_keywords. rewrite !not_elem_of_cons.
    split_and!; try done. apply not_elem_of_nil.
Qed.

(** X18.  A coordinate that cannot be encoded, or keywords that name
    [self] or [ubicacion], make the image method raise before it makes
    the directory or downloads anything; a position that is neither a
    tuple, a list nor a [str] makes it raise a TypeError once the
    directory is made. *)
Theorem rest_localizacion_imagen_raises self ubicacion kwargs tr :
  (∀ e, is_tuple_or_list ubicacion = true →
        _tuple_LatLng_to_string rt ubicacion = Raise e →
        ∃ e', MapService._rest_localizacion_imagen rt out self ubicacion kwargs tr
              = (Raise e', tr))
  ∧ (keyword_arguments ["self"; "ubicacion"] kwargs ≠ Ok () →
     MapService._rest_localizacion_imagen rt out self ubicacion kwargs tr
     = (Raise TypeError, tr))
  ∧ (is_tuple_or_list ubicacion = false → is_str ubicacion = false →
     keyword_arguments ["self"; "ubicacion"] kwargs = Ok () →
     mkdir out tr "images" = Ok () →
     MapService._rest_localizacion_imagen rt out self ubicacion kwargs tr
     = (Raise TypeError, tr ++ [Mkdir "images"])).
Proof.
  split_and!.
  - intros e Hu He.
    destruct (keyword_arguments ["self"; "ubicacion"] kwargs) as [[]|e0] eqn:Hk.
    + rewrite (MapService_rest_localizacion_imagen_eq _ _ _ _ Hk).
      unfold rest_localizacion_imagen. rewrite Hu, He.
      unfold lift, mbind, M_bind. simpl. eauto.
    + rewrite MapService_rest_localizacion_imagen_TypeError; [eauto|].
      by rewrite Hk.
  - apply MapService_rest_localizacion_imagen_TypeError.
  - intros Hu Hs Hk Hm.
    rewrite (MapService_rest_localizacion_imagen_eq _ _ _ _ Hk).
    unfold rest_localizacion_imagen, _posicion_a_string_url. rewrite Hu, Hs.
    assert (Hbranch : ∀ (url : string) (kw : dict),
      match ubicacion with
      | PyStr s => Ok (url +:+ (("/" +:+ s) +:+ "?"), kw)
      | _ => Ok (url, kw)
      end = Ok (url, kw)).
    { intros. by destruct ubicacion. }
    rewrite Hbranch. unfold lift, mbind, M_bind, path_mkdir. simpl.
    rewrite Hm. by destruct ubicacion.
Qed.

End Images.

(** ** The image of a location *)

Section LocationImage.
Context (rt : runtime) (net : network) (out : io).

(** An image method that returned made the directory, downloaded into
    the file named after the position, and read that file. *)
Lemma rest_localizacion_imagen_Ok self ubicacion kwargs tr i tr' :
  MapService._rest_localizacion_imagen rt out self ubicacion kwargs tr = (Ok i, tr') →
  ∃ t url,
    _posicion_a_string_url rt ubicacion = Ok (PyStr t)
    ∧ filename i = archivo_localizacion t
    ∧ tr' = tr ++ [Mkdir "images"; Urlretrieve url (archivo_localizacion t);
                   ReadImage (archivo_localizacion t)].
Proof.
  destruct (keyword_arguments ["self"; "ubicacion"] kwargs) as [[]|e0] eqn:Hk.
  2:{ rewrite MapService_rest_localizacion_imagen_TypeError; [done|by rewrite Hk]. }
  rewrite (MapService_rest_localizacion_imagen_eq _ _ _ _ _ _ Hk).
  unfold rest_localizacion_imagen.
  match goal with
  | |- context [lift ?x] => destruct x as [[url kw]|e] eqn:Hx
  end.
  2:{ by erewrite bind_Raise by reflexivity. }
  erewrite bind_Ok by reflexivity. cbv beta iota.
  destruct (mkdir out tr "images") as [[]|e] eqn:Hm.
  2:{ erewrite bind_Raise; [done|]. unfold path_mkdir. by rewrite Hm. }
  erewrite bind_Ok; [|unfold path_mkdir; by rewrite Hm].
  destruct (_posicion_a_string_url rt ubicacion ≫= as_str) as [t|e] eqn:Hp.
  2:{ by erewrite bind_Raise by reflexivity. }
  erewrite bind_Ok by reflexivity.
  unfold request_urlretrieve, Image_of_file, mbind, M_bind.
  destruct (urlretrieve out _ _ _) as [[]|e]; [|done].
  rewrite <- !app_assoc. simpl.
  destruct (read_image out _ _) as [c|e]; [|done]. simpl.
  intros [= <- <-]. exists t. eexists. split_and!; [|done|done].
  destruct (_posicion_a_string_url rt ubicacion) as [[]|]; simpl in Hp; try done.
  by injection Hp as ->.
Qed.

Lemma Localizacion_with_base_eq {A} (m : M Localizacion.state A) st r w :
  m (Localizacion.base st) = (r, w) →
  Localizacion.with_base m st
  = (r, {| Localizacion.base := w; Localizacion._imagen := Localizacion._imagen st;
           Localizacion.io_trace := Localizacion.io_trace st |}).
Proof. intros H. unfold Localizacion.with_base. by rewrite H. Qed.

Lemma Localizacion_with_base_same {A} (m : M Localizacion.state A) st r :
  m (Localizacion.base st) = (r, Localizacion.base st) →
  Localizacion.with_base m st = (r, st).
Proof. intros H. rewrite (Localizacion_with_base_eq _ _ _ _ H). by destruct st. Qed.

(** The accessor of the coordinate on a processed location. *)
Lemma obtener_latlng_procesada w l o :
  Localizacion.objects w !! l = Some o →
  Localizacion._data_procesada o = true →
  ∃ res, Localizacion.obtener_latlng rt net l w = (res, w)
         ∧ ∀ c, res = Ok c → coordenada o = Some c.
Proof.
  intros Ho Hp. rewrite (obtener_latlng_unfold _ _ _ _ _ Ho), Hp.
  unfold coordenada. rewrite Hp.
  destruct (Localizacion._latlng_recibido o).
  - eexists. split; [done|]. by intros c [= <-].
  - eexists. split; [done|]. intros c Hc.
    destruct (Localizacion.data o) as [d|]; [|done].
    fold (coordinates_of d). by rewrite Hc.
Qed.

(** [obtener_imagen] on a location that has its image. *)
Lemma Localizacion_obtener_imagen_done st l o kwargs :
  Localizacion.objects (Localizacion.base st) !! l = Some o →
  Localizacion._imagen_procesada o = true →
  Localizacion.obtener_imagen rt net out l kwargs st
  = (match Localizacion._imagen st !! l with
     | Some i => Ok i
     | None => Raise AttributeError
     end, st).
Proof.
  intros Ho Hi. unfold Localizacion.obtener_imagen.
  rewrite (bind_Ok _ _ _ _ _
             (Localizacion_with_base_same _ _ _ (Localizacion_load_Some _ _ _ Ho))).
  by rewrite Hi.
Qed.

(** [obtener_imagen] on a processed location without an image. *)
Lemma Localizacion_obtener_imagen_procesada st l o kwargs :
  Localizacion.objects (Localizacion.base st) !! l = Some o →
  Localizacion._imagen_procesada o = false →
  Localizacion._data_procesada o = true →
  Localizacion.obtener_imagen rt net out l kwargs st
  = match Localizacion.obtener_latlng rt net l (Localizacion.base st) with
    | (Raise e, _) => (Raise e, st)
    | (Ok latlng, _) =>
        match MapService._rest_localizacion_imagen rt out (Localizacion._map_service o)
                latlng kwargs (Localizacion.io_trace st) with
        | (Ok i, tr) =>
            (Ok i,
             {| Localizacion.base :=
                  {| Localizacion.trace := Localizacion.trace (Localizacion.base st);
                     Localizacion.objects :=
                       <[l := Localizacion.set_imagen_procesada o]>
                         (Localizacion.objects (Localizacion.base st)) |};
                Localizacion._imagen := <[l := i]> (Localizacion._imagen st);
                Localizacion.io_trace := tr |})
        | (Raise _, tr) =>
            (Raise ResolutionFailed,
             {| Localizacion.base := Localizacion.base st;
                Localizacion._imagen := Localizacion._imagen st;
                Localizacion.io_trace := tr |})
        end
    end.
Proof.
  intros Ho Hi Hp. unfold Localizacion.obtener_imagen.
  rewrite (bind_Ok _ _ _ _ _
             (Localizacion_with_base_same _ _ _ (Localizacion_load_Some _ _ _ Ho))).
  rewrite Hi, Hp. simpl. erewrite bind_Ok by reflexivity.
  destruct (obtener_latlng_procesada _ _ _ Ho Hp) as (res & Hres & _).
  rewrite Hres. destruct res as [latlng|e].
  2:{ by rewrite (bind_Raise _ _ _ _ _ (Localizacion_with_base_same _ _ _ Hres)). }
  rewrite (bind_Ok _ _ _ _ _ (Localizacion_with_base_same _ _ _ Hres)).
  unfold try_except, Localizacion.with_io, Localizacion.set_imagen,
    Localizacion.with_base, Localizacion.modify, Localizacion.get_imagen,
    raise, mbind, M_bind.
  destruct (MapService._rest_localizacion_imagen _ _ _ _ _ _) as [[i|e] tr]; [|done].
  simpl. rewrite Ho. simpl. by rewrite lookup_insert_eq.
Qed.

(** [obtener_imagen] on a location that is not processed begins with
    [procesar]. *)
Lemma Localizacion_obtener_imagen_sin_procesar st l o kwargs :
  Localizacion.objects (Localizacion.base st) !! l = Some o →
  Localizacion._imagen_procesada o = false →
  Localizacion._data_procesada o = false →
  Localizacion.obtener_imagen rt net out l kwargs st
  = match Localizacion.procesar rt net l (Localizacion.base st) with
    | (Raise e, w) =>
        (Raise e, {| Localizacion.base := w;
                     Localizacion._imagen := Localizacion._imagen st;
                     Localizacion.io_trace := Localizacion.io_trace st |})
    | (Ok _, w) =>
        Localizacion.obtener_imagen rt net out l kwargs
          {| Localizacion.base := w;
             Localizacion._imagen := Localizacion._imagen st;
             Localizacion.io_trace := Localizacion.io_trace st |}
    end.
Proof.
  intros Ho Hi Hp.
  destruct (Localizacion.procesar rt net l (Localizacion.base st)) as [[d|e] w] eqn:Hproc.
  - destruct (Localizacion_procesar_Ok _ _ _ _ _ _ Hproc) as (o1 & Ho1 & _ & Hobj).
    assert (o1 = o) as -> by congruence.
    assert (Hl : Localizacion.objects w !! l = Some (Localizacion.set_data d o)).
    { rewrite Hobj. apply lookup_insert_eq. }
    set (st1 := {| Localizacion.base := w;
                   Localizacion._imagen := Localizacion._imagen st;
                   Localizacion.io_trace := Localizacion.io_trace st |}).
    unfold Localizacion.obtener_imagen at 2.
    rewrite (bind_Ok _ _ _ _ _
               (Localizacion_with_base_same _ st1 _ (Localizacion_load_Some _ _ _ Hl))).
    simpl. rewrite Hi. erewrite (bind_Ok (mret ())) by reflexivity.
    unfold Localizacion.obtener_imagen.
    rewrite (bind_Ok _ _ _ _ _
               (Localizacion_with_base_same _ _ _ (Localizacion_load_Some _ _ _ Ho))).
    rewrite Hi, Hp. simpl.
    erewrite bind_Ok; [done|].
    by rewrite (bind_Ok _ _ _ _ _ (Localizacion_with_base_eq _ _ _ _ Hproc)).
  - unfold Localizacion.obtener_imagen.
    rewrite (bind_Ok _ _ _ _ _
               (Localizacion_with_base_same _ _ _ (Localizacion_load_Some _ _ _ Ho))).
    rewrite Hi, Hp. simpl.
    erewrite bind_Raise; [done|].
    by rewrite (bind_Raise _ _ _ _ _ (Localizacion_with_base_eq _ _ _ _ Hproc)).
Qed.

Lemma coordenada_set_imagen_procesada o :
  coordenada (Localizacion.set_imagen_procesada o) = coordenada o.
Proof. done. Qed.

(** What an [obtener_imagen] that returned has done. *)
Lemma Localizacion_obtener_imagen_Ok st l kwargs i st' :
  Localizacion.obtener_imagen rt net out l kwargs st = (Ok i, st') →
  ∃ o', Localizacion.objects (Localizacion.base st') !! l = Some o'
        ∧ Localizacion._imagen_procesada o' = true
        ∧ Localizacion._imagen st' !! l = Some i
        ∧ (st' = st
           ∨ ∃ c t url,
               Localizacion._data_procesada o' = true
               ∧ coordenada o' = Some c
               ∧ _posicion_a_string_url rt c = Ok (PyStr t)
               ∧ filename i = archivo_localizacion t
               ∧ Localizacion.io_trace st'
                 = Localizacion.io_trace st
                   ++ [Mkdir "images"; Urlretrieve url (archivo_localizacion t);
                       ReadImage (archivo_localizacion t)]
               ∧ ∀ l0, l0 ≠ l →
                   Localizacion.objects (Localizacion.base st') !! l0
                   = Localizacion.objects (Localizacion.base st) !! l0).
Proof.
  assert (Hcase : ∀ st o,
    Localizacion.objects (Localizacion.base st) !! l = Some o →
    Localizacion._imagen_procesada o = false →
    Localizacion._data_procesada o = true →
    Localizacion.obtener_imagen rt net out l kwargs st = (Ok i, st') →
    ∃ o', Localizacion.objects (Localizacion.base st') !! l = Some o'
          ∧ Localizacion._imagen_procesada o' = true
          ∧ Localizacion._imagen st' !! l = Some i
          ∧ ∃ c t url,
              Localizacion._data_procesada o' = true
              ∧ coordenada o' = Some c
              ∧ _posicion_a_string_url rt c = Ok (PyStr t)
              ∧ filename i = archivo_localizacion t
              ∧ Localizacion.io_trace st'
                = Localizacion.io_trace st
                  ++ [Mkdir "images"; Urlretrieve url (archivo_localizacion t);
                      ReadImage (archivo_localizacion t)]
              ∧ Localizacion.trace (Localizacion.base st')
                = Localizacion.trace (Localizacion.base st)
              ∧ ∀ l0, l0 ≠ l →
                  Localizacion.objects (Localizacion.base st') !! l0
                  = Localizacion.objects (Localizacion.base st) !! l0).
  { clear st. intros st o Ho Hi Hp H.
    rewrite (Localizacion_obtener_imagen_procesada _ _ _ _ Ho Hi Hp) in H.
    destruct (obtener_latlng_procesada _ _ _ Ho Hp) as (res & Hres & Hco).
    rewrite Hres in H. destruct res as [c|e]; [|done].
    destruct (MapService._rest_localizacion_imagen _ _ _ _ _ _) as [[i'|e] tr] eqn:Himg;
      [|done].
    injection H as -> <-. simpl.
    destruct (rest_localizacion_imagen_Ok _ _ _ _ _ _ Himg) as (t & url & Ht & Hf & ->).
    exists (Localizacion.set_imagen_procesada o).
    rewrite !lookup_insert_eq. split_and!; try done.
    exists c, t, url. split_and!; try done.
    - by apply Hco.
    - intros l0 Hne. by rewrite lookup_insert_ne. }
  intros H.
  destruct (Localizacion.objects (Localizacion.base st) !! l) as [o|] eqn:Ho.
  2:{ unfold Localizacion.obtener_imagen, Localizacion.with_base, Localizacion.load,
        mbind, M_bind in H. by rewrite Ho in H. }
  destruct (Localizacion._imagen_procesada o) eqn:Hi.
  { rewrite (Localizacion_obtener_imagen_done _ _ _ _ Ho Hi) in H.
    destruct (Localizacion._imagen st !! l) as [i'|] eqn:Him; [|done].
    injection H as -> <-. exists o. split_and!; try done. by left. }
  destruct (Localizacion._data_procesada o) eqn:Hp.
  { destruct (Hcase st o Ho Hi Hp H) as (o' & H1 & H2 & H3 & c & t & url & H4).
    exists o'. split_and!; try done. right. exists c, t, url.
    destruct H4 as (? & ? & ? & ? & ? & ? & ?). by split_and!. }
  rewrite (Localizacion_obtener_imagen_sin_procesar _ _ _ _ Ho Hi Hp) in H.
  destruct (Localizacion.procesar rt net l (Localizacion.base st)) as [[d|e] w] eqn:Hproc;
    [|done].
  destruct (Localizacion_procesar_Ok _ _ _ _ _ _ Hproc) as (o1 & Ho1 & _ & Hobj).
  assert (o1 = o) as -> by congruence.
  assert (Hl : Localizacion.objects w !! l = Some (Localizacion.set_data d o)).
  { rewrite Hobj. apply lookup_insert_eq. }
  destruct (Hcase {| Localizacion.base := w;
                      Localizacion._imagen := Localizacion._imagen st;
                      Localizacion.io_trace := Localizacion.io_trace st |}
              _ Hl Hi eq_refl H) as (o' & H1 & H2 & H3 & c & t & url & H4).
  exists o'. split_and!; try done. right. exists c, t, url.
  destruct H4 as (? & ? & ? & ? & Hio & _ & Hframe). simpl in *. split_and!; try done.
  intros l0 Hne. rewrite (Hframe l0 Hne), Hobj. by apply lookup_insert_ne.
Qed.



(** X21.  A [Localizacion.obtener_imagen] that returned on a location
    without an image left it processed and marked as having its image,
    which is the one returned; the image was asked for the coordinate
    [c] that the location holds, never for its address: the directory
    was made, the download went into [images/localizacion(t).png] for
    the encoding [t] of [c], and that file was read.  No other location
    was touched. *)
Theorem Localizacion_obtener_imagen_request st l o kwargs i st' :
  Localizacion.objects (Localizacion.base st) !! l = Some o →
  Localizacion._imagen_procesada o = false →
  Localizacion.obtener_imagen rt net out l kwargs st = (Ok i, st') →
  ∃ o' c t url,
    Localizacion.objects (Localizacion.base st') !! l = Some o'
    ∧ Localizacion._imagen_procesada o' = true
    ∧ Localizacion._data_procesada o' = true
    ∧ Localizacion._imagen st' !! l = Some i
    ∧ coordenada o' = Some c
    ∧ _posicion_a_string_url rt c = Ok (PyStr t)
    ∧ filename i = archivo_localizacion t
    ∧ Localizacion.io_trace st'
      = Localizacion.io_trace st
        ++ [Mkdir "images"; Urlretrieve url (archivo_localizacion t);
            ReadImage (archivo_localizacion t)]
    ∧ ∀ l0, l0 ≠ l →
        Localizacion.objects (Localizacion.base st') !! l0
        = Localizacion.objects (Localizacion.base st) !! l0.
Proof.
  intros Ho Hi H.
  destruct (Localizacion_obtener_imagen_Ok _ _ _ _ _ H)
    as (o' & Ho' & Hi' & Him & [->|(c & t & url & Hrest)]).
  { congruence. }
  destruct Hrest as (? & ? & ? & ? & ? & ?).
  exists o', c, t, url. by split_and!.
Qed.

End LocationImage.

(** ** The image of a route *)

Lemma keyword_arguments_other_keywords bound names kwargs :
  keyword_arguments bound kwargs = Ok () →
  keyword_arguments bound (other_keywords names kwargs) = Ok ().
Proof.
  unfold keyword_arguments. case_bool_decide as H1; [done|]. intros _.
  rewrite bool_decide_eq_false_2; [done|]. intros H2. apply H1.
  apply Exists_exists in H2 as (k & Hk & Hb). apply Exists_exists. exists k.
  split; [|done]. unfold dict_keys, other_keywords in *.
  apply list_elem_of_fmap in Hk as (kv & -> & Hkv).
  apply list_elem_of_fmap. exists kv. split; [done|].
  by apply list_elem_of_filter in Hkv as [_ ?].
Qed.

Section RouteImageService.
Context (rt : runtime) (out : io).

Lemma MapService_rest_ruta_imagen_eq self inicio final via kwargs tr :
  keyword_arguments ["self"; "inicio"; "final"; "via"] kwargs = Ok () →
  MapService._rest_ruta_imagen rt out self inicio final via kwargs tr
  = rest_ruta_imagen rt out (url_rutas_imagen self) (api_key self) inicio final via
      (keyword_or_default kwargs "width" (PyInt 500))
      (keyword_or_default kwargs "height" (PyInt 500))
      (other_keywords ["width"; "height"] kwargs) tr.
Proof.
  intros Hk.
  destruct self; simpl;
    unfold OpenService._rest_ruta_imagen, BingService._rest_ruta_imagen,
      call_rest_ruta_imagen;
    rewrite Hk; by erewrite bind_Ok by reflexivity.
Qed.


(** The image of a route whose stops can be encoded, and whose start
    and end are encoded as strings. *)
Lemma rest_ruta_imagen_paradas url key inicio final via w h kwargs tr paradas ti tf :
  paradas_de rt inicio final via = Ok paradas →
  _posicion_a_string_url rt inicio = Ok (PyStr ti) →
  _posicion_a_string_url rt final = Ok (PyStr tf) →
  rest_ruta_imagen rt out url key inicio final via w h kwargs tr
  = descarga out
      ((url +:+ "?")
       +:+ urlencode rt
             (dict_update
                (dict_update
                   (dict_update (dict_update kwargs (viajes_de paradas))
                      [("key", key)])
                   [("mapSize", mapSize rt w h)])
                [("dpi", PyStr "Large")]))
      (archivo_ruta ti tf) tr.
Proof.
  intros Hp Hi Hf. unfold rest_ruta_imagen, descarga. rewrite Hp, Hi, Hf.
  unfold lift, mbind, M_bind, path_mkdir. simpl.
  by destruct (mkdir out tr "images").
Qed.


(** X22.  The image of a route is asked with the parameters of the
    request for the route, the stops and the key among them, to which
    [mapSize] and [dpi=Large] are added, whatever the caller gave under
    these two: the download goes from [.../Imagery/Map/Road/Routes/
    Driving?...] into [images/Ruta(start)(end).png]. *)
Theorem rest_ruta_imagen_request self inicio final via kwargs paradas ti tf :
  keyword_arguments ["self"; "inicio"; "final"; "via"] kwargs = Ok () →
  paradas_de rt inicio final via = Ok paradas →
  _posicion_a_string_url rt inicio = Ok (PyStr ti) →
  _posicion_a_string_url rt final = Ok (PyStr tf) →
  ∃ ruta params,
    (∀ net tr,
       (MapService._rest_ruta rt net self inicio final via
          (other_keywords ["width"; "height"] kwargs) tr).2
       = tr ++ [Fetch ((url_rutas self +:+ "?") +:+ urlencode rt ruta)])
    ∧ (∀ tr,
         MapService._rest_ruta_imagen rt out self inicio final via kwargs tr
         = descarga out ((url_rutas_imagen self +:+ "?") +:+ urlencode rt params)
             (archivo_ruta ti tf) tr)
    ∧ dict_keys ruta `prefix_of` dict_keys params
    ∧ dict_get params "mapSize"
      = Some (mapSize rt (keyword_or_default kwargs "width" (PyInt 500))
                (keyword_or_default kwargs "height" (PyInt 500)))
    ∧ dict_get params "dpi" = Some (PyStr "Large")
    ∧ ∀ k, k ≠ "mapSize" → k ≠ "dpi" → dict_get params k = dict_get ruta k.
Proof.
  intros Hk Hp Hi Hf.
  exists (dict_update
            (dict_update (other_keywords ["width"; "height"] kwargs) (viajes_de paradas))
            [("key", api_key self)]).
  eexists. split_and!.
  - intros net tr. rewrite MapService_rest_ruta_eq.
    unfold rest_ruta, lift, _json_from_url, mbind, M_bind.
    rewrite (keyword_arguments_other_keywords _ _ _ Hk), Hp.
    by destruct (fetch_json net tr _).
  - intros tr. rewrite (MapService_rest_ruta_imagen_eq _ _ _ _ _ _ Hk).
    by apply rest_ruta_imagen_paradas.
  - etrans; [|apply dict_keys_update_prefix]. apply dict_keys_update_prefix.
  - simpl. rewrite !dict_get_set. by rewrite decide_False.
  - simpl. by rewrite !dict_get_set.
  - intros k H1 H2. simpl. rewrite !dict_get_set.
    by rewrite (decide_False (P := "dpi" = k)), (decide_False (P := "mapSize" = k)).
Qed.

End RouteImageService.

Section RouteImage.
Context (rt : runtime) (net : network) (out : io).








End RouteImage.

(** ** The further facts at work on the scenarios *)

Lemma empty_world_bien_formado : mundo_bien_formado empty_world.
Proof. intros l o H. simpl in H. by rewrite lookup_empty in H. Qed.

Lemma bogota_world_bien_formado : mundo_bien_formado bogota_world.
Proof.
  eapply new_bien_formado; [apply empty_world_bien_formado|].
  apply run_value.
Qed.

(** X4 on the location of Bogotá, once its coordinate was asked. *)
Lemma Localizacion_bien_formada_witness :
  mundo_bien_formado (run (Localizacion.obtener_latlng python steady 0) bogota_world).
Proof.
  destruct (Localizacion_bien_formada python steady) as (_ & Hnew & Hmethods).
  apply Hmethods. apply Hnew. apply empty_world_bien_formado.
Defined.

(** X5 on the location of Bogotá when the service is down. *)
Lemma procesar_raises_witness :
  ∃ e, value (Localizacion.procesar python flaky 0) bogota_world = Raise e
       ∧ (e = AlreadyResolved
          ∨ e = ValueError "No es necesario procesar la ubicación"
          ∨ e = ResolutionFailed).
Proof.
  exists ResolutionFailed. split; [vm_compute; reflexivity|].
  refine (proj2 (proj1 (procesar_raises python flaky) 0 bogota_world _
                   (run (Localizacion.procesar python flaky 0) bogota_world) _ _) _).
  - vm_compute. eauto.
  - vm_compute. reflexivity.
  - apply bogota_world_bien_formado.
Defined.

(** X7 on a caller that gives a key of its own and one more
    parameter. *)
Lemma rest_ruta_parametros_witness :
  ∃ params,
    (MapService._rest_ruta python route_network bing
       (PyTuple [PyFloat 4.6; PyFloat (-74.1)]) (PyStr "Bogotá, Colombia") []
       [("key", PyStr "MINE"); ("optimize", PyStr "time")] []).2
    = [Fetch ((url_rutas bing +:+ "?") +:+ urlencode python params)]
    ∧ dict_get params "key" = Some (PyStr "KEY")
    ∧ dict_get params "optimize" = Some (PyStr "time")
    ∧ dict_get params "wayPoint.1" = Some (PyStr "4.6,-74.1").
Proof.
  destruct (rest_ruta_parametros python route_network bing
              (PyTuple [PyFloat 4.6; PyFloat (-74.1)]) (PyStr "Bogotá, Colombia") []
              [("key", PyStr "MINE"); ("optimize", PyStr "time")] [] route_data
              (MapService._rest_ruta python route_network bing
                 (PyTuple [PyFloat 4.6; PyFloat (-74.1)]) (PyStr "Bogotá, Colombia") []
                 [("key", PyStr "MINE"); ("optimize", PyStr "time")] []).2)
    as (paradas & params & Hp & Htr & _ & Hkey & Hviajes & Hother).
  { vm_compute. reflexivity. }
  vm_compute in Hp. injection Hp as <-.
  exists params. split_and!.
  - exact Htr.
  - exact Hkey.
  - rewrite (Hother "optimize"); [reflexivity|discriminate|reflexivity].
  - apply Hviajes. reflexivity.
Defined.

(** X8 on the direct route: the distance in metres after the distance
    in kilometres was asked. *)
Lemma distancia_ruta_bing_kilometros_memo_witness :
  Ruta.distancia_ruta_bing_metros python route_network 0
    (run (Ruta.distancia_ruta_bing_kilometros python route_network 0) direct_route)
  = (Ok (PyFloat 15200),
     run (Ruta.distancia_ruta_bing_kilometros python route_network 0) direct_route).
Proof.
  refine (proj1 (proj2 (distancia_ruta_bing_kilometros_memo python route_network 0
                          direct_route (PyFloat 15.2) _ _))).
  vm_compute. reflexivity.
Defined.

(** X9 on the location of Bogotá, made from its address. *)
Lemma accessors_after_procesar_witness :
  Localizacion.obtener_latlng python steady 0
    (run (Localizacion.procesar python steady 0) bogota_world)
  = (Ok (PyTuple [PyFloat 4.60971; PyFloat (-74.08175)]),
     run (Localizacion.procesar python steady 0) bogota_world)
  ∧ Localizacion.obtener_direccion python steady 0
      (run (Localizacion.procesar python steady 0) bogota_world)
    = (Ok (PyStr "Bogotá, Colombia"),
       run (Localizacion.procesar python steady 0) bogota_world).
Proof.
  destruct (accessors_after_procesar python steady 0 bogota_world bogota_data
              (run (Localizacion.procesar python steady 0) bogota_world))
    as (o & Ho & Hl & Hd).
  { vm_compute. reflexivity. }
  vm_compute in Ho. injection Ho as <-. split; [exact Hl|exact Hd].
Defined.

(** X10 on a location made from a coordinate alone. *)
Lemma obtener_direccion_memo_witness :
  Localizacion.obtener_direccion python steady 0
    (run (Localizacion.obtener_direccion python steady 0) punto_world)
  = (Ok (PyStr "Bogotá, Colombia"),
     run (Localizacion.obtener_direccion python steady 0) punto_world).
Proof.
  apply (obtener_direccion_memo python steady punto_world).
  vm_compute. reflexivity.
Defined.

(** X11 when the geocoder is down: the other service is not asked. *)
Lemma OpenService_rest_localizacion_calls_witness :
  OpenService._rest_localizacion python geocoder_down open_service
    (PyStr "Bogotá, Colombia") [] []
  = (Raise (External "GeocoderTimedOut"), [Geocode "agent" "Bogotá, Colombia"]).
Proof.
  pose proof (OpenService_rest_localizacion_calls python geocoder_down open_service
                (PyStr "Bogotá, Colombia") [] [] (or_introl eq_refl) eq_refl) as H.
  cbv zeta in H.
  destruct (OpenService._rest_localizacion python geocoder_down open_service
              (PyStr "Bogotá, Colombia") [] []) as [res tr'].
  change (geocoder_answer geocoder_down open_service [] (PyStr "Bogotá, Colombia"))
    with (@Raise (option Location) (External "GeocoderTimedOut")) in H.
  destruct H as [-> ->]. reflexivity.
Defined.

Lemma ambos_hecha_con_ambos :
  ∃ o, localizaciones ambos_route !! 0 = Some o ∧ hecha_con_ambos o.
Proof.
  eexists. split; [vm_compute; reflexivity|].
  exists bing, (PyTuple [PyFloat 4.6; PyFloat (-74.1)]), (PyStr "Bogotá, Colombia"), [].
  split_and!; [done|done|reflexivity].
Qed.

(** X12 on a route whose start was made with both a coordinate and an
    address. *)
Lemma Ruta_procesar_extremo_None_witness :
  ∃ params,
    last (llamadas (run (Ruta.procesar python route_network 0) ambos_route))
    = Some (Fetch ((url_rutas bing +:+ "?") +:+ urlencode python params))
    ∧ dict_get params "wayPoint.1" = Some PyNone.
Proof.
  destruct (Ruta_procesar_extremo_None python route_network ambos_route 0
              (Ruta.__init__ bing 0 1 [] []) route_data
              (run (Ruta.procesar python route_network 0) ambos_route))
    as (params & Htr & Hinicio & _).
  - vm_compute. reflexivity.
  - reflexivity.
  - vm_compute. reflexivity.
  - exists params. split; [exact Htr|].
    destruct ambos_hecha_con_ambos as (o & Ho & Hamb). by apply (Hinicio o).
Defined.

Example ambos_route_request :
  llamadas (run (Ruta.procesar python route_network 0) ambos_route)
  = [Fetch "http://dev.virtualearth.net/REST/v1/Routes/Driving?wayPoint.1=None&wayPoint.2=4.7%2C-74.0&key=KEY"].
Proof. vm_compute. reflexivity. Qed.

(** X13 on the direct route. *)
Lemma distancia_geodesica_kilometros_at_hand_witness :
  Ruta.distancia_geodesica_kilometros python route_network echo 0 direct_route
  = (Ok (PyList [PyTuple [PyFloat 4.6; PyFloat (-74.1)];
                 PyTuple [PyFloat 4.7; PyFloat (-74.0)]]),
     direct_route).
Proof.
  refine (distancia_geodesica_kilometros_at_hand python route_network echo direct_route 0
            (Ruta.__init__ bing 0 1 [] []) _ _
            (PyTuple [PyFloat 4.6; PyFloat (-74.1)])
            (PyTuple [PyFloat 4.7; PyFloat (-74.0)]) _ _ _ _ _);
    vm_compute; reflexivity.
Defined.

(** X14 on the round trip, whose start was made from an address: the
    start is looked up, and the route is as it was. *)
Lemma distancia_geodesica_kilometros_effect_witness :
  Ruta.objects
    (run (Ruta.distancia_geodesica_kilometros python round_trip_network echo 0) round_trip)
  = Ruta.objects round_trip
  ∧ Localizacion._data_procesada
      <$> localizaciones
            (run (Ruta.distancia_geodesica_kilometros python round_trip_network echo 0)
               round_trip) !! 0
    = Some true.
Proof.
  split.
  - refine (proj1 (distancia_geodesica_kilometros_effect python round_trip_network echo
                     round_trip 0 (Ruta.__init__ bing 0 1 [0] []) _ _ _ (run_value _ _))).
    vm_compute. reflexivity.
  - vm_compute. reflexivity.
Defined.

(** X15 on the route of two instructions. *)
Lemma indicaciones_ruta_textos_witness :
  Ruta.indicaciones_ruta python guide_network calm 0 false
    (rutas_sin_imagenes guided_route)
  = (Ok [PyStr "Head north"; PyStr "Turn left"], rutas_sin_imagenes guided_route).
Proof.
  refine (indicaciones_ruta_textos python guide_network calm
            (rutas_sin_imagenes guided_route) 0
            (Ruta.set_data guide (Ruta.__init__ bing 0 1 [] [])) guide _ _ _).
  - vm_compute. reflexivity.
  - reflexivity.
  - reflexivity.
Defined.

(** X16 on the route of two instructions. *)
Lemma indicaciones_ruta_traducidas_witness :
  Ruta.io_trace
    (run (Ruta.indicaciones_ruta python guide_network calm 0 true)
       (rutas_sin_imagenes guided_route))
  = [Translate (PyStr "Head north") "en" "es"; Translate (PyStr "Turn left") "en" "es"]
  ∧ value (Ruta.indicaciones_ruta python guide_network calm 0 true)
      (rutas_sin_imagenes guided_route)
    = Ok [PyStr "es: Head north"; PyStr "es: Turn left"].
Proof.
  destruct (indicaciones_ruta_traducidas python guide_network calm
              (rutas_sin_imagenes guided_route) 0
              (Ruta.set_data guide (Ruta.__init__ bing 0 1 [] [])) guide
              [PyDict [("instruction", PyDict [("text", PyStr "Head north")])];
               PyDict [("instruction", PyDict [("text", PyStr "Turn left")])]]
              [PyStr "Head north"; PyStr "Turn left"]
              (Ok [PyStr "es: Head north"; PyStr "es: Turn left"])
              (run (Ruta.indicaciones_ruta python guide_network calm 0 true)
                 (rutas_sin_imagenes guided_route)))
    as (_ & _ & n & Htr & -> & _).
  - vm_compute. reflexivity.
  - reflexivity.
  - reflexivity.
  - reflexivity.
  - repeat constructor.
  - vm_compute. reflexivity.
  - split; [exact Htr|]. vm_compute. reflexivity.
Defined.

(** X17 on a coordinate of Bogotá, for a caller that gives a zoom
    level and a [dpi] of its own. *)
Lemma rest_localizacion_imagen_request_witness :
  ∃ params,
    (MapService._rest_localizacion_imagen python calm bing
       (PyTuple [PyFloat 4.6; PyFloat (-74.1)])
       [("zoomLevel", PyInt 12); ("dpi", PyStr "Small")] []).2
    = [Mkdir "images";
       Urlretrieve ((url_localizacion_imagen bing +:+ (("/" +:+ "4.6,-74.1") +:+ "?"))
                    +:+ urlencode python params)
         "images/localizacion(4.6,-74.1).png";
       ReadImage "images/localizacion(4.6,-74.1).png"]
    ∧ dict_get params "zoomLevel" = Some (PyInt 12)
    ∧ dict_get params "dpi" = Some (PyStr "Large")
    ∧ dict_get params "mapSize" = Some (PyStr "500,500")
    ∧ dict_get params "pushpin" = Some (PyStr "4.6,-74.1;66").
Proof.
  destruct (rest_localizacion_imagen_request python calm bing
              (PyTuple [PyFloat 4.6; PyFloat (-74.1)]) "4.6,-74.1"
              [("zoomLevel", PyInt 12); ("dpi", PyStr "Small")] []
              (Ok {| filename := "images/localizacion(4.6,-74.1).png";
                     content := "PNG images/localizacion(4.6,-74.1).png" |})
              (MapService._rest_localizacion_imagen python calm bing
                 (PyTuple [PyFloat 4.6; PyFloat (-74.1)])
                 [("zoomLevel", PyInt 12); ("dpi", PyStr "Small")] []).2)
    as (params & n & _ & Htr & Hres & _ & Hzoom & Hdpi & Hsize & Hpin & _).
  - reflexivity.
  - vm_compute. reflexivity.
  - reflexivity.
  - vm_compute. reflexivity.
  - destruct (Hres _ eq_refl) as (-> & _). exists params.
    split_and!; [exact Htr|exact Hzoom|exact Hdpi|exact Hsize|exact Hpin].
Defined.

(** X18 on a latitude above 90: nothing is made or downloaded. *)
Lemma rest_localizacion_imagen_raises_witness :
  ∃ e, MapService._rest_localizacion_imagen python calm bing
         (PyTuple [PyFloat 95; PyInt 0]) [] []
       = (Raise e, []).
Proof.
  apply (proj1 (rest_localizacion_imagen_raises python calm bing
                  (PyTuple [PyFloat 95; PyInt 0]) [] [])
           (ValueError "Latitud inválida")).
  - reflexivity.
  - vm_compute. reflexivity.
Defined.



(** X21 on the location of Bogotá, made from its address: the image
    is that of the coordinate found. *)
Lemma Localizacion_obtener_imagen_request_witness :
  ∃ url,
    Localizacion.io_trace
      (run (Localizacion.obtener_imagen python steady calm 0 [])
         (sin_imagenes bogota_world))
    = [Mkdir "images";
       Urlretrieve url "images/localizacion(4.60971,-74.08175).png";
       ReadImage "images/localizacion(4.60971,-74.08175).png"].
Proof.
  destruct (Localizacion_obtener_imagen_request python steady calm
              (sin_imagenes bogota_world) 0
              (default bare_location (Localizacion.objects bogota_world !! 0)) []
              {| filename := "images/localizacion(4.60971,-74.08175).png";
                 content := "PNG images/localizacion(4.60971,-74.08175).png" |}
              (run (Localizacion.obtener_imagen python steady calm 0 [])
                 (sin_imagenes bogota_world)))
    as (o' & c & t & url & Ho' & _ & _ & _ & Hc & Ht & _ & Hio & _).
  - vm_compute. reflexivity.
  - reflexivity.
  - vm_compute. reflexivity.
  - vm_compute in Ho'. injection Ho' as <-.
    vm_compute in Hc. injection Hc as <-.
    vm_compute in Ht. injection Ht as <-.
    exists url. exact Hio.
Defined.

(** X22 on a route from a coordinate to an address, for a caller that
    gives a width. *)
Lemma rest_ruta_imagen_request_witness :
  ∃ params,
    (MapService._rest_ruta_imagen python calm bing
       (PyTuple [PyFloat 4.6; PyFloat (-74.1)]) (PyStr "Bogotá, Colombia") []
       [("width", PyInt 300)] []).2
    = [Mkdir "images";
       Urlretrieve ((url_rutas_imagen bing +:+ "?") +:+ urlencode python params)
         "images/Ruta(4.6,-74.1)(Bogotá, Colombia).png";
       ReadImage "images/Ruta(4.6,-74.1)(Bogotá, Colombia).png"]
    ∧ dict_get params "mapSize" = Some (PyStr "300,500")
    ∧ dict_get params "dpi" = Some (PyStr "Large").
Proof.
  destruct (rest_ruta_imagen_request python calm bing
              (PyTuple [PyFloat 4.6; PyFloat (-74.1)]) (PyStr "Bogotá, Colombia") []
              [("width", PyInt 300)]
              [PyStr "4.6,-74.1"; PyStr "Bogotá, Colombia"]
              "4.6,-74.1" "Bogotá, Colombia")
    as (ruta & params & _ & Himg & _ & Hsize & Hdpi & _).
  - reflexivity.
  - vm_compute. reflexivity.
  - vm_compute. reflexivity.
  - reflexivity.
  - exists params. split_and!; [|exact Hsize|exact Hdpi].
    by rewrite Himg.
Defined.



Example ambos_route_imagen :
  Ruta.obtener_imagen python route_network calm 0 [] (rutas_sin_imagenes ambos_route)
  = (Raise ResolutionFailed,
     {| Ruta.base := run (Ruta.procesar python route_network 0) ambos_route;
        Ruta._imagen := ∅;
        Ruta.io_trace := [Mkdir "images"] |}).
Proof. vm_compute. reflexivity. Qed.

(** X25 on a coordinate of one element, and on one of three. *)
Lemma tuple_LatLng_to_string_edges_witness :
  _tuple_LatLng_to_string python (PyTuple [PyFloat 4.6]) = Raise IndexError
  ∧ _tuple_LatLng_to_string python
      (PyTuple [PyFloat 4.6; PyFloat (-74.1); PyInt 2600])
    = Ok (PyStr "4.6,-74.1").
Proof.
  destruct (tuple_LatLng_to_string_edges python) as (Hrest & Hshort & _).
  split.
  - apply (Hshort false [PyFloat 4.6]). simpl. lia.
  - eapply eq_trans; [apply (Hrest false (PyFloat 4.6) (PyFloat (-74.1)) [PyInt 2600])|].
    vm_compute. reflexivity.
Defined.

(** X6 on a call whose keywords name [latlng], and on a coordinate of
    one element. *)
Example Localizacion_call_raises :
  Localizacion.call bing (PyTuple [PyFloat 4.6; PyFloat (-74.1)]) PyNone
    [("latlng", PyTuple [PyFloat 4.7; PyFloat (-74.0)])] empty_world
  = (Raise TypeError, empty_world)
  ∧ Localizacion.call bing (PyTuple [PyFloat 4.6]) PyNone [] empty_world
    = (Raise IndexError, empty_world)
  ∧ Localizacion.call bing (PyTuple [PyFloat 4.6; PyFloat (-74.1)]) PyNone
      [("culture", PyStr "es")] empty_world
    = Localizacion.new bing (PyTuple [PyFloat 4.6; PyFloat (-74.1)]) PyNone
        [("culture", PyStr "es")] empty_world.
Proof. vm_compute. split_and!; reflexivity. Qed.

(** The characters of a text that is not ASCII. *)
Example py_tuple_Bogota :
  py_tuple (PyStr "Bogotá €") =
  Ok (PyTuple [PyStr "B"; PyStr "o"; PyStr "g"; PyStr "o"; PyStr "t"; PyStr "á";
               PyStr " "; PyStr "€"])
  ∧ getitem_idx (PyStr "Bogotá €") 5 = Ok (PyStr "á")
  ∧ getitem_idx (PyStr "Bogotá €") 8 = Raise IndexError.
Proof. vm_compute. split_and!; reflexivity. Qed.
